(** * BrewOps backend: stock ledger, payment reconciliation, supplier lifecycle

    A shallow embedding of the parts of the backend that move quantity
    between supply records, inventory lots and production runs, that merge the
    [payments] and [supply_records] tables into one payment view, and that
    issue and repair supplier identifiers.

    Conventions of the model.
    - A SQL table is a finite map from the AUTO_INCREMENT primary key to the
      row ([gmap Z row]); [SELECT ... ORDER BY] is the list of rows sorted by a
      stable sort, [UPDATE ... WHERE id = ?] is [alter] at the key.
    - Quantities, prices and amounts are whole numbers ([Z]), in the store and
      in the requests: on whole numbers below 2^53 the [+], [-], [*],
      [Math.min], [parseFloat] and the comparisons of the code are exact, so
      the arithmetic of [Z] is theirs.  Fractional values, on which the code
      rounds in binary floating point and the DECIMAL(10,2) columns round to
      two places, are outside the model, except for the supply check of
      createInventory, which [Doubles] gives in binary64; where the code reads
      a raw body value with [parseInt] the value is modelled as it comes
      ([Js.value]).
      Timestamps are epoch milliseconds, dates are day numbers.
    - An asynchronous function that reads and writes the database is a
      function from the database to the new database and its result; a thrown
      JavaScript [Error] is the [Throw] outcome carrying its message.
    - Clock readings and random draws are arguments: one request is served at
      one clock reading.
    - The database server itself never fails; the storage errors that are
      modelled are the duplicate-key error of a UNIQUE column and the refusal
      of a foreign key or of a column assignment. *)

From Stdlib Require Import ZArith Lia Ascii String.
From Stdlib Require PrimFloat Uint63.
From stdpp Require Import gmap strings list sorting pretty.

Local Open Scope Z_scope.

(** ** JavaScript and SQL primitives *)

Module Js.

Fixpoint zeros (n : nat) : string :=
  match n with
  | O => ""
  | S n' => String "0"%char (zeros n')
  end.

(** [s.padStart(target, "0")] *)
Definition padStart0 (target : nat) (s : string) : string :=
  zeros (target - String.length s) +:+ s.

(** [n.toString()] for an integer [n] *)
Definition toString (n : Z) : string := pretty n.

(** [s.slice(-k)] *)
Definition slice_last (k : nat) (s : string) : string :=
  substring (String.length s - k) k s.

(** [s.slice(0, k)] *)
Definition slice_first (k : nat) (s : string) : string := substring 0 k s.

Definition is_digit (c : ascii) : bool :=
  let n := Z.of_nat (nat_of_ascii c) in (48 <=? n) && (n <=? 57).

Definition digit_value (c : ascii) : Z := Z.of_nat (nat_of_ascii c) - 48.

Fixpoint all_digits (s : string) : bool :=
  match s with
  | "" => true
  | String c r => is_digit c && all_digits r
  end.

Fixpoint parse_digits (acc : Z) (s : string) : Z :=
  match s with
  | "" => acc
  | String c r =>
      if is_digit c then parse_digits (acc * 10 + digit_value c) r else acc
  end.

(** [parseInt(s)] on a string without sign or leading blanks: the value of
    the longest prefix of decimal digits, [None] (NaN) when there is none. *)
Definition parseInt (s : string) : option Z :=
  match s with
  | "" => None
  | String c _ => if is_digit c then Some (parse_digits 0 s) else None
  end.

(** [s.startsWith(p)] *)
Fixpoint startsWith (p s : string) : bool :=
  match p, s with
  | "", _ => true
  | String a p', String b s' => bool_decide (a = b) && startsWith p' s'
  | String _ _, "" => false
  end.

Fixpoint drop (n : nat) (s : string) : string :=
  match n, s with
  | O, _ => s
  | S n', String _ r => drop n' r
  | S _, "" => ""
  end.

(** [s.includes(p)] *)
Fixpoint includes (p s : string) : bool :=
  startsWith p s ||
  match s with
  | "" => false
  | String _ r => includes p r
  end.

(** The capture of [/SUP(\d{6})/] when the match starts at the head of [s]. *)
Definition capture_SUP_d6_here (s : string) : option string :=
  if startsWith "SUP" s then
    let d := slice_first 6 (drop 3 s) in
    if bool_decide (String.length d = 6%nat) && all_digits d
    then Some d else None
  else None.

(** [s.match(/SUP(\d{6})/)]: the capture group of the leftmost match. *)
Fixpoint match_SUP_d6 (s : string) : option string :=
  match capture_SUP_d6_here s with
  | Some d => Some d
  | None =>
      match s with
      | "" => None
      | String _ r => match_SUP_d6 r
      end
  end.

(** A value is falsy when it is undefined, null or the empty string. *)
Definition falsy_string (o : option string) : bool :=
  match o with
  | None => true
  | Some s => bool_decide (s = "")
  end.

(** [a || b] on optional numbers: zero and undefined are falsy. *)
Definition or_number (a b : option Z) : option Z :=
  match a with
  | Some x => if x =? 0 then b else a
  | None => b
  end.

Definition falsy_number (o : option Z) : bool :=
  match o with
  | None => true
  | Some x => x =? 0
  end.

(** A property of an object that can be missing: [undefined], [null], or a
    value. *)
Inductive optional (A : Type) :=
| Undefined
| Null
| Defined (a : A).
Arguments Undefined {A}.
Arguments Null {A}.
Arguments Defined {A} a.

(** What a nullable column stores for it; an [undefined] has no stored
    form. *)
Definition to_column {A} (o : optional A) : option A :=
  match o with
  | Defined a => Some a
  | _ => None
  end.

(** A value of a request body that the code reads with [!v] and
    [parseInt(v)]: absent ([undefined] or [null]), a number, or a string.  A
    number is given by its decimal notation [String(v)], the text that
    [parseInt] reads: [Num "70"] is 70 and [Num "10.9"] is 10.9. *)
Inductive value :=
| Absent
| Num (notation : string)
| Str (s : string).

(** [!!v]: true for a number other than 0 and NaN and for a string other
    than the empty one. *)
Definition truthy (v : value) : bool :=
  match v with
  | Absent => false
  | Num n => negb (bool_decide (n = "0")) && negb (bool_decide (n = "NaN"))
  | Str s => negb (bool_decide (s = ""))
  end.

(** [!!value] for an array: every object is truthy, the empty array too. *)
Definition truthy_array {A} (rows : list A) : bool := true.

(** White space that [parseInt] skips (the ASCII part of it). *)
Definition is_white_space (c : ascii) : bool :=
  let n := Z.of_nat (nat_of_ascii c) in
  ((9 <=? n) && (n <=? 13)) || (n =? 32).

Fixpoint trim_start (s : string) : string :=
  match s with
  | "" => ""
  | String c r => if is_white_space c then trim_start r else s
  end.

Definition hex_digit_value (c : ascii) : option Z :=
  let n := Z.of_nat (nat_of_ascii c) in
  if (48 <=? n) && (n <=? 57) then Some (n - 48)
  else if (65 <=? n) && (n <=? 70) then Some (n - 55)
  else if (97 <=? n) && (n <=? 102) then Some (n - 87)
  else None.

Fixpoint parse_hex_digits (acc : Z) (s : string) : Z :=
  match s with
  | "" => acc
  | String c r =>
      match hex_digit_value c with
      | Some d => parse_hex_digits (acc * 16 + d) r
      | None => acc
      end
  end.

(** The digits of [parseInt] after the sign: hexadecimal after [0x] or [0X],
    decimal otherwise; [None] (NaN) when no digit follows. *)
Definition parse_unsigned (s : string) : option Z :=
  let hex (r : string) : option Z :=
    match r with
    | "" => None
    | String c _ =>
        match hex_digit_value c with
        | Some _ => Some (parse_hex_digits 0 r)
        | None => None
        end
    end in
  match s with
  | String "0" (String "x" r) => hex r
  | String "0" (String "X" r) => hex r
  | _ => parseInt s
  end.

(** [parseInt(s)] without a radix on any string: leading white space, a sign,
    then the digits. *)
Definition parseInt_string (s : string) : option Z :=
  match trim_start s with
  | String "-" r => Z.opp <$> parse_unsigned r
  | String "+" r => parse_unsigned r
  | r => parse_unsigned r
  end.

(** [parseInt(v)]: of the string, or of the notation of the number. *)
Definition parseInt_value (v : value) : option Z :=
  match v with
  | Absent => None
  | Num n => parseInt_string n
  | Str s => parseInt_string s
  end.

(** The observations of a [Date] object that the code makes. *)
Record Date := mkDate {
  getFullYear : Z;
  getMonth : Z;
  getDate : Z;
  getHours : Z;
  getMinutes : Z;
  getTime : Z;           (* epoch milliseconds, also [Date.now()] *)
  toTimeString : string
}.

(** A thrown [Error] object, as far as the handlers inspect it. *)
Record Error := mkError {
  err_name : string;
  err_parent_code : option string;
  err_message : string
}.

(** The double quote, for messages that contain it. *)
Definition quote : string := String "034"%char "".

(** [new Error(msg)] *)
Definition new_Error (msg : string) : Error :=
  {| err_name := "Error"; err_parent_code := None; err_message := msg |}.

(** Array.prototype.sort with a comparator that orders by [le]: a stable
    sort (insertion from the right keeps equal elements in input order). *)
Section sort.
Context {A : Type} (le : A → A → bool).

Fixpoint insert_sorted (x : A) (l : list A) : list A :=
  match l with
  | [] => [x]
  | y :: l' => if le x y then x :: y :: l' else y :: insert_sorted x l'
  end.

Definition sort (l : list A) : list A := foldr insert_sorted [] l.
End sort.

End Js.

Module Sql.

(** [s REGEXP '^SUP[0-9]{6}$'] *)
Definition regexp_SUP6 (s : string) : bool :=
  bool_decide (String.length s = 9%nat) && Js.startsWith "SUP" s
  && Js.all_digits (Js.drop 3 s).

(** [DATE(ts)]: the day number of a timestamp. *)
Definition DATE (ts : Z) : Z := ts / 86400000.

(** [ORDER BY key DESC] and [ORDER BY key ASC] over a result set. *)
Definition order_by_desc {A} (key : A → Z) (l : list A) : list A :=
  Js.sort (λ a b, key b <=? key a) l.

Definition order_by_asc {A} (key : A → Z) (l : list A) : list A :=
  Js.sort (λ a b, key a <=? key b) l.

(** [LIMIT n] when a limit is given. *)
Definition limit {A} (lim : option nat) (l : list A) : list A :=
  match lim with
  | Some n => take n l
  | None => l
  end.

(** [SUM(...)]: NULL over no rows. *)
Definition SUM (l : list Z) : option Z :=
  match l with
  | [] => None
  | _ => Some (foldr Z.add 0 l)
  end.

(** The values of the time expressions the server evaluates for one
    statement: [NOW()], [DATE_SUB(NOW(), INTERVAL 6 MONTH)], [CURDATE()]
    and [DATE_SUB(CURDATE(), INTERVAL 6 MONTH)]. *)
Record clock := mkClock {
  NOW : Z;
  NOW_minus_6_month : Z;
  CURDATE : Z;
  CURDATE_minus_6_month : Z
}.

(** The error the driver throws for a duplicate value in a UNIQUE column:
    code ER_DUP_ENTRY on the error itself, no [parent]. *)
Definition ER_DUP_ENTRY : Js.Error :=
  {| Js.err_name := "Error"; Js.err_parent_code := None;
     Js.err_message := "Duplicate entry for key" |}.

(** The errors of a statement the server refuses: a foreign key without its
    row, NULL for a NOT NULL column, a value that is no member of an ENUM. *)
Definition ER_NO_REFERENCED_ROW_2 : Js.Error :=
  {| Js.err_name := "Error"; Js.err_parent_code := None;
     Js.err_message := "Cannot add or update a child row: a foreign key constraint fails" |}.

Definition ER_BAD_NULL_ERROR : Js.Error :=
  {| Js.err_name := "Error"; Js.err_parent_code := None;
     Js.err_message := "Column cannot be null" |}.

Definition WARN_DATA_TRUNCATED : Js.Error :=
  {| Js.err_name := "Error"; Js.err_parent_code := None;
     Js.err_message := "Data truncated for column" |}.

End Sql.

(** ** Outcomes of calls that may throw *)

Inductive outcome (A : Type) : Type :=
| Ok (a : A)
| Throw (e : Js.Error).
Arguments Ok {A} a.
Arguments Throw {A} e.

(** ** The schema (createTables) *)

Inductive role := supplier | staff | manager | admin.
Inductive user_status := active | inactive | pending.
Inductive supply_payment_method := spot | monthly.
Inductive supply_payment_status := paid | unpaid.
Inductive payment_state := p_pending | p_completed | p_failed | p_cancelled | p_refunded.
Inductive payment_source := source_payment | source_supply_record.

#[global] Instance role_eq_dec : EqDecision role.
Proof. solve_decision. Defined.
#[global] Instance user_status_eq_dec : EqDecision user_status.
Proof. solve_decision. Defined.
#[global] Instance supply_payment_method_eq_dec : EqDecision supply_payment_method.
Proof. solve_decision. Defined.
#[global] Instance supply_payment_status_eq_dec : EqDecision supply_payment_status.
Proof. solve_decision. Defined.
#[global] Instance payment_state_eq_dec : EqDecision payment_state.
Proof. solve_decision. Defined.
#[global] Instance payment_source_eq_dec : EqDecision payment_source.
Proof. solve_decision. Defined.

(** Table [users] (the columns the supplier code reads or writes). *)
Record user := mkUser {
  u_name : string;
  u_email : string;
  u_phone : option string;
  u_role : role;
  u_supplier_id : option string;
  u_status : user_status;
  u_address : option string;
  u_bank_name : option string;
  u_account_number : option string;
  u_created_at : Z;
  u_updated_at : Z
}.

(** Table [supply_records]. *)
Record supply_record := mkSupplyRecord {
  sr_supply_id : string;
  sr_supplier_id : Z;
  sr_quantity_kg : Z;
  sr_remaining_quantity_kg : Z;
  sr_unit_price : Z;
  sr_total_payment : Z;
  sr_payment_method : supply_payment_method;
  sr_payment_status : supply_payment_status;
  sr_supply_date : Z;
  sr_supply_time : string;
  sr_notes : option string;
  sr_created_at : Z;
  sr_updated_at : Z
}.

(** Table [payments]. *)
Record payment := mkPayment {
  p_payment_id : string;
  p_supply_record_id : Z;
  p_supplier_id : Z;
  p_amount : Z;
  p_currency : string;
  p_payment_method : string;
  p_payment_gateway : option string;
  p_gateway_session_id : option string;
  p_gateway_payment_id : option string;
  p_payment_status : payment_state;
  p_payment_date : option Z;
  p_payment_notes : option string;
  p_gateway_response : option string;
  p_created_by : option Z;
  p_created_at : Z;
  p_updated_at : Z
}.

(** Table [inventory]. *)
Record inventory_lot := mkInventoryLot {
  inv_inventoryid : string;
  inv_quantity : Z;
  inv_createdAt : Z;
  inv_updatedAt : Z
}.

(** Table [production_data]. *)
Record production := mkProduction {
  pr_production_id : string;
  pr_quantity : Z;
  pr_production_date : Z;
  pr_production_time : string;
  pr_created_at : Z;
  pr_updated_at : Z
}.

Record database := mkDatabase {
  users : gmap Z user;
  supply_records : gmap Z supply_record;
  payments : gmap Z payment;
  inventory : gmap Z inventory_lot;
  production_data : gmap Z production
}.

Definition with_users (f : gmap Z user → gmap Z user) (db : database) : database :=
  {| users := f (users db); supply_records := supply_records db;
     payments := payments db; inventory := inventory db;
     production_data := production_data db |}.

Definition with_supply_records
    (f : gmap Z supply_record → gmap Z supply_record) (db : database) : database :=
  {| users := users db; supply_records := f (supply_records db);
     payments := payments db; inventory := inventory db;
     production_data := production_data db |}.

Definition with_inventory
    (f : gmap Z inventory_lot → gmap Z inventory_lot) (db : database) : database :=
  {| users := users db; supply_records := supply_records db;
     payments := payments db; inventory := f (inventory db);
     production_data := production_data db |}.

Definition with_production_data
    (f : gmap Z production → gmap Z production) (db : database) : database :=
  {| users := users db; supply_records := supply_records db;
     payments := payments db; inventory := inventory db;
     production_data := f (production_data db) |}.

Definition with_payments
    (f : gmap Z payment → gmap Z payment) (db : database) : database :=
  {| users := users db; supply_records := supply_records db;
     payments := f (payments db); inventory := inventory db;
     production_data := production_data db |}.

(** Column assignments of the UPDATE statements. *)

Definition set_u_supplier_id (v : option string) (u : user) : user :=
  {| u_name := u_name u; u_email := u_email u; u_phone := u_phone u;
     u_role := u_role u; u_supplier_id := v; u_status := u_status u;
     u_address := u_address u; u_bank_name := u_bank_name u;
     u_account_number := u_account_number u;
     u_created_at := u_created_at u; u_updated_at := u_updated_at u |}.

Definition set_u_account_number (v : option string) (u : user) : user :=
  {| u_name := u_name u; u_email := u_email u; u_phone := u_phone u;
     u_role := u_role u; u_supplier_id := u_supplier_id u; u_status := u_status u;
     u_address := u_address u; u_bank_name := u_bank_name u;
     u_account_number := v;
     u_created_at := u_created_at u; u_updated_at := u_updated_at u |}.

Definition set_u_updated_at (v : Z) (u : user) : user :=
  {| u_name := u_name u; u_email := u_email u; u_phone := u_phone u;
     u_role := u_role u; u_supplier_id := u_supplier_id u; u_status := u_status u;
     u_address := u_address u; u_bank_name := u_bank_name u;
     u_account_number := u_account_number u;
     u_created_at := u_created_at u; u_updated_at := v |}.

Definition set_u_status (v : user_status) (now : Z) (u : user) : user :=
  {| u_name := u_name u; u_email := u_email u; u_phone := u_phone u;
     u_role := u_role u; u_supplier_id := u_supplier_id u; u_status := v;
     u_address := u_address u; u_bank_name := u_bank_name u;
     u_account_number := u_account_number u;
     u_created_at := u_created_at u; u_updated_at := now |}.

Definition set_sr_supply_id (v : string) (r : supply_record) : supply_record :=
  {| sr_supply_id := v; sr_supplier_id := sr_supplier_id r;
     sr_quantity_kg := sr_quantity_kg r;
     sr_remaining_quantity_kg := sr_remaining_quantity_kg r;
     sr_unit_price := sr_unit_price r; sr_total_payment := sr_total_payment r;
     sr_payment_method := sr_payment_method r;
     sr_payment_status := sr_payment_status r;
     sr_supply_date := sr_supply_date r; sr_supply_time := sr_supply_time r;
     sr_notes := sr_notes r; sr_created_at := sr_created_at r;
     sr_updated_at := sr_updated_at r |}.

Definition set_sr_supplier_id (v : Z) (r : supply_record) : supply_record :=
  {| sr_supply_id := sr_supply_id r; sr_supplier_id := v;
     sr_quantity_kg := sr_quantity_kg r;
     sr_remaining_quantity_kg := sr_remaining_quantity_kg r;
     sr_unit_price := sr_unit_price r; sr_total_payment := sr_total_payment r;
     sr_payment_method := sr_payment_method r;
     sr_payment_status := sr_payment_status r;
     sr_supply_date := sr_supply_date r; sr_supply_time := sr_supply_time r;
     sr_notes := sr_notes r; sr_created_at := sr_created_at r;
     sr_updated_at := sr_updated_at r |}.

Definition set_sr_quantity_kg (v : Z) (r : supply_record) : supply_record :=
  {| sr_supply_id := sr_supply_id r; sr_supplier_id := sr_supplier_id r;
     sr_quantity_kg := v;
     sr_remaining_quantity_kg := sr_remaining_quantity_kg r;
     sr_unit_price := sr_unit_price r; sr_total_payment := sr_total_payment r;
     sr_payment_method := sr_payment_method r;
     sr_payment_status := sr_payment_status r;
     sr_supply_date := sr_supply_date r; sr_supply_time := sr_supply_time r;
     sr_notes := sr_notes r; sr_created_at := sr_created_at r;
     sr_updated_at := sr_updated_at r |}.

Definition set_sr_remaining_quantity_kg (v : Z) (r : supply_record) : supply_record :=
  {| sr_supply_id := sr_supply_id r; sr_supplier_id := sr_supplier_id r;
     sr_quantity_kg := sr_quantity_kg r;
     sr_remaining_quantity_kg := v;
     sr_unit_price := sr_unit_price r; sr_total_payment := sr_total_payment r;
     sr_payment_method := sr_payment_method r;
     sr_payment_status := sr_payment_status r;
     sr_supply_date := sr_supply_date r; sr_supply_time := sr_supply_time r;
     sr_notes := sr_notes r; sr_created_at := sr_created_at r;
     sr_updated_at := sr_updated_at r |}.

Definition set_sr_unit_price (v : Z) (r : supply_record) : supply_record :=
  {| sr_supply_id := sr_supply_id r; sr_supplier_id := sr_supplier_id r;
     sr_quantity_kg := sr_quantity_kg r;
     sr_remaining_quantity_kg := sr_remaining_quantity_kg r;
     sr_unit_price := v; sr_total_payment := sr_total_payment r;
     sr_payment_method := sr_payment_method r;
     sr_payment_status := sr_payment_status r;
     sr_supply_date := sr_supply_date r; sr_supply_time := sr_supply_time r;
     sr_notes := sr_notes r; sr_created_at := sr_created_at r;
     sr_updated_at := sr_updated_at r |}.

Definition set_sr_total_payment (v : Z) (r : supply_record) : supply_record :=
  {| sr_supply_id := sr_supply_id r; sr_supplier_id := sr_supplier_id r;
     sr_quantity_kg := sr_quantity_kg r;
     sr_remaining_quantity_kg := sr_remaining_quantity_kg r;
     sr_unit_price := sr_unit_price r; sr_total_payment := v;
     sr_payment_method := sr_payment_method r;
     sr_payment_status := sr_payment_status r;
     sr_supply_date := sr_supply_date r; sr_supply_time := sr_supply_time r;
     sr_notes := sr_notes r; sr_created_at := sr_created_at r;
     sr_updated_at := sr_updated_at r |}.

Definition set_sr_payment_method (v : supply_payment_method) (r : supply_record)
    : supply_record :=
  {| sr_supply_id := sr_supply_id r; sr_supplier_id := sr_supplier_id r;
     sr_quantity_kg := sr_quantity_kg r;
     sr_remaining_quantity_kg := sr_remaining_quantity_kg r;
     sr_unit_price := sr_unit_price r; sr_total_payment := sr_total_payment r;
     sr_payment_method := v;
     sr_payment_status := sr_payment_status r;
     sr_supply_date := sr_supply_date r; sr_supply_time := sr_supply_time r;
     sr_notes := sr_notes r; sr_created_at := sr_created_at r;
     sr_updated_at := sr_updated_at r |}.

Definition set_sr_payment_status (v : supply_payment_status) (r : supply_record)
    : supply_record :=
  {| sr_supply_id := sr_supply_id r; sr_supplier_id := sr_supplier_id r;
     sr_quantity_kg := sr_quantity_kg r;
     sr_remaining_quantity_kg := sr_remaining_quantity_kg r;
     sr_unit_price := sr_unit_price r; sr_total_payment := sr_total_payment r;
     sr_payment_method := sr_payment_method r;
     sr_payment_status := v;
     sr_supply_date := sr_supply_date r; sr_supply_time := sr_supply_time r;
     sr_notes := sr_notes r; sr_created_at := sr_created_at r;
     sr_updated_at := sr_updated_at r |}.

Definition set_sr_supply_date (v : Z) (r : supply_record) : supply_record :=
  {| sr_supply_id := sr_supply_id r; sr_supplier_id := sr_supplier_id r;
     sr_quantity_kg := sr_quantity_kg r;
     sr_remaining_quantity_kg := sr_remaining_quantity_kg r;
     sr_unit_price := sr_unit_price r; sr_total_payment := sr_total_payment r;
     sr_payment_method := sr_payment_method r;
     sr_payment_status := sr_payment_status r;
     sr_supply_date := v; sr_supply_time := sr_supply_time r;
     sr_notes := sr_notes r; sr_created_at := sr_created_at r;
     sr_updated_at := sr_updated_at r |}.

Definition set_sr_supply_time (v : string) (r : supply_record) : supply_record :=
  {| sr_supply_id := sr_supply_id r; sr_supplier_id := sr_supplier_id r;
     sr_quantity_kg := sr_quantity_kg r;
     sr_remaining_quantity_kg := sr_remaining_quantity_kg r;
     sr_unit_price := sr_unit_price r; sr_total_payment := sr_total_payment r;
     sr_payment_method := sr_payment_method r;
     sr_payment_status := sr_payment_status r;
     sr_supply_date := sr_supply_date r; sr_supply_time := v;
     sr_notes := sr_notes r; sr_created_at := sr_created_at r;
     sr_updated_at := sr_updated_at r |}.

Definition set_sr_notes (v : option string) (r : supply_record) : supply_record :=
  {| sr_supply_id := sr_supply_id r; sr_supplier_id := sr_supplier_id r;
     sr_quantity_kg := sr_quantity_kg r;
     sr_remaining_quantity_kg := sr_remaining_quantity_kg r;
     sr_unit_price := sr_unit_price r; sr_total_payment := sr_total_payment r;
     sr_payment_method := sr_payment_method r;
     sr_payment_status := sr_payment_status r;
     sr_supply_date := sr_supply_date r; sr_supply_time := sr_supply_time r;
     sr_notes := v; sr_created_at := sr_created_at r;
     sr_updated_at := sr_updated_at r |}.

Definition set_sr_created_at (v : Z) (r : supply_record) : supply_record :=
  {| sr_supply_id := sr_supply_id r; sr_supplier_id := sr_supplier_id r;
     sr_quantity_kg := sr_quantity_kg r;
     sr_remaining_quantity_kg := sr_remaining_quantity_kg r;
     sr_unit_price := sr_unit_price r; sr_total_payment := sr_total_payment r;
     sr_payment_method := sr_payment_method r;
     sr_payment_status := sr_payment_status r;
     sr_supply_date := sr_supply_date r; sr_supply_time := sr_supply_time r;
     sr_notes := sr_notes r; sr_created_at := v;
     sr_updated_at := sr_updated_at r |}.

Definition set_sr_updated_at (v : Z) (r : supply_record) : supply_record :=
  {| sr_supply_id := sr_supply_id r; sr_supplier_id := sr_supplier_id r;
     sr_quantity_kg := sr_quantity_kg r;
     sr_remaining_quantity_kg := sr_remaining_quantity_kg r;
     sr_unit_price := sr_unit_price r; sr_total_payment := sr_total_payment r;
     sr_payment_method := sr_payment_method r;
     sr_payment_status := sr_payment_status r;
     sr_supply_date := sr_supply_date r; sr_supply_time := sr_supply_time r;
     sr_notes := sr_notes r; sr_created_at := sr_created_at r;
     sr_updated_at := v |}.

Definition set_inv_quantity (v : Z) (now : Z) (i : inventory_lot) : inventory_lot :=
  {| inv_inventoryid := inv_inventoryid i; inv_quantity := v;
     inv_createdAt := inv_createdAt i; inv_updatedAt := now |}.

Definition set_inv_inventoryid (v : string) (now : Z) (i : inventory_lot)
    : inventory_lot :=
  {| inv_inventoryid := v; inv_quantity := inv_quantity i;
     inv_createdAt := inv_createdAt i; inv_updatedAt := now |}.

(** [SELECT *] over a table: the rows with their primary key. *)
Definition select_all {A} (t : gmap Z A) : list (Z * A) := map_to_list t.

(** The key an AUTO_INCREMENT column gives the next inserted row: above
    every key of the table, and at least 1. *)
Definition insertId {A} (t : gmap Z A) : Z :=
  foldr Z.max 0 (select_all t).*1 + 1.

(** ** models/supplierModel.js *)

Module SupplierModel.

(** A row of [findAllSupplyRecords]: [sr.*] and the supplier joined on
    [sr.supplier_id = u.id AND u.role = 'supplier']. *)
Record supply_row := mkSupplyRow {
  row_id : Z;
  row_record : supply_record;
  row_supplier : option user
}.

(** Account numbers leave the model masked: three stars and the last four
    characters. *)
Definition mask_account_number (u : user) : user :=
  match u_account_number u with
  | Some a =>
      if bool_decide (a = "") then u
      else set_u_account_number (Some ("***" +:+ Js.slice_last 4 a)) u
  | None => u
  end.

(** supplyIdExists: [SELECT id FROM supply_records WHERE supply_id = ?] has a row. *)
Definition supplyIdExists (supplyId : string) (db : database) : bool :=
  existsb (λ kv, bool_decide (sr_supply_id kv.2 = supplyId))
          (select_all (supply_records db)).

(** The base of a supply id, SUP-YYYYMMDD-HHMM. *)
Definition supply_baseId (now : Js.Date) : string :=
  "SUP-" +:+ Js.toString (Js.getFullYear now)
  +:+ Js.padStart0 2 (Js.toString (Js.getMonth now + 1))
  +:+ Js.padStart0 2 (Js.toString (Js.getDate now))
  +:+ "-" +:+ Js.padStart0 2 (Js.toString (Js.getHours now))
  +:+ Js.padStart0 2 (Js.toString (Js.getMinutes now)).

(** The loop [while (await this.supplyIdExists(supplyId))] of generateSupplyId.
    [fuel] bounds the iterations; with the bound given by [generateSupplyId]
    the loop leaves by its own test before the bound is reached
    (lemma [generateSupplyId_loop_exits]). *)
Fixpoint generateSupplyId_loop (fuel : nat) (baseId supplyId : string)
    (counter : Z) (db : database) : string :=
  match fuel with
  | O => supplyId
  | S fuel' =>
      if supplyIdExists supplyId db then
        generateSupplyId_loop fuel' baseId
          (baseId +:+ "-" +:+ Js.padStart0 2 (Js.toString counter))
          (counter + 1) db
      else supplyId
  end.

Definition generateSupplyId (now : Js.Date) (db : database) : string :=
  let baseId := supply_baseId now in
  generateSupplyId_loop (S (size (supply_records db))) baseId baseId 1 db.

(** supplierIdExists: a user with that supplier_id and role supplier. *)
Definition supplierIdExists (supplierId : string) (db : database) : bool :=
  existsb (λ kv, bool_decide (u_supplier_id kv.2 = Some supplierId)
                 && bool_decide (u_role kv.2 = supplier))
          (select_all (users db)).

(** The first query of generateSupplierId: the supplier ids of the form
    SUP and six digits, by numeric suffix descending. *)
Definition existing_supplier_ids (db : database) : list string :=
  Sql.order_by_desc (λ s, Js.parse_digits 0 (Js.drop 3 s))
    (omap (λ kv : Z * user,
             match u_supplier_id kv.2 with
             | Some s =>
                 if bool_decide (u_role kv.2 = supplier)
                    && negb (bool_decide (s = ""))
                    && Sql.regexp_SUP6 s
                 then Some s else None
             | None => None
             end)
          (select_all (users db))).

(** One step of the scan for the highest number. *)
Definition maxNumber_step (maxNumber : Z) (supplier_id : string) : Z :=
  if bool_decide (supplier_id = "") then maxNumber
  else match Js.match_SUP_d6 supplier_id with
       | Some d =>
           match Js.parseInt d with
           | Some num => if maxNumber <? num then num else maxNumber
           | None => maxNumber
           end
       | None => maxNumber
       end.

Definition maxNumber (rows : list string) : Z := foldl maxNumber_step 0 rows.

Definition nextNumber (db : database) : Z :=
  match existing_supplier_ids db with
  | [] => 1
  | rows => maxNumber rows + 1
  end.

(** The loop [while (attempts < 10)]; [n] is the number of attempts left.
    Returns the final [attempts] and [supplierId]. *)
Fixpoint supplierId_attempts (n : nat) (attempts : Z) (supplierId : string)
    (nextNumber : Z) (db : database) : Z * string :=
  match n with
  | O => (attempts, supplierId)
  | S n' =>
      let supplierId := "SUP" +:+ Js.padStart0 6 (Js.toString (nextNumber + attempts)) in
      if supplierIdExists supplierId db
      then supplierId_attempts n' (attempts + 1) supplierId nextNumber db
      else (attempts, supplierId)
  end.

(** The body of the [try] of generateSupplierId. *)
Definition generateSupplierId_try (db : database) : outcome string :=
  let '(attempts, supplierId) := supplierId_attempts 10 0 "" (nextNumber db) db in
  if bool_decide (supplierId = "") || negb (Js.startsWith "SUP" supplierId)
  then Throw (Js.new_Error "Invalid supplier ID generated")
  else if 10 <=? attempts
  then Throw (Js.new_Error "Could not generate unique supplier ID")
  else Ok supplierId.

Definition fallbackId (now : Js.Date) : string :=
  "SUP" +:+ Js.slice_last 6 (Js.toString (Js.getTime now)).

Definition generateSupplierId (now : Js.Date) (db : database) : string :=
  match generateSupplierId_try db with
  | Ok supplierId => supplierId
  | Throw _ => fallbackId now
  end.

(** [UPDATE users SET supplier_id = ? WHERE id = ? AND role = "supplier"];
    the changed row takes the current timestamp in [updated_at]. *)
Definition update_supplier_id (newSupplierId : string) (id : Z) (now : Z)
    (db : database) : database :=
  with_users
    (alter (λ u, if bool_decide (u_role u = supplier)
                 then set_u_updated_at now (set_u_supplier_id (Some newSupplierId) u)
                 else u) id) db.

(** The loop of findAll over the selected rows. *)
Fixpoint findAll_rows (now : Js.Date) (rows : list (Z * user)) (db : database)
    : database * list (Z * user) :=
  match rows with
  | [] => (db, [])
  | (id, row) :: rest =>
      let '(db1, row1) :=
        if Js.falsy_string (u_supplier_id row) then
          let newSupplierId := generateSupplierId now db in
          (update_supplier_id newSupplierId id (Js.getTime now) db,
           set_u_supplier_id (Some newSupplierId) row)
        else (db, row) in
      let row2 := mask_account_number row1 in
      let '(db2, rest') := findAll_rows now rest db1 in
      (db2, (id, row2) :: rest')
  end.

(** findAll: the suppliers, newest first. *)
Definition findAll (now : Js.Date) (db : database) : database * list (Z * user) :=
  let rows :=
    Sql.order_by_desc (λ kv : Z * user, u_created_at kv.2)
      (filter (λ kv : Z * user, u_role kv.2 = supplier) (select_all (users db))) in
  findAll_rows now rows db.

(** findById with its default [maskBankDetails = true] or an explicit flag. *)
Definition findById (id : Z) (maskBankDetails : bool) (db : database) : option user :=
  match users db !! id with
  | Some u =>
      if bool_decide (u_role u = supplier)
      then Some (if maskBankDetails then mask_account_number u else u)
      else None
  | None => None
  end.

(** The argument of createSupplyRecord after its destructuring defaults. *)
Record supply_data := mkSupplyData {
  d_supplier_id : Z;
  d_quantity : Z;
  d_unit_price : Z;
  d_total_payment : Z;
  d_payment_method : supply_payment_method;
  d_payment_status : supply_payment_status;
  d_supply_date : Z;
  d_notes : Js.optional string
}.

(** The object createSupplyRecord returns. *)
Record created_supply := mkCreatedSupply {
  cs_id : string;
  cs_supply_id : string;
  cs_supplier_id : Z;
  cs_quantity_kg : Z;
  cs_unit_price : Z;
  cs_total_payment : Z;
  cs_payment_method : supply_payment_method;
  cs_payment_status : supply_payment_status;
  cs_supply_date : Z;
  cs_supply_time : string;
  cs_notes : option string;
  cs_created_at : Z
}.

(** createSupplyRecord.  The INSERT names ten columns; [remaining_quantity_kg]
    is not among them and takes its column default 0.  [notes] is bound as it
    was given: [pool.execute] throws on a bind parameter that is [undefined],
    before anything is sent.  The foreign key on [supplier_id] refuses a
    supplier that is no user.  The [catch] replaces every error by one
    message. *)
Definition createSupplyRecord (now : Js.Date) (data : supply_data) (db : database)
    : database * outcome created_supply :=
  let supplyId := generateSupplyId now db in
  let supply_time := Js.slice_first 8 (Js.toTimeString now) in
  match d_notes data, users db !! d_supplier_id data with
  | Js.Undefined, _ => (db, Throw (Js.new_Error "Failed to create supply record"))
  | _, None => (db, Throw (Js.new_Error "Failed to create supply record"))
  | _, Some _ =>
      let row :=
        {| sr_supply_id := supplyId;
           sr_supplier_id := d_supplier_id data;
           sr_quantity_kg := d_quantity data;
           sr_remaining_quantity_kg := 0;
           sr_unit_price := d_unit_price data;
           sr_total_payment := d_total_payment data;
           sr_payment_method := d_payment_method data;
           sr_payment_status := d_payment_status data;
           sr_supply_date := d_supply_date data;
           sr_supply_time := supply_time;
           sr_notes := Js.to_column (d_notes data);
           sr_created_at := Js.getTime now;
           sr_updated_at := Js.getTime now |} in
      (with_supply_records (insert (insertId (supply_records db)) row) db,
       Ok {| cs_id := supplyId; cs_supply_id := supplyId;
             cs_supplier_id := d_supplier_id data;
             cs_quantity_kg := d_quantity data;
             cs_unit_price := d_unit_price data;
             cs_total_payment := d_total_payment data;
             cs_payment_method := d_payment_method data;
             cs_payment_status := d_payment_status data;
             cs_supply_date := d_supply_date data;
             cs_supply_time := supply_time;
             cs_notes := Js.to_column (d_notes data);
             cs_created_at := Js.getTime now |})
  end.

(** [UPDATE supply_records SET supply_id = ? WHERE id = ?]. *)
Definition update_supply_id (newSupplyId : string) (id : Z) (now : Z)
    (db : database) : database :=
  with_supply_records
    (alter (λ r, set_sr_updated_at now (set_sr_supply_id newSupplyId r)) id) db.

Definition join_supplier (db : database) (r : supply_record) : option user :=
  match users db !! sr_supplier_id r with
  | Some u => if bool_decide (u_role u = supplier) then Some u else None
  | None => None
  end.

(** The loop of findAllSupplyRecords over the selected rows. *)
Fixpoint findAllSupplyRecords_rows (now : Js.Date) (rows : list supply_row)
    (db : database) : database * list supply_row :=
  match rows with
  | [] => (db, [])
  | row :: rest =>
      let '(db1, row1) :=
        if bool_decide (sr_supply_id (row_record row) = "") then
          let newSupplyId := generateSupplyId now db in
          (update_supply_id newSupplyId (row_id row) (Js.getTime now) db,
           {| row_id := row_id row;
              row_record := set_sr_supply_id newSupplyId (row_record row);
              row_supplier := row_supplier row |})
        else (db, row) in
      let '(db2, rest') := findAllSupplyRecords_rows now rest db1 in
      (db2, row1 :: rest')
  end.

(** findAllSupplyRecords: every supply record with its supplier, newest first. *)
Definition findAllSupplyRecords (now : Js.Date) (db : database)
    : database * list supply_row :=
  let rows :=
    Sql.order_by_desc (λ row, sr_created_at (row_record row))
      ((λ kv : Z * supply_record,
          {| row_id := kv.1; row_record := kv.2;
             row_supplier := join_supplier db kv.2 |})
       <$> select_all (supply_records db)) in
  findAllSupplyRecords_rows now rows db.

(** findSupplyRecordById: the record and its supplier, or null. *)
Definition findSupplyRecordById (id : Z) (maskBankDetails : bool) (db : database)
    : option (supply_record * option user) :=
  match supply_records db !! id with
  | Some r =>
      Some (r, (λ u, if maskBankDetails then mask_account_number u else u)
               <$> join_supplier db r)
  | None => None
  end.

(** A value of the [data] object of updateSupplyRecord. *)
Inductive js_value :=
| V_number (n : Z)
| V_string (s : string)
| V_null.

(** [(currentTime - createdAt) / (1000 * 60) > minutes]: the quotient is exact,
    so the comparison is the one of the difference with the minutes in
    milliseconds. *)
Definition timeDifference_exceeds (minutes currentTime createdAt : Z) : bool :=
  minutes * (1000 * 60) <? currentTime - createdAt.

Definition edit_window_message : string :=
  "Supply record can only be edited within 15 minutes of creation. This record was created more than 15 minutes ago.".

Definition delete_window_message : string :=
  "Supply record can only be deleted within 15 minutes of creation. This record was created more than 15 minutes ago.".

(** The (column, value) pairs the loop over [Object.keys(data)] collects:
    undefined values and the key id are skipped, quantity is renamed. *)
Definition update_fields (data : list (string * option js_value))
    : list (string * js_value) :=
  omap (λ kv : string * option js_value,
          match kv.2 with
          | Some v =>
              if bool_decide (kv.1 = "id") then None
              else Some (if bool_decide (kv.1 = "quantity") then "quantity_kg" else kv.1, v)
          | None => None
          end) data.

(** One assignment [col = ?] of the UPDATE on the row [id]; [None] when the
    server refuses it (no such column, a value that does not fit the column,
    a duplicate supply_id, a supplier_id that is no user). *)
Definition assign_column (db : database) (id : Z) (r : supply_record)
    (cv : string * js_value) : option supply_record :=
  let col := cv.1 in
  match cv.2 with
  | V_number n =>
      if bool_decide (col = "quantity_kg") then Some (set_sr_quantity_kg n r)
      else if bool_decide (col = "remaining_quantity_kg")
      then Some (set_sr_remaining_quantity_kg n r)
      else if bool_decide (col = "unit_price") then Some (set_sr_unit_price n r)
      else if bool_decide (col = "total_payment") then Some (set_sr_total_payment n r)
      else if bool_decide (col = "supply_date") then Some (set_sr_supply_date n r)
      else if bool_decide (col = "created_at") then Some (set_sr_created_at n r)
      else if bool_decide (col = "updated_at") then Some (set_sr_updated_at n r)
      else if bool_decide (col = "supplier_id")
      then match users db !! n with
           | Some _ => Some (set_sr_supplier_id n r)
           | None => None
           end
      else None
  | V_string s =>
      if bool_decide (col = "supply_id")
      then if existsb (λ kv : Z * supply_record,
                         bool_decide (sr_supply_id kv.2 = s)
                         && negb (bool_decide (kv.1 = id)))
                      (select_all (supply_records db))
           then None else Some (set_sr_supply_id s r)
      else if bool_decide (col = "payment_method")
      then if bool_decide (s = "spot") then Some (set_sr_payment_method spot r)
           else if bool_decide (s = "monthly") then Some (set_sr_payment_method monthly r)
           else None
      else if bool_decide (col = "payment_status")
      then if bool_decide (s = "paid") then Some (set_sr_payment_status paid r)
           else if bool_decide (s = "unpaid") then Some (set_sr_payment_status unpaid r)
           else None
      else if bool_decide (col = "supply_time") then Some (set_sr_supply_time s r)
      else if bool_decide (col = "notes") then Some (set_sr_notes (Some s) r)
      else None
  | V_null =>
      if bool_decide (col = "notes") then Some (set_sr_notes None r) else None
  end.

(** [UPDATE supply_records SET f1 = ?, ..., updated_at = NOW() WHERE id = ?]
    on the row [r]: the assignments in order. *)
Definition apply_update (db : database) (id : Z) (now : Z)
    (fields : list (string * js_value)) (r : supply_record) : option supply_record :=
  set_sr_updated_at now <$>
    foldl (λ acc cv, acc ≫= λ r', assign_column db id r' cv) (Some r) fields.

(** updateSupplyRecord.  Every error thrown in its [try] is thrown again with
    its own message. *)
Definition updateSupplyRecord (now : Js.Date) (id : Z)
    (data : list (string * option js_value)) (db : database)
    : database * outcome (option (supply_record * option user)) :=
  match supply_records db !! id with
  | None => (db, Throw (Js.new_Error "Supply record not found"))
  | Some existingRecord =>
      if timeDifference_exceeds 15 (Js.getTime now) (sr_created_at existingRecord)
      then (db, Throw (Js.new_Error edit_window_message))
      else
        let fields := update_fields data in
        match fields with
        | [] => (db, Throw (Js.new_Error "No fields to update"))
        | _ =>
            match apply_update db id (Js.getTime now) fields existingRecord with
            | None => (db, Throw (Js.new_Error "SQL error"))
            | Some r' =>
                let db' := with_supply_records (insert id r') db in
                (db', Ok (findSupplyRecordById id true db'))
            end
        end
  end.

(** [DELETE FROM supply_records WHERE id = ?]; the payments of the record go
    with it (ON DELETE CASCADE). *)
Definition delete_supply_record (id : Z) (db : database) : database :=
  {| users := users db;
     supply_records := delete id (supply_records db);
     payments := filter (λ kv : Z * payment, p_supply_record_id kv.2 ≠ id) (payments db);
     inventory := inventory db;
     production_data := production_data db |}.

(** deleteSupplyRecord.  Its [catch] replaces every error by one message. *)
Definition deleteSupplyRecord (now : Js.Date) (id : Z) (db : database)
    : database * outcome string :=
  match supply_records db !! id with
  | None => (db, Throw (Js.new_Error "Failed to delete supply record"))
  | Some existingRecord =>
      if timeDifference_exceeds 15 (Js.getTime now) (sr_created_at existingRecord)
      then (db, Throw (Js.new_Error "Failed to delete supply record"))
      else (delete_supply_record id db, Ok "Supply record deleted successfully")
  end.

(** The derived table [recent]: the suppliers with a supply record dated on
    or after [DATE_SUB(CURDATE(), INTERVAL 6 MONTH)]. *)
Definition recent_supplier_ids (clk : Sql.clock) (db : database) : list Z :=
  remove_dups
    ((λ kv : Z * supply_record, sr_supplier_id kv.2)
     <$> filter (λ kv : Z * supply_record,
                   Sql.CURDATE_minus_6_month clk ≤ sr_supply_date kv.2)
                (select_all (supply_records db))).

(** The WHERE clause of the deactivation UPDATE on the user [id]. *)
Definition deactivation_selects (clk : Sql.clock) (db : database) (id : Z) (u : user)
    : bool :=
  bool_decide (u_role u = supplier)
  && bool_decide (u_status u = active)
  && (u_created_at u <=? Sql.NOW_minus_6_month clk)
  && negb (bool_decide (id ∈ recent_supplier_ids clk db)).

(** deactivateOldSuppliers: one UPDATE; returns [affectedRows]. *)
Definition deactivateOldSuppliers (clk : Sql.clock) (db : database) : database * Z :=
  let affected :=
    Z.of_nat (length (filter (λ kv : Z * user, deactivation_selects clk db kv.1 kv.2 = true)
                             (select_all (users db)))) in
  (with_users
     (map_imap (λ id u, Some (if deactivation_selects clk db id u
                              then set_u_status inactive (Sql.NOW clk) u else u))) db,
   affected).

(** updatePaymentStatus: [UPDATE supply_records SET payment_status = ?,
    updated_at = NOW() WHERE id = ?], then findSupplyRecordById.  The server
    refuses a value that is no member of the ENUM; no row matched throws
    "Supply record not found"; the [catch] replaces every error by one
    message.  No edit window is checked. *)
Definition updatePaymentStatus (now : Js.Date) (id : Z) (paymentStatus : string)
    (db : database) : database * outcome (option (supply_record * option user)) :=
  let failed := Throw (Js.new_Error "Failed to update payment status") in
  match supply_records db !! id with
  | None => (db, failed)
  | Some r =>
      let assigned :=
        if bool_decide (paymentStatus = "paid") then Some (set_sr_payment_status paid r)
        else if bool_decide (paymentStatus = "unpaid")
        then Some (set_sr_payment_status unpaid r)
        else None in
      match assigned with
      | None => (db, failed)
      | Some r' =>
          let db' := with_supply_records
                       (insert id (set_sr_updated_at (Js.getTime now) r')) db in
          (db', Ok (findSupplyRecordById id true db'))
      end
  end.

(** The [stats] object of getSupplierIdStats. *)
Record supplier_id_stats := mkSupplierIdStats {
  totalSuppliers : Z;
  suppliersWithIds : Z;
  suppliersWithoutIds : Z;
  highestIdNumber : Z;
  allIds : list string
}.

(** One round of the loop [for (const supplier of allSuppliers)]. *)
Definition stats_step (stats : supplier_id_stats) (row : Z * user)
    : supplier_id_stats :=
  match u_supplier_id row.2 with
  | Some supplier_id =>
      if bool_decide (supplier_id = "") then
        {| totalSuppliers := totalSuppliers stats;
           suppliersWithIds := suppliersWithIds stats;
           suppliersWithoutIds := suppliersWithoutIds stats + 1;
           highestIdNumber := highestIdNumber stats;
           allIds := allIds stats |}
      else
        {| totalSuppliers := totalSuppliers stats;
           suppliersWithIds := suppliersWithIds stats + 1;
           suppliersWithoutIds := suppliersWithoutIds stats;
           highestIdNumber :=
             match Js.match_SUP_d6 supplier_id with
             | Some d =>
                 match Js.parseInt d with
                 | Some num =>
                     if highestIdNumber stats <? num then num
                     else highestIdNumber stats
                 | None => highestIdNumber stats
                 end
             | None => highestIdNumber stats
             end;
           allIds := allIds stats ++ [supplier_id] |}
  | None =>
      {| totalSuppliers := totalSuppliers stats;
         suppliersWithIds := suppliersWithIds stats;
         suppliersWithoutIds := suppliersWithoutIds stats + 1;
         highestIdNumber := highestIdNumber stats;
         allIds := allIds stats |}
  end.

(** [SELECT ... FROM users WHERE role = 'supplier' ORDER BY id ASC] *)
Definition suppliers_by_id (db : database) : list (Z * user) :=
  Sql.order_by_asc (λ kv : Z * user, kv.1)
    (filter (λ kv : Z * user, u_role kv.2 = supplier) (select_all (users db))).

(** getSupplierIdStats: the statistics and the suppliers they were taken from. *)
Definition getSupplierIdStats (db : database) : supplier_id_stats * list (Z * user) :=
  let allSuppliers := suppliers_by_id db in
  (foldl stats_step
     {| totalSuppliers := Z.of_nat (length allSuppliers);
        suppliersWithIds := 0; suppliersWithoutIds := 0;
        highestIdNumber := 0; allIds := [] |}
     allSuppliers,
   allSuppliers).

(** [UPDATE users SET supplier_id = ? WHERE id = ? AND role = 'supplier'] as
    resetAllSupplierIds issues it: a row that already holds the value is not
    changed, and keeps its [updated_at]. *)
Definition reset_supplier_id (newSupplierId : string) (id : Z) (now : Z)
    (db : database) : database :=
  with_users
    (alter (λ u, if bool_decide (u_role u = supplier)
                 then if bool_decide (u_supplier_id u = Some newSupplierId) then u
                      else set_u_updated_at now (set_u_supplier_id (Some newSupplierId) u)
                 else u) id) db.

(** The loop of resetAllSupplierIds over the suppliers, from [counter] on. *)
Fixpoint reset_loop (now : Js.Date) (suppliers : list (Z * user)) (counter : Z)
    (db : database) : database :=
  match suppliers with
  | [] => db
  | row :: rest =>
      let newSupplierId := "SUP" +:+ Js.padStart0 6 (Js.toString counter) in
      reset_loop now rest (counter + 1)
        (reset_supplier_id newSupplierId row.1 (Js.getTime now) db)
  end.

(** resetAllSupplierIds: returns [updated] (the message is constant). *)
Definition resetAllSupplierIds (now : Js.Date) (db : database) : database * Z :=
  let suppliers := suppliers_by_id db in
  (reset_loop now suppliers 1 db, Z.of_nat (length suppliers)).

End SupplierModel.

(** ** models/inventoryModel.js *)

Module InventoryModel.

(** The object [create] returns. *)
Record created_inventory := mkCreatedInventory {
  ci_id : Z;
  ci_inventoryid : string;
  ci_quantity : Z
}.

Definition inventoryid_exists (inventoryid : string) (db : database) : bool :=
  existsb (λ kv : Z * inventory_lot, bool_decide (inv_inventoryid kv.2 = inventoryid))
          (select_all (inventory db)).

(** create: [INSERT INTO inventory (inventoryid, quantity)]; the column
    [inventoryid] is UNIQUE. *)
Definition create (now : Js.Date) (inventoryid : string) (quantity : Z)
    (db : database) : database * outcome created_inventory :=
  if inventoryid_exists inventoryid db then (db, Throw Sql.ER_DUP_ENTRY)
  else
    let id := insertId (inventory db) in
    (with_inventory
       (insert id {| inv_inventoryid := inventoryid; inv_quantity := quantity;
                     inv_createdAt := Js.getTime now;
                     inv_updatedAt := Js.getTime now |}) db,
     Ok {| ci_id := id; ci_inventoryid := inventoryid; ci_quantity := quantity |}).

(** findAll: [SELECT * FROM inventory ORDER BY createdAt DESC]. *)
Definition findAll (db : database) : list (Z * inventory_lot) :=
  Sql.order_by_desc (λ kv : Z * inventory_lot, inv_createdAt kv.2)
                    (select_all (inventory db)).

Definition findById (id : Z) (db : database) : option inventory_lot :=
  inventory db !! id.

(** updateById with the fields of its second argument that are defined. *)
Definition updateById (now : Js.Date) (id : Z) (inventoryid : option string)
    (quantity : option Z) (db : database) : database * outcome (option inventory_lot) :=
  match quantity, inventoryid with
  | None, None => (db, Throw (Js.new_Error "No fields to update"))
  | _, _ =>
      match inventory db !! id with
      | None => (db, Throw (Js.new_Error "Inventory not found"))
      | Some lot =>
          let lot1 :=
            match quantity with
            | Some q => set_inv_quantity q (Js.getTime now) lot
            | None => lot
            end in
          match inventoryid with
          | Some i =>
              if existsb (λ kv : Z * inventory_lot,
                            bool_decide (inv_inventoryid kv.2 = i)
                            && negb (bool_decide (kv.1 = id)))
                         (select_all (inventory db))
              then (db, Throw Sql.ER_DUP_ENTRY)
              else
                let db' := with_inventory
                             (insert id (set_inv_inventoryid i (Js.getTime now) lot1)) db in
                (db', Ok (findById id db'))
          | None =>
              let db' := with_inventory (insert id lot1) db in
              (db', Ok (findById id db'))
          end
      end
  end.

(** deleteById: [DELETE FROM inventory WHERE id = ?]; true when a row went. *)
Definition deleteById (id : Z) (db : database) : database * bool :=
  match inventory db !! id with
  | Some _ => (with_inventory (delete id) db, true)
  | None => (db, false)
  end.

End InventoryModel.

(** ** models/productionModel.js *)

Module ProductionModel.

Definition production_id_exists (production_id : string) (db : database) : bool :=
  existsb (λ kv : Z * production, bool_decide (pr_production_id kv.2 = production_id))
          (select_all (production_data db)).

(** create: the INSERT of [db.createProductionData]; [production_id] is
    UNIQUE.  Returns the [insertId]. *)
Definition create (now : Js.Date) (production_id : string) (quantity : Z)
    (production_date : Z) (production_time : string) (db : database)
    : database * outcome Z :=
  if production_id_exists production_id db then (db, Throw Sql.ER_DUP_ENTRY)
  else
    let id := insertId (production_data db) in
    (with_production_data
       (insert id {| pr_production_id := production_id; pr_quantity := quantity;
                     pr_production_date := production_date;
                     pr_production_time := production_time;
                     pr_created_at := Js.getTime now;
                     pr_updated_at := Js.getTime now |}) db,
     Ok id).

(** findAll: [ORDER BY production_date DESC, created_at DESC]. *)
Definition findAll (db : database) : list (Z * production) :=
  Js.sort (λ a b : Z * production,
             (pr_production_date b.2 <? pr_production_date a.2)
             || ((pr_production_date b.2 =? pr_production_date a.2)
                 && (pr_created_at b.2 <=? pr_created_at a.2)))
          (select_all (production_data db)).

(** findById: the result set of [db.getProductionDataById], an array. *)
Definition findById (id : Z) (db : database) : list (Z * production) :=
  filter (λ kv : Z * production, kv.1 = id) (select_all (production_data db)).

End ProductionModel.

(** ** HTTP responses of the controllers *)

Record response (A : Type) := mkResponse {
  status : Z;
  success : bool;
  message : string;
  data : option A
}.
Arguments mkResponse {A} _ _ _ _.
Arguments status {A} _.
Arguments success {A} _.
Arguments message {A} _.
Arguments data {A} _.

(** ** controllers/productionController.js *)

Module ProductionController.

(** The body of createProduction: [quantity] as it comes, the date as the day
    it names ([None]: missing or empty). *)
Record request_body := mkBody {
  quantity : Js.value;
  production_date : option Z
}.

(** The [data] of the 201 response. *)
Record created_production := mkCreatedProduction {
  cp_id : Z;
  cp_production_id : string;
  cp_quantity : Z;
  cp_production_date : Z;
  cp_production_time : string;
  cp_inventoryDeducted : Z;
  cp_remainingInventory : Z
}.

(** The loop [for (const item of sortedInventory)]. *)
Fixpoint deduct_loop (now : Js.Date) (sortedInventory : list (Z * inventory_lot))
    (remainingToDeduct : Z) (db : database) : database * outcome Z :=
  match sortedInventory with
  | [] => (db, Ok remainingToDeduct)
  | (id, item) :: rest =>
      if remainingToDeduct <=? 0 then (db, Ok remainingToDeduct)
      else
        let availableInItem := inv_quantity item in
        if 0 <? availableInItem then
          let deductAmount := Z.min availableInItem remainingToDeduct in
          let newQuantity := availableInItem - deductAmount in
          match InventoryModel.updateById now id None (Some newQuantity) db with
          | (db', Ok _) => deduct_loop now rest (remainingToDeduct - deductAmount) db'
          | (db', Throw e) => (db', Throw e)
          end
        else deduct_loop now rest remainingToDeduct db
  end.

Definition server_error {A} : response A :=
  {| status := 500; success := false;
     message := "Internal server error while creating production record";
     data := None |}.

Definition invalid_quantity {A} : response A :=
  {| status := 400; success := false;
     message := "Quantity must be a positive number"; data := None |}.

(** createProduction.  [production_id] is the value of generateProductionId,
    which depends on the clock and on Math.random only.  The quantity checked,
    stored and deducted is [quantityNum = parseInt(quantity)]. *)
Definition createProduction (now : Js.Date) (production_id : string)
    (body : request_body) (db : database)
    : database * response created_production :=
  match Js.truthy (quantity body), production_date body with
  | true, Some production_date =>
      match Js.parseInt_value (quantity body) with
      | None => (db, invalid_quantity)
      | Some quantityNum =>
          if quantityNum <=? 0 then (db, invalid_quantity)
          else
            let production_time := Js.slice_first 8 (Js.toTimeString now) in
            let allInventory := InventoryModel.findAll db in
            let totalAvailable :=
              foldl (λ sum item, sum + inv_quantity item.2) 0 allInventory in
            if totalAvailable <? quantityNum then
              (db, {| status := 400; success := false;
                      message := "Insufficient inventory. Available: "
                                 +:+ Js.toString totalAvailable +:+ " kg, Required: "
                                 +:+ Js.toString quantityNum +:+ " kg";
                      data := None |})
            else
              match ProductionModel.create now production_id quantityNum
                      production_date production_time db with
              | (db1, Throw _) => (db1, server_error)
              | (db1, Ok insertId) =>
                  let sortedInventory :=
                    Js.sort (λ a b : Z * inventory_lot,
                               inv_createdAt a.2 <=? inv_createdAt b.2) allInventory in
                  match deduct_loop now sortedInventory quantityNum db1 with
                  | (db2, Throw _) => (db2, server_error)
                  | (db2, Ok _) =>
                      (db2, {| status := 201; success := true;
                               message := "Production record created successfully and inventory updated";
                               data := Some
                                 {| cp_id := insertId;
                                    cp_production_id := production_id;
                                    cp_quantity := quantityNum;
                                    cp_production_date := production_date;
                                    cp_production_time := production_time;
                                    cp_inventoryDeducted := quantityNum;
                                    cp_remainingInventory :=
                                      totalAvailable - quantityNum |} |})
                  end
              end
      end
  | _, _ =>
      (db, {| status := 400; success := false;
              message := "Quantity and production date are required";
              data := None |})
  end.

(** getProductionById.  [id] is [req.params.id]; [production], the value of
    ProductionModel.findById, is the array of the rows selected, and
    [!production] tests the array, not its length. *)
Definition getProductionById (id : option Z) (db : database)
    : response (list (Z * production)) :=
  match id with
  | None => {| status := 400; success := false;
               message := "Production ID is required"; data := None |}
  | Some id =>
      let production := ProductionModel.findById id db in
      if negb (Js.truthy_array production) then
        {| status := 404; success := false;
           message := "Production record not found"; data := None |}
      else
        {| status := 200; success := true;
           message := "Production record retrieved successfully";
           data := Some production |}
  end.

End ProductionController.

(** ** controllers/inventoryController.js *)

Module InventoryController.

(** The body of createInventory: each quantity is absent or a whole number
    of kilograms. *)
Record request_body := mkBody {
  quantity_kg : option Z;
  quantity : option Z
}.

(** The payload of the 201 response. *)
Record created := mkCreated {
  c_data : InventoryModel.created_inventory;
  c_inventoryIdGenerated : bool;
  c_supplyDeducted : Z
}.

(** generateInventoryId: INV-YYYYMMDD-HHMM. *)
Definition generateInventoryId (now : Js.Date) : string :=
  "INV-" +:+ Js.toString (Js.getFullYear now)
  +:+ Js.padStart0 2 (Js.toString (Js.getMonth now + 1))
  +:+ Js.padStart0 2 (Js.toString (Js.getDate now))
  +:+ "-" +:+ Js.padStart0 2 (Js.toString (Js.getHours now))
  +:+ Js.padStart0 2 (Js.toString (Js.getMinutes now)).

(** The id of one attempt; [r] is [Math.floor(Math.random() * 100)]. *)
Definition uniqueInventoryId (now : Js.Date) (r : Z) : string :=
  generateInventoryId now +:+ "-" +:+ Js.padStart0 2 (Js.toString r).

(** [UPDATE supply_records SET quantity_kg = ?, updated_at = NOW() WHERE id = ?] *)
Definition update_quantity_kg (newQuantity : Z) (id : Z) (now : Z) (db : database)
    : database :=
  with_supply_records
    (alter (λ r, set_sr_updated_at now (set_sr_quantity_kg newQuantity r)) id) db.

(** The loop [for (const record of sortedSupplyRecords)]. *)
Fixpoint deduct_loop (now : Js.Date) (sortedSupplyRecords : list SupplierModel.supply_row)
    (remainingToDeduct : Z) (db : database) : database * Z :=
  match sortedSupplyRecords with
  | [] => (db, remainingToDeduct)
  | record :: rest =>
      if remainingToDeduct <=? 0 then (db, remainingToDeduct)
      else
        let availableInRecord := sr_quantity_kg (SupplierModel.row_record record) in
        if 0 <? availableInRecord then
          let deductAmount := Z.min availableInRecord remainingToDeduct in
          let newQuantity := availableInRecord - deductAmount in
          deduct_loop now rest (remainingToDeduct - deductAmount)
            (update_quantity_kg newQuantity (SupplierModel.row_id record)
                                (Js.getTime now) db)
        else deduct_loop now rest remainingToDeduct db
  end.

Definition isUniqueConstraintError (error : Js.Error) : bool :=
  bool_decide (Js.err_name error = "SequelizeUniqueConstraintError")
  || bool_decide (Js.err_parent_code error = Some "ER_DUP_ENTRY")
  || Js.includes "UNIQUE constraint failed" (Js.err_message error).

(** The loop [while (retryCount < maxRetries)]; [n] is
    [maxRetries - retryCount].  [random k] is the draw of attempt [k].  When
    the loop test fails the function ends without a response ([None]). *)
Fixpoint create_loop (n : nat) (retryCount : Z) (maxRetries : Z) (now : Js.Date)
    (random : Z → Z) (quantity : Z) (db : database)
    : database * option (response created) :=
  match n with
  | O => (db, None)
  | S n' =>
      let uniqueInventoryId := uniqueInventoryId now (random retryCount) in
      match InventoryModel.create now uniqueInventoryId quantity db with
      | (db1, Ok newInventory) =>
          let '(db2, allSupplyRecords) := SupplierModel.findAllSupplyRecords now db1 in
          let sortedSupplyRecords :=
            Js.sort (λ a b : SupplierModel.supply_row,
                       sr_created_at (SupplierModel.row_record a)
                       <=? sr_created_at (SupplierModel.row_record b))
                    allSupplyRecords in
          let '(db3, remainingToDeduct) :=
            deduct_loop now sortedSupplyRecords quantity db2 in
          (db3, Some
             {| status := 201; success := true;
                message := "Inventory created with auto-generated inventory ID: "
                           +:+ uniqueInventoryId +:+ ". " +:+ Js.toString quantity
                           +:+ " kg deducted from supply records.";
                data := Some {| c_data := newInventory;
                                c_inventoryIdGenerated := true;
                                c_supplyDeducted := quantity - remainingToDeduct |} |})
      | (db1, Throw error) =>
          let retryCount := retryCount + 1 in
          if isUniqueConstraintError error && (retryCount <? maxRetries)
          then create_loop n' retryCount maxRetries now random quantity db1
          else
            (db1, Some
               {| status := 500; success := false;
                  message := if isUniqueConstraintError error
                             then "Failed to generate unique inventory ID after multiple attempts"
                             else "Internal server error";
                  data := None |})
      end
  end.

(** createInventory. *)
Definition createInventory (now : Js.Date) (random : Z → Z) (body : request_body)
    (db : database) : database * option (response created) :=
  match Js.or_number (quantity_kg body) (quantity body) with
  | None =>
      (db, Some {| status := 400; success := false;
                   message := "Quantity is required"; data := None |})
  | Some quantity =>
      if quantity =? 0 then
        (db, Some {| status := 400; success := false;
                     message := "Quantity is required"; data := None |})
      else
        let '(db1, allSupplyRecords) := SupplierModel.findAllSupplyRecords now db in
        let totalSupplyAvailable :=
          foldl (λ sum record, sum + sr_quantity_kg (SupplierModel.row_record record))
                0 allSupplyRecords in
        if totalSupplyAvailable <? quantity then
          (db1, Some
             {| status := 400; success := false;
                message := "Insufficient supply records. Available: "
                           +:+ Js.toString totalSupplyAvailable
                           +:+ " kg, Required: " +:+ Js.toString quantity +:+ " kg";
                data := None |})
        else create_loop 3 0 3 now random quantity db1
  end.

(** The body of updateInventory. *)
Record update_body := mkUpdateBody {
  u_quantity_kg : option Z;
  u_quantity : option Z;
  u_inventoryid : option string
}.

(** getInventoryById. *)
Definition getInventoryById (id : Z) (db : database) : response inventory_lot :=
  match InventoryModel.findById id db with
  | None => {| status := 404; success := false; message := "Inventory not found";
               data := None |}
  | Some lot =>
      {| status := 200; success := true; message := "Inventory fetched successfully";
         data := Some lot |}
  end.

(** updateInventory: the quantity is required, the lot must exist and be at
    most 15 minutes old; every error of the model is answered 500. *)
Definition updateInventory (now : Js.Date) (id : Z) (body : update_body)
    (db : database) : database * response inventory_lot :=
  let quantity := Js.or_number (u_quantity_kg body) (u_quantity body) in
  if Js.falsy_number quantity then
    (db, {| status := 400; success := false; message := "Quantity is required";
            data := None |})
  else
    match InventoryModel.findById id db with
    | None => (db, {| status := 404; success := false;
                      message := "Inventory not found"; data := None |})
    | Some existing =>
        if SupplierModel.timeDifference_exceeds 15 (Js.getTime now)
             (inv_createdAt existing)
        then (db, {| status := 403; success := false;
                     message := "Inventory edit window has expired (15 minutes)";
                     data := None |})
        else
          match InventoryModel.updateById now id
                  (if Js.falsy_string (u_inventoryid body) then None
                   else u_inventoryid body)
                  quantity db with
          | (db', Ok updated) =>
              (db', {| status := 200; success := true;
                       message := "Inventory updated successfully";
                       data := updated |})
          | (db', Throw _) =>
              (db', {| status := 500; success := false;
                       message := "Internal server error"; data := None |})
          end
    end.

End InventoryController.

(** ** The supply check of createInventory on fractional quantities

    The check [totalSupplyAvailable < quantity] as the code computes it, in
    binary64, for quantities that are not whole numbers.  A DECIMAL(10,2)
    value is given in hundredths; the driver hands it over as the string of
    its decimal notation, and [parseFloat] yields the double nearest to it,
    which is the correctly rounded quotient of the hundredths by 100. *)

Module Doubles.

Definition of_Z (n : Z) : PrimFloat.float := PrimFloat.of_uint63 (Uint63.of_Z n).

(** [parseFloat(record.quantity_kg)] *)
Definition parseFloat_decimal (hundredths : Z) : PrimFloat.float :=
  PrimFloat.div (of_Z hundredths) (of_Z 100).

(** [allSupplyRecords.reduce((sum, record) =>
      sum + (parseFloat(record.quantity_kg) || 0), 0)], on the quantities of
    the records in the order of the listing. *)
Definition totalSupplyAvailable (quantities : list Z) : PrimFloat.float :=
  foldl (λ sum hundredths, PrimFloat.add sum (parseFloat_decimal hundredths))
        PrimFloat.zero quantities.

(** [totalSupplyAvailable < quantity] for a whole number [quantity]. *)
Definition insufficient (quantities : list Z) (quantity : Z) : bool :=
  PrimFloat.ltb (totalSupplyAvailable quantities) (of_Z quantity).

End Doubles.

(** ** controllers/supplierController.js *)

Module SupplierController.

Record request_body := mkBody {
  supplier_id : option Z;
  quantity : option Z;
  quantity_kg : option Z;
  unit_price : option Z;
  payment_method : option supply_payment_method;
  payment_status : option supply_payment_status;
  supply_date : option Z;
  notes : Js.optional string
}.

Definition validation_error {A} : response A :=
  {| status := 400; success := false;
     message := "Supplier ID, quantity, unit price, and supply date are required";
     data := None |}.

(** createSupplyRecord: validation, the total payment, the supplier check and
    the call of the model. *)
Definition createSupplyRecord (now : Js.Date) (body : request_body) (db : database)
    : database * response SupplierModel.created_supply :=
  let finalQuantity := Js.or_number (quantity_kg body) (quantity body) in
  if Js.falsy_number (supplier_id body) || Js.falsy_number finalQuantity
     || Js.falsy_number (unit_price body)
  then (db, validation_error)
  else
    match supplier_id body, finalQuantity, unit_price body, supply_date body with
    | Some supplier_id, Some finalQuantity, Some unit_price, Some supply_date =>
        let total_payment := finalQuantity * unit_price in
        match SupplierModel.findById supplier_id true db with
        | None =>
            (db, {| status := 400; success := false;
                    message := "Invalid supplier ID"; data := None |})
        | Some _ =>
            match SupplierModel.createSupplyRecord now
                    {| SupplierModel.d_supplier_id := supplier_id;
                       SupplierModel.d_quantity := finalQuantity;
                       SupplierModel.d_unit_price := unit_price;
                       SupplierModel.d_total_payment := total_payment;
                       SupplierModel.d_payment_method := default spot (payment_method body);
                       SupplierModel.d_payment_status := default unpaid (payment_status body);
                       SupplierModel.d_supply_date := supply_date;
                       SupplierModel.d_notes := notes body |} db with
            | (db', Ok supplyRecord) =>
                (db', {| status := 201; success := true;
                         message := "Supply record created successfully";
                         data := Some supplyRecord |})
            | (db', Throw error) =>
                (db', {| status := 500; success := false;
                         message := Js.err_message error; data := None |})
            end
        end
    | _, _, _, _ => (db, validation_error)
    end.

(** getSupplierById: the query parameter [fullBankDetails] unmasks the
    account number only when it is the string "true". *)
Definition getSupplierById (id : Z) (fullBankDetails : option string) (db : database)
    : response user :=
  let includeFullBankDetails := bool_decide (fullBankDetails = Some "true") in
  match SupplierModel.findById id (negb includeFullBankDetails) db with
  | None => {| status := 404; success := false; message := "Supplier not found";
               data := None |}
  | Some supplier' =>
      {| status := 200; success := true; message := "Supplier fetched successfully";
         data := Some supplier' |}
  end.

(** getSupplyRecordById. *)
Definition getSupplyRecordById (id : Z) (fullBankDetails : option string)
    (db : database) : response (supply_record * option user) :=
  let maskBankDetails := negb (bool_decide (fullBankDetails = Some "true")) in
  match SupplierModel.findSupplyRecordById id maskBankDetails db with
  | None => {| status := 404; success := false; message := "Supply record not found";
               data := None |}
  | Some supplyRecord =>
      {| status := 200; success := true;
         message := "Supply record fetched successfully";
         data := Some supplyRecord |}
  end.

(** [error.message || fallback] *)
Definition message_or (error : Js.Error) (fallback : string) : string :=
  if bool_decide (Js.err_message error = "") then fallback else Js.err_message error.

(** deleteSupplyRecord (controller): 404 for a record that is not there, 500
    for every error of the model. *)
Definition deleteSupplyRecord (now : Js.Date) (id : Z) (db : database)
    : database * response unit :=
  match SupplierModel.findSupplyRecordById id true db with
  | None => (db, {| status := 404; success := false;
                    message := "Supply record not found"; data := None |})
  | Some _ =>
      match SupplierModel.deleteSupplyRecord now id db with
      | (db', Ok _) =>
          (db', {| status := 200; success := true;
                   message := "Supply record deleted successfully"; data := None |})
      | (db', Throw error) =>
          (db', {| status := 500; success := false;
                   message := message_or error "Failed to delete supply record";
                   data := None |})
      end
  end.

(** updatePaymentStatus (controller): only "paid" and "unpaid" pass. *)
Definition updatePaymentStatus (now : Js.Date) (id : Z) (payment_status : option string)
    (db : database) : database * response (supply_record * option user) :=
  if Js.falsy_string payment_status
     || negb (bool_decide (payment_status ∈ [Some "paid"; Some "unpaid"]))
  then (db, {| status := 400; success := false;
               message := "Invalid payment status. Must be " +:+ Js.quote +:+ "paid"
                          +:+ Js.quote +:+ " or " +:+ Js.quote +:+ "unpaid" +:+ Js.quote;
               data := None |})
  else
    match SupplierModel.updatePaymentStatus now id (default "" payment_status) db with
    | (db', Ok updatedRecord) =>
        (db', {| status := 200; success := true;
                 message := "Payment status updated successfully";
                 data := updatedRecord |})
    | (db', Throw error) =>
        (db', {| status := 500; success := false;
                 message := message_or error "Failed to update payment status";
                 data := None |})
    end.

(** markPaymentAsPaid. *)
Definition markPaymentAsPaid (now : Js.Date) (id : Z) (db : database)
    : database * response (supply_record * option user) :=
  match SupplierModel.updatePaymentStatus now id "paid" db with
  | (db', Ok updatedRecord) =>
      (db', {| status := 200; success := true;
               message := "Payment marked as paid successfully";
               data := updatedRecord |})
  | (db', Throw error) =>
      (db', {| status := 500; success := false;
               message := message_or error "Failed to mark payment as paid";
               data := None |})
  end.

(** *** updateSupplyRecord (controller): the update it sends to the model *)

(** A JavaScript number: an integer of the model, or NaN. *)
Inductive number := Num (n : Z) | NaN.

(** A value of the [updateData] object. *)
Inductive update_value := U_value (v : SupplierModel.js_value) | U_NaN.

(** Truthiness of a property value ([None]: the property is undefined). *)
Definition truthy (v : option update_value) : bool :=
  match v with
  | Some (U_value (SupplierModel.V_number n)) => negb (n =? 0)
  | Some (U_value (SupplierModel.V_string s)) => negb (bool_decide (s = ""))
  | _ => false
  end.

(** [parseFloat(v)] on the values of the model: a number is itself, a string
    is read as far as its leading digits go (the model has no fractions),
    everything else is NaN. *)
Definition parseFloat (v : option update_value) : number :=
  match v with
  | Some (U_value (SupplierModel.V_number n)) => Num n
  | Some (U_value (SupplierModel.V_string s)) =>
      match Js.parseInt s with
      | Some n => Num n
      | None => NaN
      end
  | _ => NaN
  end.

Definition times (a b : number) : number :=
  match a, b with
  | Num x, Num y => Num (x * y)
  | _, _ => NaN
  end.

Definition of_number (a : number) : update_value :=
  match a with
  | Num n => U_value (SupplierModel.V_number n)
  | NaN => U_NaN
  end.

(** An object as the list of its own properties in insertion order. *)
Definition object := list (string * option update_value).

(** [o.k] *)
Definition get (k : string) (o : object) : option update_value :=
  match filter (λ kv : string * option update_value, kv.1 = k) o with
  | kv :: _ => kv.2
  | [] => None
  end.

(** [o.k = v]: in place when the property exists, at the end otherwise. *)
Definition set (k : string) (v : option update_value) (o : object) : object :=
  if bool_decide (k ∈ o.*1)
  then (λ kv : string * option update_value,
          if bool_decide (kv.1 = k) then (k, v) else kv) <$> o
  else o ++ [(k, v)].

(** [delete o.k] *)
Definition delete_key (k : string) (o : object) : object :=
  filter (λ kv : string * option update_value, kv.1 ≠ k) o.

(** What the property [quantity_kg] of the object findSupplyRecordById
    returns evaluates to: the object has the properties [supply_record] and
    [supplier] only. *)
Definition currentRecord_quantity_kg (currentRecord : supply_record * option user)
    : option update_value := None.

Definition currentRecord_unit_price (currentRecord : supply_record * option user)
    : option update_value := None.

(** The controller up to its call of the model: the 404 response, or the
    [updateData] it passes to SupplierModel.updateSupplyRecord. *)
Definition updateSupplyRecord_data (id : Z) (body : object) (db : database)
    : response (supply_record * option user) + object :=
  let updateData :=
    if truthy (get "quantity_kg" body)
    then delete_key "quantity_kg" (set "quantity" (get "quantity_kg" body) body)
    else body in
  if truthy (get "quantity" updateData) || truthy (get "unit_price" updateData) then
    match SupplierModel.findSupplyRecordById id true db with
    | None => inl {| status := 404; success := false;
                     message := "Supply record not found"; data := None |}
    | Some currentRecord =>
        let quantity :=
          parseFloat (if truthy (get "quantity" updateData)
                      then get "quantity" updateData
                      else currentRecord_quantity_kg currentRecord) in
        let unit_price :=
          parseFloat (if truthy (get "unit_price" updateData)
                      then get "unit_price" updateData
                      else currentRecord_unit_price currentRecord) in
        inr (set "total_payment" (Some (of_number (times quantity unit_price)))
                 updateData)
    end
  else inr updateData.

(** The [data] the model receives, when no NaN is among the values. *)
Definition model_data (updateData : object)
    : option (list (string * option SupplierModel.js_value)) :=
  mapM (λ kv : string * option update_value,
          match kv.2 with
          | Some (U_value v) => Some (kv.1, Some v)
          | Some U_NaN => None
          | None => Some (kv.1, None)
          end) updateData.

(** updateSupplyRecord (controller).  [None]: a NaN is among the values of
    the UPDATE, whose treatment by the driver is outside the model. *)
Definition updateSupplyRecord (now : Js.Date) (id : Z) (body : object) (db : database)
    : option (database * response (supply_record * option user)) :=
  match updateSupplyRecord_data id body db with
  | inl notFound => Some (db, notFound)
  | inr updateData =>
      match model_data updateData with
      | None => None
      | Some data' =>
          match SupplierModel.updateSupplyRecord now id data' db with
          | (db', Ok updatedRecord) =>
              Some (db', {| status := 200; success := true;
                            message := "Supply record updated successfully";
                            data := updatedRecord |})
          | (db', Throw error) =>
              Some (db', {| status := 500; success := false;
                            message := message_or error "Failed to update supply record";
                            data := None |})
          end
      end
  end.

End SupplierController.

(** ** models/paymentModel.js *)

Module PaymentModel.

(** The filters findAllPayments reads.  [f_limit] is [None] for a limit that
    is falsy (undefined, null, 0 or the empty string), for which the code adds
    no LIMIT, and [Some n] for a limit whose [parseInt] is the positive number
    [n] (the number [n] itself or a string that starts with its digits); other
    limits are outside the model. *)
Record filters := mkFilters {
  f_supplier_id : option Z;
  f_date_from : option Z;
  f_date_to : option Z;
  f_search : option string;
  f_limit : option positive
}.

(** A row of findAllPayments: the columns both queries select, and the tag
    [source] the code adds. *)
Record entry := mkEntry {
  e_source : payment_source;
  e_id : option Z;
  e_payment_id : option string;
  e_supply_record_id : option Z;
  e_supplier_id : Z;
  e_amount : Z;
  e_currency : string;
  e_payment_method : string;
  e_payment_gateway : option string;
  e_gateway_session_id : option string;
  e_gateway_payment_id : option string;
  e_payment_status : payment_state;
  e_payment_date : option Z;
  e_payment_notes : option string;
  e_gateway_response : option string;
  e_created_by : option Z;
  e_created_at : option Z;
  e_supply_id : option string;
  e_quantity_kg : option Z;
  e_unit_price : option Z;
  e_supply_date : option Z;
  e_supplier_name : option string;
  e_supplier_email : option string;
  e_created_by_name : option string
}.

Definition method_name (m : supply_payment_method) : string :=
  match m with
  | spot => "spot"
  | monthly => "monthly"
  end.

(** [if (filters.x)] on an optional number or string. *)
Definition given_number (o : option Z) : option Z :=
  if Js.falsy_number o then None else o.

Definition given_string (o : option string) : option string :=
  if Js.falsy_string o then None else o.

Section queries.

(** [subject LIKE pattern] as the database server evaluates it. *)
Variable LIKE : string → string → bool.

Definition like_opt (subject : option string) (pattern : string) : bool :=
  match subject with
  | Some s => LIKE s pattern
  | None => false
  end.

(** The row of the payments query for the payment [kv]: [p.*], then
    [sr.id as supply_record_id] and the joined columns. *)
Definition payment_entry (db : database) (kv : Z * payment) : entry :=
  let p := kv.2 in
  let sr := supply_records db !! p_supply_record_id p in
  let u := users db !! p_supplier_id p in
  let creator := p_created_by p ≫= λ c, users db !! c in
  {| e_source := source_payment;
     e_id := Some kv.1;
     e_payment_id := Some (p_payment_id p);
     e_supply_record_id := (λ _, p_supply_record_id p) <$> sr;
     e_supplier_id := p_supplier_id p;
     e_amount := p_amount p;
     e_currency := p_currency p;
     e_payment_method := p_payment_method p;
     e_payment_gateway := p_payment_gateway p;
     e_gateway_session_id := p_gateway_session_id p;
     e_gateway_payment_id := p_gateway_payment_id p;
     e_payment_status := p_payment_status p;
     e_payment_date := p_payment_date p;
     e_payment_notes := p_payment_notes p;
     e_gateway_response := p_gateway_response p;
     e_created_by := p_created_by p;
     e_created_at := Some (p_created_at p);
     e_supply_id := sr_supply_id <$> sr;
     e_quantity_kg := sr_quantity_kg <$> sr;
     e_unit_price := sr_unit_price <$> sr;
     e_supply_date := sr_supply_date <$> sr;
     e_supplier_name := u_name <$> u;
     e_supplier_email := u_email <$> u;
     e_created_by_name := u_name <$> creator |}.

(** The WHERE clause of the payments query. *)
Definition payment_selected (fl : filters) (db : database) (kv : Z * payment) : bool :=
  let p := kv.2 in
  match given_number (f_supplier_id fl) with
  | Some s => p_supplier_id p =? s
  | None => true
  end
  && match given_number (f_date_from fl) with
     | Some d => d <=? Sql.DATE (p_created_at p)
     | None => true
     end
  && match given_number (f_date_to fl) with
     | Some d => Sql.DATE (p_created_at p) <=? d
     | None => true
     end
  && match given_string (f_search fl) with
     | Some s =>
         let sTerm := "%" +:+ s +:+ "%" in
         LIKE (p_payment_id p) sTerm
         || like_opt (u_name <$> users db !! p_supplier_id p) sTerm
     | None => true
     end.

(** The row of the supply-record query for the record [kv]. *)
Definition supply_entry (db : database) (kv : Z * supply_record) : entry :=
  let sr := kv.2 in
  let u := users db !! sr_supplier_id sr in
  {| e_source := source_supply_record;
     e_id := None;
     e_payment_id := None;
     e_supply_record_id := Some kv.1;
     e_supplier_id := sr_supplier_id sr;
     e_amount := sr_total_payment sr;
     e_currency := "LKR";
     e_payment_method := method_name (sr_payment_method sr);
     e_payment_gateway := None;
     e_gateway_session_id := None;
     e_gateway_payment_id := None;
     e_payment_status :=
       if bool_decide (sr_payment_status sr = paid) then p_completed else p_pending;
     e_payment_date := None;
     e_payment_notes := sr_notes sr;
     e_gateway_response := None;
     e_created_by := None;
     e_created_at := Some (sr_created_at sr);
     e_supply_id := Some (sr_supply_id sr);
     e_quantity_kg := Some (sr_quantity_kg sr);
     e_unit_price := Some (sr_unit_price sr);
     e_supply_date := Some (sr_supply_date sr);
     e_supplier_name := u_name <$> u;
     e_supplier_email := u_email <$> u;
     e_created_by_name := None |}.

(** [EXISTS (SELECT 1 FROM payments p2 WHERE p2.supply_record_id = sr.id)] *)
Definition has_payment (db : database) (sr_id : Z) : bool :=
  existsb (λ kv : Z * payment, p_supply_record_id kv.2 =? sr_id)
          (select_all (payments db)).

(** The WHERE clause of the supply-record query. *)
Definition supply_selected (fl : filters) (db : database) (kv : Z * supply_record)
    : bool :=
  let sr := kv.2 in
  negb (bool_decide (sr_payment_status sr = paid))
  && negb (has_payment db kv.1)
  && match given_number (f_supplier_id fl) with
     | Some s => sr_supplier_id sr =? s
     | None => true
     end
  && match given_number (f_date_from fl) with
     | Some d => d <=? sr_supply_date sr
     | None => true
     end
  && match given_number (f_date_to fl) with
     | Some d => sr_supply_date sr <=? d
     | None => true
     end
  && match given_string (f_search fl) with
     | Some s =>
         let sTerm2 := "%" +:+ s +:+ "%" in
         LIKE (sr_supply_id sr) sTerm2
         || like_opt (u_name <$> users db !! sr_supplier_id sr) sTerm2
     | None => true
     end.

(** [new Date(a.created_at || a.payment_date || 0).getTime()] *)
Definition sort_time (a : entry) : Z :=
  match e_created_at a with
  | Some t => t
  | None => default 0 (e_payment_date a)
  end.

(** findAllPayments. *)
Definition findAllPayments (fl : filters) (db : database) : list entry :=
  let pRows :=
    payment_entry db <$>
      Sql.limit (Pos.to_nat <$> f_limit fl)
        (Sql.order_by_desc (λ kv : Z * payment, p_created_at kv.2)
           (filter (λ kv, payment_selected fl db kv = true) (select_all (payments db)))) in
  let srRows :=
    supply_entry db <$>
      Sql.limit (Pos.to_nat <$> f_limit fl)
        (Sql.order_by_desc (λ kv : Z * supply_record, sr_created_at kv.2)
           (filter (λ kv, supply_selected fl db kv = true)
                   (select_all (supply_records db)))) in
  let combined := Js.sort (λ a b, sort_time b <=? sort_time a) (pRows ++ srRows) in
  match f_limit fl with
  | Some n => take (Pos.to_nat n) combined
  | None => combined
  end.

End queries.

(** The object getPaymentStatistics returns (its snake_case keys; the
    camelCase aliases repeat them). *)
Record statistics := mkStatistics {
  total_payments : Z;
  total_completed_amount : Z;
  total_pending_amount : Z;
  total_failed_amount : Z;
  completed_count : Z;
  pending_count : Z;
  failed_count : Z;
  avg_payment_amount : option (Z * Z)    (* the average sum/count, as a fraction *)
}.

(** The filters of the two statistics queries. *)
Definition stat_payment_selected (fl : filters) (kv : Z * payment) : bool :=
  let p := kv.2 in
  match given_number (f_date_from fl) with
  | Some d => d <=? Sql.DATE (p_created_at p)
  | None => true
  end
  && match given_number (f_date_to fl) with
     | Some d => Sql.DATE (p_created_at p) <=? d
     | None => true
     end
  && match given_number (f_supplier_id fl) with
     | Some s => p_supplier_id p =? s
     | None => true
     end.

Definition stat_supply_selected (fl : filters) (kv : Z * supply_record) : bool :=
  let sr := kv.2 in
  match given_number (f_date_from fl) with
  | Some d => d <=? sr_supply_date sr
  | None => true
  end
  && match given_number (f_date_to fl) with
     | Some d => sr_supply_date sr <=? d
     | None => true
     end
  && match given_number (f_supplier_id fl) with
     | Some s => sr_supplier_id sr =? s
     | None => true
     end.

(** [SUM(CASE WHEN c THEN x ELSE 0 END)] over the rows [l]. *)
Definition sum_case {A} (c : A → bool) (x : A → Z) (l : list A) : option Z :=
  Sql.SUM ((λ a, if c a then x a else 0) <$> l).

(** [COUNT(CASE WHEN c THEN 1 END)] over the rows [l]. *)
Definition count_case {A} (c : A → bool) (l : list A) : Z :=
  Z.of_nat (length (filter (λ a, c a = true) l)).

(** [num]: null and what is not a finite number count as 0. *)
Definition num (v : option Z) : Z := default 0 v.

Definition has_state (s : payment_state) (kv : Z * payment) : bool :=
  bool_decide (p_payment_status kv.2 = s).

Definition is_paid (kv : Z * supply_record) : bool :=
  bool_decide (sr_payment_status kv.2 = paid).

(** getPaymentStatistics. *)
Definition getPaymentStatistics (fl : filters) (db : database) : statistics :=
  let pRows := filter (λ kv, stat_payment_selected fl kv = true)
                      (select_all (payments db)) in
  let p_total_payments := Z.of_nat (length pRows) in
  let p_total_completed_amount :=
    sum_case (has_state p_completed) (λ kv, p_amount kv.2) pRows in
  let p_total_pending_amount :=
    sum_case (has_state p_pending) (λ kv, p_amount kv.2) pRows in
  let p_total_failed_amount :=
    sum_case (has_state p_failed) (λ kv, p_amount kv.2) pRows in
  let p_completed_count := count_case (has_state p_completed) pRows in
  let p_pending_count := count_case (has_state p_pending) pRows in
  let p_failed_count := count_case (has_state p_failed) pRows in
  let p_avg_payment_amount :=
    match filter (λ kv, has_state p_completed kv = true) pRows with
    | [] => None
    | completed =>
        Some (foldr Z.add 0 ((λ kv : Z * payment, p_amount kv.2) <$> completed),
              Z.of_nat (length completed))
    end in
  let srRows := filter (λ kv, stat_supply_selected fl kv = true)
                       (select_all (supply_records db)) in
  let sr_completed_amount :=
    sum_case is_paid (λ kv, sr_total_payment kv.2) srRows in
  let sr_pending_amount :=
    sum_case (λ kv, negb (is_paid kv)) (λ kv, sr_total_payment kv.2) srRows in
  let sr_completed_count := count_case is_paid srRows in
  let sr_pending_count := count_case (λ kv, negb (is_paid kv)) srRows in
  {| total_payments := p_total_payments + sr_pending_count;
     total_completed_amount := num p_total_completed_amount + num sr_completed_amount;
     total_pending_amount := num p_total_pending_amount + num sr_pending_amount;
     total_failed_amount := num p_total_failed_amount;
     completed_count := p_completed_count + sr_completed_count;
     pending_count := p_pending_count + sr_pending_count;
     failed_count := p_failed_count;
     avg_payment_amount := p_avg_payment_amount |}.

(** The argument of createPayment; [None] is a key that is undefined (or
    null), for which the destructuring default applies.  [pd_gateway_response]
    is the JSON text of the object given. *)
Record payment_data := mkPaymentData {
  pd_payment_id : string;
  pd_supply_record_id : Z;
  pd_supplier_id : option Z;
  pd_amount : Z;
  pd_currency : option string;
  pd_payment_method : string;
  pd_payment_gateway : option string;
  pd_gateway_session_id : option string;
  pd_gateway_payment_id : option string;
  pd_payment_status : option payment_state;
  pd_payment_notes : option string;
  pd_gateway_response : option string;
  pd_created_by : option Z
}.

(** The members of the ENUM [payments.payment_method]. *)
Definition valid_payment_method (m : string) : bool :=
  bool_decide (m ∈ ["spot"; "gateway"; "bank_transfer"; "cash"; "cheque"]).

Definition payment_id_exists (payment_id : string) (db : database) : bool :=
  existsb (λ kv : Z * payment, bool_decide (p_payment_id kv.2 = payment_id))
          (select_all (payments db)).

(** A row of findPaymentById and findPaymentByPaymentId: [p.*] and the
    columns joined from the supply record, the supplier and the creator. *)
Record payment_view := mkPaymentView {
  pv_id : Z;
  pv_payment : payment;
  pv_supply_id : option string;
  pv_quantity_kg : option Z;
  pv_unit_price : option Z;
  pv_supply_date : option Z;
  pv_supplier_name : option string;
  pv_supplier_email : option string;
  pv_created_by_name : option string
}.

Definition payment_view_of (db : database) (kv : Z * payment) : payment_view :=
  let p := kv.2 in
  let sr := supply_records db !! p_supply_record_id p in
  let u := users db !! p_supplier_id p in
  let creator := p_created_by p ≫= λ c, users db !! c in
  {| pv_id := kv.1; pv_payment := p;
     pv_supply_id := sr_supply_id <$> sr;
     pv_quantity_kg := sr_quantity_kg <$> sr;
     pv_unit_price := sr_unit_price <$> sr;
     pv_supply_date := sr_supply_date <$> sr;
     pv_supplier_name := u_name <$> u;
     pv_supplier_email := u_email <$> u;
     pv_created_by_name := u_name <$> creator |}.

(** findPaymentById: the payment with the key [paymentId], or null. *)
Definition findPaymentById (paymentId : Z) (db : database) : option payment_view :=
  (λ p, payment_view_of db (paymentId, p)) <$> payments db !! paymentId.

(** findPaymentByPaymentId: the first row with the external [payment_id]. *)
Definition findPaymentByPaymentId (paymentId : string) (db : database)
    : option payment_view :=
  payment_view_of db
  <$> head (filter (λ kv : Z * payment, p_payment_id kv.2 = paymentId)
                   (select_all (payments db))).

(** findPaymentsBySupplyRecord: the payments of one supply record, newest
    first. *)
Definition findPaymentsBySupplyRecord (supplyRecordId : Z) (db : database)
    : list payment_view :=
  payment_view_of db
  <$> Sql.order_by_desc (λ kv : Z * payment, p_created_at kv.2)
        (filter (λ kv : Z * payment, p_supply_record_id kv.2 = supplyRecordId)
                (select_all (payments db))).

(** createPayment: the INSERT names thirteen columns; [payment_date] is not
    among them and stays NULL.  The server refuses NULL for [supplier_id], a
    [payment_method] outside the ENUM, a duplicate [payment_id], and a
    [supply_record_id], [supplier_id] or [created_by] that is no row of its
    table; the error is thrown again as it is. *)
Definition createPayment (now : Js.Date) (paymentData : payment_data) (db : database)
    : database * outcome (option payment_view) :=
  match pd_supplier_id paymentData with
  | None => (db, Throw Sql.ER_BAD_NULL_ERROR)
  | Some supplier_id =>
      if negb (valid_payment_method (pd_payment_method paymentData))
      then (db, Throw Sql.WARN_DATA_TRUNCATED)
      else if payment_id_exists (pd_payment_id paymentData) db
      then (db, Throw Sql.ER_DUP_ENTRY)
      else if bool_decide (supply_records db !! pd_supply_record_id paymentData = None)
              || bool_decide (users db !! supplier_id = None)
              || match pd_created_by paymentData with
                 | Some c => bool_decide (users db !! c = None)
                 | None => false
                 end
      then (db, Throw Sql.ER_NO_REFERENCED_ROW_2)
      else
        let id := insertId (payments db) in
        let row :=
          {| p_payment_id := pd_payment_id paymentData;
             p_supply_record_id := pd_supply_record_id paymentData;
             p_supplier_id := supplier_id;
             p_amount := pd_amount paymentData;
             p_currency := default "LKR" (pd_currency paymentData);
             p_payment_method := pd_payment_method paymentData;
             p_payment_gateway := pd_payment_gateway paymentData;
             p_gateway_session_id := pd_gateway_session_id paymentData;
             p_gateway_payment_id := pd_gateway_payment_id paymentData;
             p_payment_status := default p_pending (pd_payment_status paymentData);
             p_payment_date := None;
             p_payment_notes := pd_payment_notes paymentData;
             p_gateway_response := pd_gateway_response paymentData;
             p_created_by := pd_created_by paymentData;
             p_created_at := Js.getTime now;
             p_updated_at := Js.getTime now |} in
        let db' := with_payments (insert id row) db in
        (db', Ok (findPaymentById id db'))
  end.

(** updatePaymentStatus(paymentId, status, gatewayResponse = null,
    paymentDate = null): status, gateway_response and payment_date are all
    assigned; without a date the payment_date is the clock for "completed" and
    NULL otherwise.  [gatewayResponse] is the JSON text of the object given,
    [paymentDate] the time of the Date given. *)
Definition updatePaymentStatus (now : Js.Date) (paymentId : Z) (status : payment_state)
    (gatewayResponse : option string) (paymentDate : option Z) (db : database)
    : database * outcome (option payment_view) :=
  match payments db !! paymentId with
  | None => (db, Throw (Js.new_Error "Payment not found"))
  | Some p =>
      let row :=
        {| p_payment_id := p_payment_id p;
           p_supply_record_id := p_supply_record_id p;
           p_supplier_id := p_supplier_id p;
           p_amount := p_amount p;
           p_currency := p_currency p;
           p_payment_method := p_payment_method p;
           p_payment_gateway := p_payment_gateway p;
           p_gateway_session_id := p_gateway_session_id p;
           p_gateway_payment_id := p_gateway_payment_id p;
           p_payment_status := status;
           p_payment_date :=
             match paymentDate with
             | Some d => Some d
             | None => if bool_decide (status = p_completed)
                       then Some (Js.getTime now) else None
             end;
           p_payment_notes := p_payment_notes p;
           p_gateway_response := gatewayResponse;
           p_created_by := p_created_by p;
           p_created_at := p_created_at p;
           p_updated_at := Js.getTime now |} in
      let db' := with_payments (insert paymentId row) db in
      (db', Ok (findPaymentById paymentId db'))
  end.

(** The [updateData] of updatePaymentByPaymentId; [up_gateway_response] is the
    JSON text of the object given, [up_payment_date] the time of the Date
    given. *)
Record payment_update := mkPaymentUpdate {
  up_payment_status : option payment_state;
  up_gateway_payment_id : option string;
  up_gateway_response : option string;
  up_payment_date : option Z;
  up_payment_notes : option string
}.

(** [a || b] on optional strings. *)
Definition or_string (a b : option string) : option string :=
  if Js.falsy_string a then b else a.

(** updatePaymentByPaymentId: every column keeps its value where the update
    gives none. *)
Definition updatePaymentByPaymentId (now : Js.Date) (paymentId : string)
    (updateData : payment_update) (db : database)
    : database * outcome (option payment_view) :=
  match findPaymentByPaymentId paymentId db with
  | None => (db, Throw (Js.new_Error "Payment not found"))
  | Some found =>
      let p := pv_payment found in
      let assign (q : payment) : payment :=
        {| p_payment_id := p_payment_id q;
           p_supply_record_id := p_supply_record_id q;
           p_supplier_id := p_supplier_id q;
           p_amount := p_amount q;
           p_currency := p_currency q;
           p_payment_method := p_payment_method q;
           p_payment_gateway := p_payment_gateway q;
           p_gateway_session_id := p_gateway_session_id q;
           p_gateway_payment_id :=
             or_string (up_gateway_payment_id updateData) (p_gateway_payment_id p);
           p_payment_status :=
             default (p_payment_status p) (up_payment_status updateData);
           p_payment_date :=
             match up_payment_date updateData with
             | Some d => Some d
             | None => p_payment_date p
             end;
           p_payment_notes :=
             or_string (up_payment_notes updateData) (p_payment_notes p);
           p_gateway_response :=
             match up_gateway_response updateData with
             | Some s => Some s
             | None => p_gateway_response p
             end;
           p_created_by := p_created_by q;
           p_created_at := p_created_at q;
           p_updated_at := Js.getTime now |} in
      let db' :=
        with_payments
          (map_imap (λ _ q, Some (if bool_decide (p_payment_id q = paymentId)
                                  then assign q else q))) db in
      (db', Ok (findPaymentByPaymentId paymentId db'))
  end.

(** generatePaymentId: PAY_<epoch ms>_<three digits>; [r] is
    [Math.floor(Math.random() * 1000)]. *)
Definition generatePaymentId (now : Js.Date) (r : Z) : string :=
  "PAY_" +:+ Js.toString (Js.getTime now) +:+ "_" +:+ Js.padStart0 3 (Js.toString r).

End PaymentModel.

(** ** The algorithm FIFO-Deduct of the specification *)

Module Spec.

Definition sum (l : list Z) : Z := foldr Z.add 0 l.


(** The completed total of the payment statistics as the specification
    states it: the amounts of the completed payments, and the total_payment of
    the paid supply records that no payment row references (each under the
    filters of its table). *)
Definition total_completed (fl : PaymentModel.filters) (db : database) : Z :=
  sum ((λ kv : Z * payment, p_amount kv.2)
       <$> filter (λ kv : Z * payment,
                     PaymentModel.stat_payment_selected fl kv = true
                     ∧ p_payment_status kv.2 = p_completed)
                  (select_all (payments db)))
  + sum ((λ kv : Z * supply_record, sr_total_payment kv.2)
         <$> filter (λ kv : Z * supply_record,
                       PaymentModel.stat_supply_selected fl kv = true
                       ∧ sr_payment_status kv.2 = paid
                       ∧ PaymentModel.has_payment db kv.1 = false)
                    (select_all (supply_records db))).


(** The supplier id of the number [n]: SUP and [n] zero-padded to six
    digits; and the number a supplier id SUP... carries. *)
Definition supplier_id_of (n : Z) : string :=
  "SUP" +:+ Js.padStart0 6 (Js.toString n).

Definition supplier_number (s : string) : Z := Js.parse_digits 0 (Js.drop 3 s).

(** The candidates generateSupplyId tries, in order: the base id, then the
    base id with the suffixes -01, -02, ... *)
Definition supply_candidate (baseId : string) (k : nat) : string :=
  match k with
  | O => baseId
  | S _ => baseId +:+ "-" +:+ Js.padStart0 2 (Js.toString (Z.of_nat k))
  end.

End Spec.

(** ** Observations of a database used in the statements *)

(** The quantity and the creation time of the supply record [id] (0 when
    there is none), and the same for inventory lots. *)
Definition quantity_kg_of (db : database) (id : Z) : Z :=
  from_option sr_quantity_kg 0 (supply_records db !! id).

Definition created_at_of (db : database) (id : Z) : Z :=
  from_option sr_created_at 0 (supply_records db !! id).



(** The sum of a column over a table. *)
Definition total_quantity_kg (db : database) : Z :=
  Spec.sum ((λ kv : Z * supply_record, sr_quantity_kg kv.2)
            <$> select_all (supply_records db)).


(** [r'] is [r] up to the columns supply_id and updated_at. *)
Definition same_but_supply_id (r r' : supply_record) : Prop :=
  r' = set_sr_updated_at (sr_updated_at r') (set_sr_supply_id (sr_supply_id r') r).

(** [r'] is [r] up to the columns quantity_kg and updated_at. *)
Definition same_but_quantity_kg (r r' : supply_record) : Prop :=
  r' = set_sr_updated_at (sr_updated_at r') (set_sr_quantity_kg (sr_quantity_kg r') r).

(** ** Example states *)

Module Examples.

Definition now : Js.Date :=
  {| Js.getFullYear := 2025; Js.getMonth := 0; Js.getDate := 5;
     Js.getHours := 9; Js.getMinutes := 7;
     Js.getTime := 1736068020000;
     Js.toTimeString := "09:07:00 GMT+0000 (Coordinated Universal Time)" |}.

Definition ann : user :=
  {| u_name := "Ann"; u_email := "ann@example.org"; u_phone := None;
     u_role := supplier; u_supplier_id := Some "SUP000001"; u_status := active;
     u_address := None; u_bank_name := None;
     u_account_number := Some "1234567890";
     u_created_at := 1700000000000; u_updated_at := 1700000000000 |}.

(** A supply record of [q] kg at unit price 50, created at [t]. *)
Definition supply (supply_id : string) (q : Z) (t : Z) : supply_record :=
  {| sr_supply_id := supply_id; sr_supplier_id := 1;
     sr_quantity_kg := q; sr_remaining_quantity_kg := q;
     sr_unit_price := 50; sr_total_payment := q * 50;
     sr_payment_method := spot; sr_payment_status := unpaid;
     sr_supply_date := 20093; sr_supply_time := "08:00:00"; sr_notes := None;
     sr_created_at := t; sr_updated_at := t |}.

(** Two deliveries, the older one with key 2. *)
Definition ledger : database :=
  {| users := {[ 1 := ann ]};
     supply_records := {[ 1 := supply "SUP-20250105-0800" 50 1736064000000;
                          2 := supply "SUP-20250104-0800" 100 1735977600000 ]};
     payments := ∅; inventory := ∅; production_data := ∅ |}.

Definition inventory_request (q : Z) : InventoryController.request_body :=
  {| InventoryController.quantity_kg := None;
     InventoryController.quantity := Some q |}.

Definition lot (inventoryid : string) (q : Z) (t : Z) : inventory_lot :=
  {| inv_inventoryid := inventoryid; inv_quantity := q;
     inv_createdAt := t; inv_updatedAt := t |}.



Definition no_filters : PaymentModel.filters :=
  {| PaymentModel.f_supplier_id := None; PaymentModel.f_date_from := None;
     PaymentModel.f_date_to := None; PaymentModel.f_search := None;
     PaymentModel.f_limit := None |}.

(** A delivery of 6 kg at 50, worth 300. *)
Definition delivery (supply_id : string) (s : supply_payment_status) (t : Z)
    : supply_record :=
  {| sr_supply_id := supply_id; sr_supplier_id := 1;
     sr_quantity_kg := 6; sr_remaining_quantity_kg := 6;
     sr_unit_price := 50; sr_total_payment := 300;
     sr_payment_method := spot; sr_payment_status := s;
     sr_supply_date := 20093; sr_supply_time := "08:00:00"; sr_notes := None;
     sr_created_at := t; sr_updated_at := t |}.

(** The payment row that the direct-payment route inserts for supply record 1. *)
Definition direct_payment : payment :=
  {| p_payment_id := "PAY_1736068020000_042"; p_supply_record_id := 1;
     p_supplier_id := 1; p_amount := 300; p_currency := "LKR";
     p_payment_method := "spot"; p_payment_gateway := None;
     p_gateway_session_id := None; p_gateway_payment_id := None;
     p_payment_status := p_completed; p_payment_date := None;
     p_payment_notes := None; p_gateway_response := None;
     p_created_by := None;
     p_created_at := 1736068020000; p_updated_at := 1736068020000 |}.

(** The state after one direct payment: supply record 1 is marked paid and
    has its payment row; supply record 2 is unpaid and has none. *)
Definition paybook : database :=
  {| users := {[ 1 := ann ]};
     supply_records := {[ 1 := delivery "SUP-20250104-0800" paid 1735977600000;
                          2 := delivery "SUP-20250105-0800" unpaid 1736064000000 ]};
     payments := {[ 1 := direct_payment ]};
     inventory := ∅; production_data := ∅ |}.

(** One unpaid supply record of amount 300 and no payment row. *)
Definition unpaid_only : database :=
  {| users := {[ 1 := ann ]};
     supply_records := {[ 1 := delivery "SUP-20250105-0800" unpaid 1736064000000 ]};
     payments := ∅; inventory := ∅; production_data := ∅ |}.

(** The scenario of the specification: 100 kg at unit price 50. *)
Definition supply_request : SupplierController.request_body :=
  {| SupplierController.supplier_id := Some 1;
     SupplierController.quantity := Some 100;
     SupplierController.quantity_kg := None;
     SupplierController.unit_price := Some 50;
     SupplierController.payment_method := None;
     SupplierController.payment_status := None;
     SupplierController.supply_date := Some 20093;
     SupplierController.notes := Js.Null |}.

(** A directory with one supplier and empty ledgers. *)
Definition directory : database :=
  {| users := {[ 1 := ann ]}; supply_records := ∅; payments := ∅;
     inventory := ∅; production_data := ∅ |}.

(** A clock reading at the epoch millisecond [t]. *)
Definition at_time (t : Z) : Js.Date :=
  {| Js.getFullYear := 2025; Js.getMonth := 0; Js.getDate := 5;
     Js.getHours := 8; Js.getMinutes := 15;
     Js.getTime := t;
     Js.toTimeString := "08:15:00 GMT+0000 (Coordinated Universal Time)" |}.

(** An edit of the notes. *)
Definition edit_notes : list (string * option SupplierModel.js_value) :=
  [("notes", Some (SupplierModel.V_string "two bags were wet"))].

(** The clock of the sweep: today is day 20093; six months back is day 19909,
    at the millisecond 1720170420000. *)
Definition sweep_clock : Sql.clock :=
  {| Sql.NOW := 1736068020000; Sql.NOW_minus_6_month := 1720170420000;
     Sql.CURDATE := 20093; Sql.CURDATE_minus_6_month := 19909 |}.

Definition supplier_since (t : Z) : user :=
  {| u_name := "Ben"; u_email := "ben@example.org"; u_phone := None;
     u_role := supplier; u_supplier_id := Some "SUP000002"; u_status := active;
     u_address := None; u_bank_name := None; u_account_number := None;
     u_created_at := t; u_updated_at := t |}.



(** The scenario of the specification: suppliers 2 and 3 registered seven
    months ago (day 19880); supplier 3 delivered two months ago (day 20032). *)
Definition seven_months : database :=
  {| users := {[ 2 := supplier_since 1717632000000;
                 3 := supplier_since 1717632000000 ]};
     supply_records :=
       {[ 1 := {| sr_supply_id := "SUP-20241105-0800"; sr_supplier_id := 3;
                  sr_quantity_kg := 10; sr_remaining_quantity_kg := 10;
                  sr_unit_price := 50; sr_total_payment := 500;
                  sr_payment_method := spot; sr_payment_status := unpaid;
                  sr_supply_date := 20032; sr_supply_time := "08:00:00";
                  sr_notes := None;
                  sr_created_at := 1730793600000;
                  sr_updated_at := 1730793600000 |} ]};
     payments := ∅; inventory := ∅; production_data := ∅ |}.

(** A directory whose supplier carries the highest six-digit id. *)
Definition full_range : database :=
  {| users := {[ 1 := set_u_supplier_id (Some "SUP999999") ann ]};
     supply_records := ∅; payments := ∅; inventory := ∅; production_data := ∅ |}.

(** A supplier registered after [ann], without a supplier_id. *)
Definition bob : user :=
  {| u_name := "Bob"; u_email := "bob@example.org"; u_phone := None;
     u_role := supplier; u_supplier_id := None; u_status := active;
     u_address := None; u_bank_name := None; u_account_number := None;
     u_created_at := 1710000000000; u_updated_at := 1710000000000 |}.

(** A store kept before business ids were introduced: supplier 2 has no
    supplier_id and delivery 3 has an empty supply_id. *)
Definition backlog : database :=
  {| users := {[ 1 := ann; 2 := bob ]};
     supply_records := {[ 1 := supply "SUP-20250105-0800" 50 1736064000000;
                          3 := supply "" 20 1735977600000 ]};
     payments := ∅; inventory := ∅; production_data := ∅ |}.

End Examples.

(** ** Invariants of the tables *)

(** The UNIQUE constraint on [supply_records.supply_id]. *)
Definition unique_supply_ids (db : database) : Prop :=
  ∀ k1 k2 r1 r2,
    supply_records db !! k1 = Some r1 → supply_records db !! k2 = Some r2 →
    sr_supply_id r1 = sr_supply_id r2 → k1 = k2.

(** ** routes/paymentRoutes.js *)

Module PaymentRoutes.

(** [UPDATE supply_records SET payment_status = 'paid' WHERE id = ?]: a row
    that holds the value already is not changed. *)
Definition mark_paid (id : Z) (now : Z) (db : database) : database :=
  with_supply_records
    (alter (λ r, if bool_decide (sr_payment_status r = paid) then r
                 else set_sr_updated_at now (set_sr_payment_status paid r)) id) db.

(** The body of POST /direct. *)
Record direct_body := mkDirectBody {
  supply_record_id : option Z;
  supplier_id : option Z;
  amount : option Z;
  payment_method : option string;
  payment_notes : option string
}.

(** POST /direct.  [random] is the draw of generatePaymentId, [user_id] is
    [req.user?.id] as the token gives it. *)
Definition direct (now : Js.Date) (random : Z) (user_id : option Z)
    (body : direct_body) (db : database)
    : database * response PaymentModel.payment_view :=
  match PaymentModel.given_number (supply_record_id body),
        PaymentModel.given_number (supplier_id body),
        PaymentModel.given_number (amount body) with
  | Some supply_record_id, Some supplier_id, Some amount =>
      let payment_id := PaymentModel.generatePaymentId now random in
      let paymentData :=
        {| PaymentModel.pd_payment_id := payment_id;
           PaymentModel.pd_supply_record_id := supply_record_id;
           PaymentModel.pd_supplier_id := Some supplier_id;
           PaymentModel.pd_amount := amount;
           PaymentModel.pd_currency := None;
           PaymentModel.pd_payment_method := default "spot" (payment_method body);
           PaymentModel.pd_payment_gateway := None;
           PaymentModel.pd_gateway_session_id := None;
           PaymentModel.pd_gateway_payment_id := None;
           PaymentModel.pd_payment_status := Some p_completed;
           PaymentModel.pd_payment_notes := payment_notes body;
           PaymentModel.pd_gateway_response := None;
           PaymentModel.pd_created_by := user_id |} in
      match PaymentModel.createPayment now paymentData db with
      | (db1, Ok created) =>
          (mark_paid supply_record_id (Js.getTime now) db1,
           {| status := 200; success := true;
              message := "Payment processed successfully"; data := created |})
      | (db1, Throw error) =>
          (db1, {| status := 500; success := false;
                   message := SupplierController.message_or error
                                "Failed to process payment";
                   data := None |})
      end
  | _, _, _ =>
      (db, {| status := 400; success := false;
              message := "Supply record ID, supplier ID, and amount are required";
              data := None |})
  end.

(** The body of POST /gateway (supplier_name and supplier_email are only
    logged). *)
Record gateway_body := mkGatewayBody {
  g_amount : option Z;
  g_currency : option string;
  g_description : option string;
  g_supply_record_id : option Z
}.

(** The 200 response of POST /gateway without its [payment_url]. *)
Record gateway_session := mkGatewaySession {
  gs_payment_id : string;
  gs_session_id : string;
  gs_amount : Z;
  gs_currency : string
}.

(** POST /gateway.  [provider] is [process.env.PAYMENT_GATEWAY_PROVIDER || "demo"]. *)
Definition gateway (now : Js.Date) (random : Z) (user_id : option Z)
    (provider : string) (body : gateway_body) (db : database)
    : database * response gateway_session :=
  match PaymentModel.given_number (g_amount body),
        PaymentModel.given_string (g_description body),
        PaymentModel.given_number (g_supply_record_id body) with
  | Some amount, Some description, Some supply_record_id =>
      let payment_id := PaymentModel.generatePaymentId now random in
      let session_id :=
        "session_" +:+ Js.toString (Js.getTime now) +:+ "_"
        +:+ Js.toString supply_record_id in
      let paymentData :=
        {| PaymentModel.pd_payment_id := payment_id;
           PaymentModel.pd_supply_record_id := supply_record_id;
           PaymentModel.pd_supplier_id := PaymentModel.given_number user_id;
           PaymentModel.pd_amount := amount;
           PaymentModel.pd_currency := Some (default "LKR" (g_currency body));
           PaymentModel.pd_payment_method := "gateway";
           PaymentModel.pd_payment_gateway := Some provider;
           PaymentModel.pd_gateway_session_id := Some session_id;
           PaymentModel.pd_gateway_payment_id := None;
           PaymentModel.pd_payment_status := Some p_pending;
           PaymentModel.pd_payment_notes := Some description;
           PaymentModel.pd_gateway_response := None;
           PaymentModel.pd_created_by := PaymentModel.given_number user_id |} in
      match PaymentModel.createPayment now paymentData db with
      | (db1, Ok (Some created)) =>
          let p := PaymentModel.pv_payment created in
          (db1, {| status := 200; success := true;
                   message := "Payment session created successfully";
                   data := Some {| gs_payment_id := p_payment_id p;
                                   gs_session_id := session_id;
                                   gs_amount := p_amount p;
                                   gs_currency := p_currency p |} |})
      | (db1, _) =>
          (db1, {| status := 500; success := false;
                   message := "Failed to create payment session"; data := None |})
      end
  | _, _, _ =>
      (db, {| status := 400; success := false;
              message := "Amount, description, and supply_record_id are required";
              data := None |})
  end.

(** The body of POST /callback/success; [cb_json] is [JSON.stringify(req.body)]. *)
Record callback_body := mkCallbackBody {
  cb_session_id : option string;
  cb_payment_id : option string;
  cb_status : option string;
  cb_supply_record_id : option Z;
  cb_gateway_payment_id : option string;
  cb_json : string
}.

(** POST /callback/success. *)
Definition callback_success (now : Js.Date) (body : callback_body) (db : database)
    : database * response unit :=
  let processed :=
    {| status := 200; success := true; message := "Payment processed successfully";
       data := None |} in
  match PaymentModel.given_string (cb_payment_id body) with
  | Some payment_id =>
      if bool_decide (cb_status body = Some "completed") then
        match PaymentModel.findPaymentByPaymentId payment_id db with
        | Some found =>
            match PaymentModel.updatePaymentByPaymentId now payment_id
                    {| PaymentModel.up_payment_status := Some p_completed;
                       PaymentModel.up_gateway_payment_id := cb_gateway_payment_id body;
                       PaymentModel.up_gateway_response := Some (cb_json body);
                       PaymentModel.up_payment_date := Some (Js.getTime now);
                       PaymentModel.up_payment_notes := None |} db with
            | (db1, Ok _) =>
                (mark_paid (p_supply_record_id (PaymentModel.pv_payment found))
                           (Js.getTime now) db1,
                 processed)
            | (db1, Throw _) =>
                (db1, {| status := 500; success := false;
                         message := "Payment callback processing failed";
                         data := None |})
            end
        | None => (db, processed)
        end
      else (db, processed)
  | None => (db, processed)
  end.

(** The query of GET /history.  [limit] is the query parameter of that name
    when it is given and stands for a positive whole number; without it the
    route asks for 100 entries. *)
Definition history (LIKE : string → string → bool) (supplier_id date_from date_to : option Z)
    (search : option string) (limit : option positive) (db : database)
    : list PaymentModel.entry :=
  PaymentModel.findAllPayments LIKE
    {| PaymentModel.f_supplier_id := supplier_id;
       PaymentModel.f_date_from := date_from;
       PaymentModel.f_date_to := date_to;
       PaymentModel.f_search := search;
       PaymentModel.f_limit := Some (default 100%positive limit) |} db.

End PaymentRoutes.

(** ** Further example states *)

Module Scenarios.

(** A member of staff. *)
Definition sam : user :=
  {| u_name := "Sam"; u_email := "sam@example.org"; u_phone := None;
     u_role := staff; u_supplier_id := None; u_status := active;
     u_address := None; u_bank_name := None; u_account_number := None;
     u_created_at := 1690000000000; u_updated_at := 1690000000000 |}.

(** The supplier Ann, the clerk Sam, and two unpaid deliveries of Ann, worth
    300 each, without payment rows. *)
Definition office : database :=
  {| users := {[ 1 := Examples.ann; 9 := sam ]};
     supply_records :=
       {[ 1 := Examples.delivery "SUP-20250104-0800" unpaid 1735977600000;
          2 := Examples.delivery "SUP-20250105-0800" unpaid 1736064000000 ]};
     payments := ∅; inventory := ∅; production_data := ∅ |}.

(** Sam pays delivery 1 in full. *)
Definition direct_request : PaymentRoutes.direct_body :=
  {| PaymentRoutes.supply_record_id := Some 1;
     PaymentRoutes.supplier_id := Some 1;
     PaymentRoutes.amount := Some 300;
     PaymentRoutes.payment_method := None;
     PaymentRoutes.payment_notes := None |}.

(** Sam opens a gateway session for delivery 1. *)
Definition gateway_request : PaymentRoutes.gateway_body :=
  {| PaymentRoutes.g_amount := Some 300;
     PaymentRoutes.g_currency := None;
     PaymentRoutes.g_description := Some "Monthly payment";
     PaymentRoutes.g_supply_record_id := Some 1 |}.

Definition all_payments : PaymentModel.filters :=
  {| PaymentModel.f_supplier_id := None; PaymentModel.f_date_from := None;
     PaymentModel.f_date_to := None; PaymentModel.f_search := None;
     PaymentModel.f_limit := None |}.

(** The payments of supplier 1. *)
Definition payments_of_ann : PaymentModel.filters :=
  {| PaymentModel.f_supplier_id := Some 1; PaymentModel.f_date_from := None;
     PaymentModel.f_date_to := None; PaymentModel.f_search := None;
     PaymentModel.f_limit := None |}.

(** The payment that Sam's gateway session for delivery 1 creates at
    [Examples.now] with the draw 42. *)
Definition gateway_payment : payment :=
  {| p_payment_id := "PAY_1736068020000_042"; p_supply_record_id := 1;
     p_supplier_id := 9; p_amount := 300; p_currency := "LKR";
     p_payment_method := "gateway"; p_payment_gateway := Some "demo";
     p_gateway_session_id := Some "session_1736068020000_1";
     p_gateway_payment_id := None;
     p_payment_status := p_pending; p_payment_date := None;
     p_payment_notes := Some "Monthly payment"; p_gateway_response := None;
     p_created_by := Some 9;
     p_created_at := 1736068020000; p_updated_at := 1736068020000 |}.

(** The gateway reports the payment of that session. *)
Definition callback_request : PaymentRoutes.callback_body :=
  {| PaymentRoutes.cb_session_id := Some "session_1736068020000_1";
     PaymentRoutes.cb_payment_id := Some "PAY_1736068020000_042";
     PaymentRoutes.cb_status := Some "completed";
     PaymentRoutes.cb_supply_record_id := Some 1;
     PaymentRoutes.cb_gateway_payment_id := Some "GW-7781";
     PaymentRoutes.cb_json := "{}" |}.

(** The ledger of the examples with a lot that already carries the inventory
    id generated at [Examples.now] with the draw 7. *)
Definition taken : database :=
  {| users := users Examples.ledger;
     supply_records := supply_records Examples.ledger;
     payments := ∅;
     inventory := {[ 4 := Examples.lot "INV-20250105-0907-07" 10 1736068000000 ]};
     production_data := ∅ |}.

End Scenarios.

(** ** routes/managerRoutes.js *)

Module ManagerRoutes.

(** The body of the manager's inventory requests.  A quantity or supplier_id
    is absent (undefined or null) or a whole number, given as a JSON number;
    fractions and strings are outside the model. *)
Record inventory_body := mkInventoryBody {
  quantity_kg : option Z;
  quantity : option Z;
  supplier_id : option Z;
  inventoryid : option string
}.

(** [a ?? b] *)
Definition nullish (a b : option Z) : option Z :=
  match a with
  | Some _ => a
  | None => b
  end.

(** The 400 of the validation carries the list of errors. *)
Definition validation_failed (errors : list string) : response (list string) :=
  {| status := 400; success := false; message := "Validation failed";
     data := Some errors |}.

(** The errors validateInventoryData collects.  On a whole number [parseFloat]
    and [parseInt] are the identity, and a whole number exceeds 999999.99
    when it exceeds 999999. *)
Definition validation_errors (body : inventory_body) : list string :=
  let rawQty := nullish (quantity_kg body) (quantity body) in
  (match rawQty with
   | None => ["Quantity must be a positive number"]
   | Some quantity =>
       if quantity <=? 0 then ["Quantity must be a positive number"]
       else if 999999 <? quantity then ["Quantity cannot exceed 999,999.99 kg"]
       else []
   end)
  ++ (match PaymentModel.given_number (supplier_id body) with
      | Some supplierId =>
          if supplierId <=? 0 then ["Supplier ID must be a positive integer"] else []
      | None => []
      end).

(** validateInventoryData: the 400, or the body it passes on, normalised. *)
Definition validateInventoryData (body : inventory_body)
    : response (list string) + inventory_body :=
  match validation_errors body with
  | [] =>
      inr {| quantity_kg := nullish (quantity_kg body) (quantity body);
             quantity := nullish (quantity_kg body) (quantity body);
             supplier_id := supplier_id body;
             inventoryid := inventoryid body |}
  | errors => inl (validation_failed errors)
  end.

(** An answer of a route: of the validation, of the route itself, or of the
    controller it delegates to ([None]: the controller ends without one). *)
Inductive answer (A : Type) :=
| Invalid (r : response (list string))
| Direct (r : response unit)
| Delegated (r : option (response A)).
Arguments Invalid {A} r.
Arguments Direct {A} r.
Arguments Delegated {A} r.

(** POST /inventory *)
Definition post_inventory (now : Js.Date) (random : Z → Z) (body : inventory_body)
    (db : database) : database * answer InventoryController.created :=
  match validateInventoryData body with
  | inl invalid => (db, Invalid invalid)
  | inr body' =>
      let '(db', r) :=
        InventoryController.createInventory now random
          {| InventoryController.quantity_kg := None;
             InventoryController.quantity := quantity_kg body' |} db in
      (db', Delegated r)
  end.

(** PUT /inventory/:id; [id] is [parseInt(req.params.id)], NaN being [None]. *)
Definition put_inventory (now : Js.Date) (id : option Z) (body : inventory_body)
    (db : database) : database * answer inventory_lot :=
  match validateInventoryData body with
  | inl invalid => (db, Invalid invalid)
  | inr body' =>
      match id with
      | None => (db, Direct {| status := 400; success := false;
                               message := "Invalid inventory ID"; data := None |})
      | Some itemId =>
          if itemId <=? 0
          then (db, Direct {| status := 400; success := false;
                              message := "Invalid inventory ID"; data := None |})
          else
            match inventory db !! itemId with
            | None => (db, Direct {| status := 404; success := false;
                                     message := "Inventory item not found";
                                     data := None |})
            | Some existingItem =>
                let '(db', r) :=
                  InventoryController.updateInventory now itemId
                    {| InventoryController.u_quantity_kg := None;
                       InventoryController.u_quantity := quantity_kg body';
                       InventoryController.u_inventoryid :=
                         if Js.falsy_string (inventoryid body')
                         then Some (inv_inventoryid existingItem)
                         else inventoryid body' |} db in
                (db', Delegated (Some r))
            end
      end
  end.

End ManagerRoutes.

(** ** Example requests *)

Module Requests.

(** A body whose [quantity_kg] is 0 and whose [quantity] is 5. *)
Definition zero_first : ManagerRoutes.inventory_body :=
  {| ManagerRoutes.quantity_kg := Some 0; ManagerRoutes.quantity := Some 5;
     ManagerRoutes.supplier_id := None; ManagerRoutes.inventoryid := None |}.

(** 120 kg for the store. *)
Definition store_120 : ManagerRoutes.inventory_body :=
  {| ManagerRoutes.quantity_kg := Some 120; ManagerRoutes.quantity := None;
     ManagerRoutes.supplier_id := None; ManagerRoutes.inventoryid := None |}.


(** A production of 10.9 kg, as the JSON number 10.9. *)
Definition fractional_production : ProductionController.request_body :=
  {| ProductionController.quantity := Js.Num "10.9";
     ProductionController.production_date := Some 20093 |}.

(** A staff edit that names the new quantity only. *)
Definition quantity_only (q : Z) : SupplierController.object :=
  [("quantity_kg", Some (SupplierController.U_value (SupplierModel.V_number q)))].

(** A staff edit of both quantity and unit price. *)
Definition quantity_and_price (q p : Z) : SupplierController.object :=
  [("quantity_kg", Some (SupplierController.U_value (SupplierModel.V_number q)));
   ("unit_price", Some (SupplierController.U_value (SupplierModel.V_number p)))].

End Requests.

(** ** updateSupplierIds.js *)

Module UpdateSupplierIds.

(** [UPDATE users SET supplier_id = ? WHERE id = ?]; the changed row takes the
    current timestamp in [updated_at]. *)
Definition set_supplier_id (supplierId : string) (id : Z) (now : Z) (db : database)
    : database :=
  with_users
    (alter (λ u, set_u_updated_at now (set_u_supplier_id (Some supplierId) u)) id) db.

(** The id the script gives the user [id]: SUP and the id padded to four
    digits. *)
Definition supplierId_of (id : Z) : string :=
  "SUP" +:+ Js.padStart0 4 (Js.toString id).

(** updateSupplierIds: every supplier whose supplier_id is NULL or empty gets
    the id made of its user id. *)
Definition updateSupplierIds (now : Js.Date) (db : database) : database :=
  let suppliers :=
    filter (λ kv : Z * user,
              u_role kv.2 = supplier ∧ Js.falsy_string (u_supplier_id kv.2) = true)
           (select_all (users db)) in
  foldl (λ db1 (supplier' : Z * user),
           set_supplier_id (supplierId_of supplier'.1) supplier'.1 (Js.getTime now) db1)
        db suppliers.

End UpdateSupplierIds.

(** * Properties *)

(** ** The stable sort *)

Section sort_facts.
Context {A : Type} (le : A → A → bool).

Lemma insert_sorted_Permutation (x : A) (l : list A) :
  Js.insert_sorted le x l ≡ₚ x :: l.
Proof.
  induction l as [|y l IH]; simpl; [done|].
  destruct (le x y); [done|].
  rewrite IH. apply Permutation_swap.
Qed.

Lemma sort_Permutation (l : list A) : Js.sort le l ≡ₚ l.
Proof.
  induction l as [|x l IH]; simpl; [done|].
  by rewrite insert_sorted_Permutation, IH.
Qed.

Lemma sort_length (l : list A) : length (Js.sort le l) = length l.
Proof. by rewrite sort_Permutation. Qed.

Lemma elem_of_sort (x : A) (l : list A) : x ∈ Js.sort le l ↔ x ∈ l.
Proof. by rewrite sort_Permutation. Qed.

Hypothesis le_total : ∀ a b, le a b = false → le b a = true.

Lemma insert_sorted_Sorted (x : A) (l : list A) :
  Sorted (λ a b, le a b = true) l →
  Sorted (λ a b, le a b = true) (Js.insert_sorted le x l).
Proof.
  induction 1 as [|y l Hs IH Hhd]; simpl.
  - repeat constructor.
  - destruct (le x y) eqn:Hxy.
    + constructor; [by constructor|]. by constructor.
    + constructor; [done|].
      destruct l as [|z l]; simpl in *.
      * constructor. by apply le_total.
      * destruct (le x z); constructor; [by apply le_total|].
        by inversion Hhd.
Qed.

Lemma sort_Sorted (l : list A) : Sorted (λ a b, le a b = true) (Js.sort le l).
Proof.
  induction l as [|x l IH]; simpl; [constructor|].
  by apply insert_sorted_Sorted.
Qed.

End sort_facts.

Lemma Sorted_weaken {A} (R1 R2 : A → A → Prop) (l : list A) :
  (∀ a b, R1 a b → R2 a b) → Sorted R1 l → Sorted R2 l.
Proof.
  intros HR. induction 1 as [|x l Hs IH Hhd]; constructor; [done|].
  destruct Hhd; constructor; auto.
Qed.

Lemma sort_asc_Sorted {A} (key : A → Z) (l : list A) :
  Sorted (λ a b, key a ≤ key b) (Js.sort (λ a b, key a <=? key b) l).
Proof.
  eapply Sorted_weaken; [|apply sort_Sorted].
  - intros a b. simpl. lia.
  - intros a b. lia.
Qed.

(** ** Tables *)

Lemma insertId_above {A} (t : gmap Z A) (k : Z) :
  is_Some (t !! k) → k < insertId t.
Proof.
  intros [x Hx]. unfold insertId, select_all.
  apply elem_of_map_to_list in Hx.
  assert (k ∈ (map_to_list t).*1) as Hk.
  { apply list_elem_of_fmap. by exists (k, x). }
  revert Hk. generalize ((map_to_list t).*1). intros l.
  induction l as [|y l IH]; simpl; [by intros ?%elem_of_nil|].
  intros [->|?]%elem_of_cons; [lia|]. specialize (IH ltac:(done)). lia.
Qed.

Lemma insertId_fresh {A} (t : gmap Z A) : t !! insertId t = None.
Proof.
  destruct (t !! insertId t) eqn:E; [|done].
  assert (insertId t < insertId t) by (apply insertId_above; eauto). lia.
Qed.

(** ** FIFO-Deduct *)



Lemma sum_cons (a : Z) (l : list Z) : Spec.sum (a :: l) = a + Spec.sum l.
Proof. reflexivity. Qed.



Lemma sum_Permutation (l1 l2 : list Z) : l1 ≡ₚ l2 → Spec.sum l1 = Spec.sum l2.
Proof.
  induction 1; rewrite ?sum_cons; lia.
Qed.

Lemma foldl_add_sum {A} (f : A → Z) (l : list A) (acc : Z) :
  foldl (λ sum a, sum + f a) acc l = acc + Spec.sum (f <$> l).
Proof.
  revert acc. induction l as [|a l IH]; intros acc.
  - unfold Spec.sum; simpl. lia.
  - cbn [foldl fmap list_fmap]. rewrite IH, sum_cons. lia.
Qed.

(** ** Supply identifiers *)

Lemma string_app_cons (c : ascii) (s t : string) :
  String c s +:+ t = String c (s +:+ t).
Proof. reflexivity. Qed.

Lemma string_app_nil_l (s : string) : "" +:+ s = s.
Proof. reflexivity. Qed.

Lemma string_app_nil_r (s : string) : s +:+ "" = s.
Proof. induction s as [|c s IH]; [done|]. by rewrite string_app_cons, IH. Qed.

Lemma string_app_assoc (s1 s2 s3 : string) : (s1 +:+ s2) +:+ s3 = s1 +:+ (s2 +:+ s3).
Proof. induction s1 as [|c s1 IH]; [done|]. by rewrite !string_app_cons, IH. Qed.

Lemma generateSupplyId_loop_prefix fuel baseId supplyId counter db :
  (∃ sfx, supplyId = baseId +:+ sfx) →
  ∃ sfx, SupplierModel.generateSupplyId_loop fuel baseId supplyId counter db
         = baseId +:+ sfx.
Proof.
  revert supplyId counter. induction fuel as [|fuel IH]; intros supplyId counter Hs; simpl.
  - done.
  - destruct (SupplierModel.supplyIdExists supplyId db); [|done].
    apply IH. eauto.
Qed.

Lemma generateSupplyId_nonempty now db : SupplierModel.generateSupplyId now db ≠ "".
Proof.
  unfold SupplierModel.generateSupplyId.
  destruct (generateSupplyId_loop_prefix (S (size (supply_records db)))
              (SupplierModel.supply_baseId now) (SupplierModel.supply_baseId now) 1 db)
    as [sfx ->].
  { exists EmptyString. symmetry. apply string_app_nil_r. }
  unfold SupplierModel.supply_baseId.
  rewrite !string_app_assoc, string_app_cons. discriminate.
Qed.

(** ** findAllSupplyRecords *)

(** What the loop of findAllSupplyRecords does for one selected row. *)
Lemma findAllSupplyRecords_rows_spec now rows db :
  NoDup (SupplierModel.row_id <$> rows) →
  (∀ row, row ∈ rows →
     supply_records db !! SupplierModel.row_id row = Some (SupplierModel.row_record row)) →
  let res := SupplierModel.findAllSupplyRecords_rows now rows db in
  users res.1 = users db ∧ payments res.1 = payments db
  ∧ inventory res.1 = inventory db ∧ production_data res.1 = production_data db
  ∧ (∀ id, id ∉ SupplierModel.row_id <$> rows →
       supply_records res.1 !! id = supply_records db !! id)
  ∧ Forall2 (λ row row',
       SupplierModel.row_id row' = SupplierModel.row_id row
       ∧ SupplierModel.row_supplier row' = SupplierModel.row_supplier row
       ∧ if bool_decide (sr_supply_id (SupplierModel.row_record row) = "")
         then ∃ db0 newId,
                newId = SupplierModel.generateSupplyId now db0
                ∧ (∀ k r, supply_records db !! k = Some r → sr_supply_id r ≠ "" →
                     supply_records db0 !! k = Some r)
                ∧ newId ≠ ""
                ∧ SupplierModel.row_record row'
                  = set_sr_supply_id newId (SupplierModel.row_record row)
                ∧ supply_records res.1 !! SupplierModel.row_id row
                  = Some (set_sr_updated_at (Js.getTime now)
                            (set_sr_supply_id newId (SupplierModel.row_record row)))
         else row' = row
              ∧ supply_records res.1 !! SupplierModel.row_id row
                = Some (SupplierModel.row_record row))
     rows res.2.
Proof.
  revert db. induction rows as [|row rest IH]; intros db Hnd Hsnap; simpl.
  - repeat split; done || constructor.
  - apply NoDup_cons in Hnd as [Hnotin Hnd].
    set (step :=
      if bool_decide (sr_supply_id (SupplierModel.row_record row) = "")
      then (SupplierModel.update_supply_id (SupplierModel.generateSupplyId now db)
              (SupplierModel.row_id row) (Js.getTime now) db,
            {| SupplierModel.row_id := SupplierModel.row_id row;
               SupplierModel.row_record :=
                 set_sr_supply_id (SupplierModel.generateSupplyId now db)
                                  (SupplierModel.row_record row);
               SupplierModel.row_supplier := SupplierModel.row_supplier row |})
      else (db, row)).
    assert (users step.1 = users db ∧ payments step.1 = payments db
            ∧ inventory step.1 = inventory db
            ∧ production_data step.1 = production_data db
            ∧ (∀ id, id ≠ SupplierModel.row_id row →
                 supply_records step.1 !! id = supply_records db !! id)
            ∧ (∀ k r, supply_records db !! k = Some r → sr_supply_id r ≠ "" →
                 supply_records step.1 !! k = Some r)) as Hstep.
    { unfold step. case_bool_decide as Hblank; simpl; repeat split; try done.
      - intros id Hid. by rewrite lookup_alter_ne.
      - intros k r Hr Hne. rewrite lookup_alter_ne; [done|].
        intros <-. rewrite (Hsnap row) in Hr by left. by injection Hr as <-. }
    destruct Hstep as (Hu & Hp & Hi & Hpr & Hother & Hkeep).
    destruct step as [db1 row1] eqn:Estep. simpl in *.
    specialize (IH db1 Hnd).
    destruct (SupplierModel.findAllSupplyRecords_rows now rest db1) as [db2 rest'] eqn:Erec.
    simpl in *.
    destruct IH as (IHu & IHp & IHi & IHpr & IHother & IHrows).
    { intros r Hr. rewrite Hother; [apply Hsnap; by right|].
      intros Heq. apply Hnotin. rewrite <-Heq. apply list_elem_of_fmap. eauto. }
    repeat split; try congruence.
    + intros id Hid. apply not_elem_of_cons in Hid as [Hne Hid].
      rewrite IHother by done. by apply Hother.
    + constructor.
      2:{ eapply Forall2_impl; [exact IHrows|].
          intros r r' (? & ? & Hc). split; [done|]. split; [done|].
          case_bool_decide; [|done].
          destruct Hc as (db0 & newId & ? & Hk0 & ?). exists db0, newId.
          split; [done|]. split; [|done].
          intros k r0 Hr0 Hne. apply Hk0; [|done]. by apply Hkeep. }
      rewrite IHother by done.
      unfold step in Estep. case_bool_decide; injection Estep as <- <-; simpl.
      * repeat split; try done. exists db, (SupplierModel.generateSupplyId now db).
        split; [done|]. split; [done|].
        split; [apply generateSupplyId_nonempty|]. split; [done|].
        rewrite lookup_alter_eq. rewrite (Hsnap row) by left. done.
      * repeat split; try done. apply Hsnap. left.
Qed.

Lemma selected_rows_NoDup (db : database) :
  NoDup (SupplierModel.row_id <$>
           Sql.order_by_desc (λ row, sr_created_at (SupplierModel.row_record row))
             ((λ kv : Z * supply_record,
                 {| SupplierModel.row_id := kv.1; SupplierModel.row_record := kv.2;
                    SupplierModel.row_supplier := SupplierModel.join_supplier db kv.2 |})
              <$> select_all (supply_records db))).
Proof.
  unfold Sql.order_by_desc. rewrite sort_Permutation.
  rewrite <-list_fmap_compose.
  apply (NoDup_fst_map_to_list (supply_records db)).
Qed.

Lemma selected_rows_elem (db : database) (row : SupplierModel.supply_row) :
  row ∈ Sql.order_by_desc (λ row, sr_created_at (SupplierModel.row_record row))
          ((λ kv : Z * supply_record,
              {| SupplierModel.row_id := kv.1; SupplierModel.row_record := kv.2;
                 SupplierModel.row_supplier := SupplierModel.join_supplier db kv.2 |})
           <$> select_all (supply_records db))
  ↔ supply_records db !! SupplierModel.row_id row = Some (SupplierModel.row_record row)
    ∧ SupplierModel.row_supplier row
      = SupplierModel.join_supplier db (SupplierModel.row_record row).
Proof.
  unfold Sql.order_by_desc. rewrite elem_of_sort, list_elem_of_fmap. split.
  - intros ([k r] & -> & Hkr). simpl. by apply elem_of_map_to_list in Hkr.
  - intros [Hl Hs]. exists (SupplierModel.row_id row, SupplierModel.row_record row).
    split; [|by apply elem_of_map_to_list].
    destruct row; simpl in *. by rewrite Hs.
Qed.

(** findAllSupplyRecords leaves every table but supply_records alone; in
    supply_records it changes at most supply_id and updated_at; its rows are
    the records of the table, one per key. *)
Lemma findAllSupplyRecords_spec now db :
  let res := SupplierModel.findAllSupplyRecords now db in
  users res.1 = users db ∧ payments res.1 = payments db
  ∧ inventory res.1 = inventory db ∧ production_data res.1 = production_data db
  ∧ (∀ id, match supply_records db !! id, supply_records res.1 !! id with
           | Some r, Some r' => same_but_supply_id r r'
           | None, None => True
           | _, _ => False
           end)
  ∧ NoDup (SupplierModel.row_id <$> res.2)
  ∧ (∀ id, id ∈ SupplierModel.row_id <$> res.2 ↔ is_Some (supply_records db !! id))
  ∧ (∀ row', row' ∈ res.2 →
       ∃ r', supply_records res.1 !! SupplierModel.row_id row' = Some r'
             ∧ SupplierModel.row_record row'
               = set_sr_updated_at (sr_updated_at (SupplierModel.row_record row')) r').
Proof.
  unfold SupplierModel.findAllSupplyRecords.
  set (rows := Sql.order_by_desc _ _).
  pose proof (selected_rows_NoDup db) as Hnd. fold rows in Hnd.
  pose proof (findAllSupplyRecords_rows_spec now rows db Hnd) as Hspec.
  destruct Hspec as (Hu & Hp & Hi & Hpr & Hother & Hrows).
  { intros row Hrow. by apply selected_rows_elem in Hrow as [? _]. }
  set (res := SupplierModel.findAllSupplyRecords_rows now rows db) in *.
  assert (SupplierModel.row_id <$> res.2 = SupplierModel.row_id <$> rows) as Hids.
  { clear -Hrows. induction Hrows as [|row row' l l' (Hid & _) _ IH]; [done|].
    by rewrite !fmap_cons, Hid, IH. }
  assert (∀ id, id ∈ SupplierModel.row_id <$> rows ↔ is_Some (supply_records db !! id))
    as Hdom.
  { intros id. rewrite list_elem_of_fmap. split.
    - intros (row & -> & Hrow). apply selected_rows_elem in Hrow as [-> _]. eauto.
    - intros [r Hr].
      exists {| SupplierModel.row_id := id; SupplierModel.row_record := r;
                SupplierModel.row_supplier := SupplierModel.join_supplier db r |}.
      split; [done|]. by apply selected_rows_elem. }
  simpl. repeat split; try done.
  - intros id. destruct (supply_records db !! id) as [r|] eqn:Hr.
    + assert (id ∈ SupplierModel.row_id <$> rows) as Hin by (apply Hdom; eauto).
      apply list_elem_of_fmap in Hin as (row & -> & Hrow).
      pose proof Hrow as Hsel. apply selected_rows_elem in Hsel as [Hl _].
      rewrite Hr in Hl. injection Hl as ->.
      apply list_elem_of_lookup in Hrow as [i Hi'].
      destruct (Forall2_lookup_l _ _ _ _ _ Hrows Hi') as (row' & _ & _ & _ & Hcase).
      case_bool_decide.
      * destruct Hcase as (db0 & newId & _ & _ & _ & _ & ->). reflexivity.
      * destruct Hcase as [_ ->]. by destruct (SupplierModel.row_record row).
    + rewrite Hother, Hr; [done|]. rewrite Hdom, Hr. by intros [? ?].
  - by rewrite Hids.
  - rewrite Hids. apply Hdom.
  - rewrite Hids. apply Hdom.
  - intros row' Hrow'. apply list_elem_of_lookup in Hrow' as [i Hi'].
    destruct (Forall2_lookup_r _ _ _ _ _ Hrows Hi') as (row & Hrow & Hid & _ & Hcase).
    rewrite Hid. case_bool_decide.
    + destruct Hcase as (db0 & newId & _ & _ & _ & -> & ->).
      eexists. split; [done|]. reflexivity.
    + destruct Hcase as [-> ->]. eexists. split; [done|].
      by destruct (SupplierModel.row_record row).
Qed.

(** ** The deduction loop of createInventory *)





Lemma same_but_supply_id_fields r r' :
  same_but_supply_id r r' →
  sr_quantity_kg r' = sr_quantity_kg r ∧ sr_created_at r' = sr_created_at r
  ∧ sr_unit_price r' = sr_unit_price r ∧ sr_total_payment r' = sr_total_payment r.
Proof. unfold same_but_supply_id. intros ->. done. Qed.

(** The view of the table that findAllSupplyRecords gives its caller. *)
Lemma findAllSupplyRecords_view now db :
  let res := SupplierModel.findAllSupplyRecords now db in
  (∀ id, quantity_kg_of res.1 id = quantity_kg_of db id
         ∧ created_at_of res.1 id = created_at_of db id
         ∧ (is_Some (supply_records res.1 !! id) ↔ is_Some (supply_records db !! id)))
  ∧ (∀ row, row ∈ res.2 →
       sr_quantity_kg (SupplierModel.row_record row)
       = quantity_kg_of db (SupplierModel.row_id row)
       ∧ sr_created_at (SupplierModel.row_record row)
         = created_at_of db (SupplierModel.row_id row)).
Proof.
  destruct (findAllSupplyRecords_spec now db)
    as (_ & _ & _ & _ & Hsame & _ & Hdom & Hrows).
  cbn zeta.
  assert (∀ id, quantity_kg_of (SupplierModel.findAllSupplyRecords now db).1 id
                = quantity_kg_of db id
                ∧ created_at_of (SupplierModel.findAllSupplyRecords now db).1 id
                  = created_at_of db id
                ∧ (is_Some (supply_records (SupplierModel.findAllSupplyRecords now db).1 !! id)
                   ↔ is_Some (supply_records db !! id))) as Hview.
  { intros id. specialize (Hsame id). unfold quantity_kg_of, created_at_of.
    destruct (supply_records db !! id) as [r|],
             (supply_records (SupplierModel.findAllSupplyRecords now db).1 !! id) as [r'|];
      try done.
    apply same_but_supply_id_fields in Hsame as (Hq & Hc & _). simpl.
    rewrite Hq, Hc. repeat split; eauto. }
  split; [done|].
  intros row Hrow. destruct (Hrows row Hrow) as (r' & Hr' & Hrec).
  destruct (Hview (SupplierModel.row_id row)) as (Hq & Hc & _).
  rewrite <-Hq, <-Hc. unfold quantity_kg_of, created_at_of. rewrite Hr'. simpl.
  rewrite Hrec. done.
Qed.

Lemma sum_fmap_ext {A} (f g : A → Z) (l : list A) :
  (∀ a, a ∈ l → f a = g a) → Spec.sum (f <$> l) = Spec.sum (g <$> l).
Proof.
  intros H. f_equal. apply list_fmap_ext. intros i a Ha. apply H.
  by eapply list_elem_of_lookup_2.
Qed.

Lemma keys_Permutation {A} (t : gmap Z A) (ids : list Z) :
  NoDup ids → (∀ id, id ∈ ids ↔ is_Some (t !! id)) → ids ≡ₚ (select_all t).*1.
Proof.
  intros Hnd Hdom. apply NoDup_Permutation; [done|apply NoDup_fst_map_to_list|].
  intros id. rewrite Hdom. unfold select_all. rewrite list_elem_of_fmap. split.
  - intros [x Hx]. exists (id, x). split; [done|]. by apply elem_of_map_to_list.
  - intros ([k x] & -> & Hx). apply elem_of_map_to_list in Hx. eauto.
Qed.

Lemma total_quantity_kg_ids (db : database) (ids : list Z) :
  NoDup ids → (∀ id, id ∈ ids ↔ is_Some (supply_records db !! id)) →
  Spec.sum (quantity_kg_of db <$> ids) = total_quantity_kg db.
Proof.
  intros Hnd Hdom. unfold total_quantity_kg.
  rewrite (sum_Permutation _ (quantity_kg_of db <$> (select_all (supply_records db)).*1)).
  - rewrite <-list_fmap_compose. apply sum_fmap_ext.
    intros [k r] Hkr. apply elem_of_map_to_list in Hkr.
    unfold quantity_kg_of. simpl. by rewrite Hkr.
  - apply fmap_Permutation. by apply keys_Permutation.
Qed.

Lemma findAllSupplyRecords_total now db :
  Spec.sum ((λ row, sr_quantity_kg (SupplierModel.row_record row))
            <$> (SupplierModel.findAllSupplyRecords now db).2)
  = total_quantity_kg db.
Proof.
  destruct (findAllSupplyRecords_spec now db)
    as (_ & _ & _ & _ & _ & Hnd & Hdom & _).
  destruct (findAllSupplyRecords_view now db) as [_ Hrows].
  rewrite <-(total_quantity_kg_ids db _ Hnd Hdom).
  rewrite <-list_fmap_compose. apply sum_fmap_ext.
  intros row Hrow. by apply Hrows.
Qed.

Lemma Sorted_fmap_elem {A B} (R : A → A → Prop) (R' : B → B → Prop) (f : A → B)
    (l : list A) :
  (∀ a b, a ∈ l → b ∈ l → R a b → R' (f a) (f b)) →
  Sorted R l → Sorted R' (f <$> l).
Proof.
  intros HR Hs. induction Hs as [|a l Hs IH Hhd]; [constructor|].
  rewrite fmap_cons. constructor.
  - apply IH. intros x y Hx Hy. apply HR; by right.
  - destruct Hhd as [|b l' Hab]; [constructor|].
    rewrite fmap_cons. constructor. apply HR; [by left|right; by left|done].
Qed.


Lemma inventoryid_exists_inventory id db db' :
  inventory db' = inventory db →
  InventoryModel.inventoryid_exists id db' = InventoryModel.inventoryid_exists id db.
Proof. unfold InventoryModel.inventoryid_exists. by intros ->. Qed.


(** Why the amended statement speaks of whole numbers.  Records of 15.60,
    71.07 and 9.33 kg hold 96 kg, but their sum in doubles is
    95.99999999999999: the check of createInventory finds the supply
    insufficient for a request of 96 kg.  With 15, 71 and 10 kg the sum is
    exact. *)
Lemma createInventory_check_rounds :
  Spec.sum [1560; 7107; 933] = 96 * 100
  ∧ Doubles.insufficient [1560; 7107; 933] 96 = true
  ∧ Doubles.insufficient [1500; 7100; 1000] 96 = false.
Proof. repeat split; vm_compute; reflexivity. Qed.




(** ** The frame of the deduction loop *)

Lemma same_but_quantity_kg_refl r : same_but_quantity_kg r r.
Proof. by destruct r. Qed.

Lemma same_but_quantity_kg_trans r1 r2 r3 :
  same_but_quantity_kg r1 r2 → same_but_quantity_kg r2 r3 → same_but_quantity_kg r1 r3.
Proof. unfold same_but_quantity_kg. intros -> ->. by destruct r1. Qed.

Lemma same_but_quantity_kg_set r q t :
  same_but_quantity_kg r (set_sr_updated_at t (set_sr_quantity_kg q r)).
Proof. by destruct r. Qed.

Lemma same_but_quantity_kg_fields r r' :
  same_but_quantity_kg r r' →
  sr_supply_id r' = sr_supply_id r ∧ sr_supplier_id r' = sr_supplier_id r
  ∧ sr_remaining_quantity_kg r' = sr_remaining_quantity_kg r
  ∧ sr_unit_price r' = sr_unit_price r ∧ sr_total_payment r' = sr_total_payment r
  ∧ sr_payment_method r' = sr_payment_method r
  ∧ sr_payment_status r' = sr_payment_status r
  ∧ sr_supply_date r' = sr_supply_date r ∧ sr_supply_time r' = sr_supply_time r
  ∧ sr_notes r' = sr_notes r ∧ sr_created_at r' = sr_created_at r.
Proof. unfold same_but_quantity_kg. intros ->. repeat split. Qed.

(** C10.  The deduction loop of createInventory leaves the other tables
    alone, keeps the keys of supply_records, and in every supply record
    changes at most quantity_kg and updated_at: supply_id, supplier_id,
    remaining_quantity_kg, unit_price, total_payment, payment_method,
    payment_status, supply_date, supply_time, notes and created_at keep their
    values.  Hence a record whose total_payment was quantity_kg times a
    non-zero unit_price and whose quantity the loop changed no longer has
    total_payment equal to quantity_kg times unit_price. *)
Theorem deduct_loop_frame now rows rem db :
  let res := InventoryController.deduct_loop now rows rem db in
  users res.1 = users db ∧ payments res.1 = payments db
  ∧ inventory res.1 = inventory db ∧ production_data res.1 = production_data db
  ∧ (∀ id, match supply_records db !! id, supply_records res.1 !! id with
           | Some r, Some r' =>
               same_but_quantity_kg r r'
               ∧ sr_remaining_quantity_kg r' = sr_remaining_quantity_kg r
               ∧ sr_unit_price r' = sr_unit_price r
               ∧ sr_total_payment r' = sr_total_payment r
               ∧ sr_payment_status r' = sr_payment_status r
               ∧ (sr_total_payment r = sr_quantity_kg r * sr_unit_price r →
                  sr_unit_price r ≠ 0 →
                  sr_quantity_kg r' ≠ sr_quantity_kg r →
                  sr_total_payment r' ≠ sr_quantity_kg r' * sr_unit_price r')
           | None, None => True
           | _, _ => False
           end).
Proof.
  cbn zeta.
  assert (let res := InventoryController.deduct_loop now rows rem db in
          users res.1 = users db ∧ payments res.1 = payments db
          ∧ inventory res.1 = inventory db ∧ production_data res.1 = production_data db
          ∧ ∀ id, match supply_records db !! id, supply_records res.1 !! id with
                  | Some r, Some r' => same_but_quantity_kg r r'
                  | None, None => True
                  | _, _ => False
                  end) as H.
  { revert rem db. induction rows as [|row rest IH]; intros rem db.
    - cbn. repeat split; try done. intros id.
      destruct (supply_records db !! id); [apply same_but_quantity_kg_refl|done].
    - cbn [InventoryController.deduct_loop].
      destruct (rem <=? 0).
      { cbn. repeat split; try done. intros id.
        destruct (supply_records db !! id); [apply same_but_quantity_kg_refl|done]. }
      destruct (0 <? sr_quantity_kg (SupplierModel.row_record row)); [|apply IH].
      set (db1 := InventoryController.update_quantity_kg _ _ _ db).
      destruct (IH (rem - Z.min (sr_quantity_kg (SupplierModel.row_record row)) rem) db1)
        as (Hu & Hp & Hi & Hpr & Hsr).
      repeat split; try done. intros id. specialize (Hsr id).
      unfold db1 in Hsr at 1. cbn in Hsr.
      destruct (decide (SupplierModel.row_id row = id)) as [<-|Hne].
      + rewrite lookup_alter_eq in Hsr.
        destruct (supply_records db !! SupplierModel.row_id row) as [r|]; cbn in Hsr; [|done].
        destruct (supply_records _ !! SupplierModel.row_id row) as [r'|]; [|done].
        eapply same_but_quantity_kg_trans; [apply same_but_quantity_kg_set|done].
      + by rewrite lookup_alter_ne in Hsr. }
  destruct H as (Hu & Hp & Hi & Hpr & Hsr).
  repeat split; try done. intros id. specialize (Hsr id).
  destruct (supply_records db !! id) as [r|],
           (supply_records (InventoryController.deduct_loop now rows rem db).1 !! id)
           as [r'|]; try done.
  destruct (same_but_quantity_kg_fields r r' Hsr)
    as (_ & _ & Hrem & Hprice & Htotal & _ & Hstatus & _).
  repeat split; try done.
  rewrite Htotal, Hprice. intros Ht Hp0 Hq. rewrite Ht. nia.
Qed.

Lemma deduct_loop_frame_witness :
  let r := Examples.supply "SUP-20250104-0800" 100 1735977600000 in
  let r' := set_sr_updated_at (Js.getTime Examples.now) (set_sr_quantity_kg 40 r) in
  supply_records
    (InventoryController.deduct_loop Examples.now
       [ {| SupplierModel.row_id := 2; SupplierModel.row_record := r;
            SupplierModel.row_supplier := None |} ]
       60 Examples.ledger).1 !! 2 = Some r'
  ∧ sr_total_payment r' ≠ sr_quantity_kg r' * sr_unit_price r'.
Proof.
  intros r r'.
  assert (supply_records
            (InventoryController.deduct_loop Examples.now
               [ {| SupplierModel.row_id := 2; SupplierModel.row_record := r;
                    SupplierModel.row_supplier := None |} ]
               60 Examples.ledger).1 !! 2 = Some r') as E' by (vm_compute; reflexivity).
  split; [exact E'|].
  pose proof (deduct_loop_frame Examples.now
                [ {| SupplierModel.row_id := 2; SupplierModel.row_record := r;
                     SupplierModel.row_supplier := None |} ]
                60 Examples.ledger) as (_ & _ & _ & _ & H).
  specialize (H 2). rewrite E' in H.
  assert (supply_records Examples.ledger !! 2 = Some r) as E by (vm_compute; reflexivity).
  rewrite E in H. destruct H as (_ & _ & _ & _ & _ & H).
  apply H; [reflexivity|discriminate|discriminate].
Defined.

(** ** The deduction loop of createProduction *)






(** ** findAllPayments *)

Lemma elem_of_limit {A} (lim : option nat) (l : list A) (x : A) :
  x ∈ Sql.limit lim l → x ∈ l.
Proof. destruct lim as [n|]; simpl; [apply subseteq_take|done]. Qed.

Lemma has_payment_false (db : database) (sid : Z) :
  PaymentModel.has_payment db sid = false ↔
  ∀ pid p, payments db !! pid = Some p → p_supply_record_id p ≠ sid.
Proof.
  unfold PaymentModel.has_payment, select_all. split.
  - intros H pid p Hp Heq.
    assert (existsb (λ kv : Z * payment, p_supply_record_id kv.2 =? sid)
                    (map_to_list (payments db)) = true) as Ht; [|congruence].
    apply existsb_exists. exists (pid, p). split; [|simpl; lia].
    apply list_elem_of_In. by apply elem_of_map_to_list.
  - intros H. destruct (existsb _ _) eqn:E; [|done].
    apply existsb_exists in E as ([pid p] & Hin & Heq).
    apply list_elem_of_In, elem_of_map_to_list in Hin. simpl in Heq.
    destruct (H pid p Hin). lia.
Qed.

Lemma findAllPayments_elem LIKE fl db e :
  e ∈ PaymentModel.findAllPayments LIKE fl db →
  (∃ kv, payments db !! kv.1 = Some kv.2 ∧ e = PaymentModel.payment_entry db kv)
  ∨ (∃ kv, supply_records db !! kv.1 = Some kv.2
           ∧ PaymentModel.supply_selected LIKE fl db kv = true
           ∧ e = PaymentModel.supply_entry db kv).
Proof.
  unfold PaymentModel.findAllPayments. intros He.
  assert (e ∈ Js.sort (λ a b, PaymentModel.sort_time b <=? PaymentModel.sort_time a)
            ((PaymentModel.payment_entry db <$>
               Sql.limit (Pos.to_nat <$> PaymentModel.f_limit fl)
                 (Sql.order_by_desc (λ kv : Z * payment, p_created_at kv.2)
                    (filter (λ kv, PaymentModel.payment_selected LIKE fl db kv = true)
                            (select_all (payments db)))))
             ++ (PaymentModel.supply_entry db <$>
               Sql.limit (Pos.to_nat <$> PaymentModel.f_limit fl)
                 (Sql.order_by_desc (λ kv : Z * supply_record, sr_created_at kv.2)
                    (filter (λ kv, PaymentModel.supply_selected LIKE fl db kv = true)
                            (select_all (supply_records db))))))) as Hin.
  { destruct (PaymentModel.f_limit fl); [by eapply subseteq_take|done]. }
  clear He. apply elem_of_sort, elem_of_app in Hin as [Hin|Hin];
    apply list_elem_of_fmap in Hin as (kv & -> & Hkv);
    apply elem_of_limit in Hkv; unfold Sql.order_by_desc in Hkv;
    apply elem_of_sort, list_elem_of_filter in Hkv as [Hsel Hkv];
    apply elem_of_map_to_list' in Hkv; eauto.
Qed.

(** C3.  No entry of findAllPayments tagged supply_record stands for a
    supply record that some row of [payments] references; and a row tagged
    payment and a row tagged supply_record of one result never carry the same
    supply_record_id. *)
Theorem findAllPayments_no_double_entry LIKE fl db :
  (∀ sid pid p e,
     payments db !! pid = Some p → p_supply_record_id p = sid →
     e ∈ PaymentModel.findAllPayments LIKE fl db →
     PaymentModel.e_source e = source_supply_record →
     PaymentModel.e_supply_record_id e ≠ Some sid)
  ∧ (∀ e1 e2,
       e1 ∈ PaymentModel.findAllPayments LIKE fl db →
       e2 ∈ PaymentModel.findAllPayments LIKE fl db →
       PaymentModel.e_source e1 = source_payment →
       PaymentModel.e_source e2 = source_supply_record →
       PaymentModel.e_supply_record_id e1 ≠ PaymentModel.e_supply_record_id e2).
Proof.
  split.
  - intros sid pid p e Hp Hsid He Hsrc.
    apply findAllPayments_elem in He as [(kv & _ & ->)|(kv & Hkv & Hsel & ->)];
      [done|].
    simpl. intros [= Heq].
    unfold PaymentModel.supply_selected in Hsel.
    repeat (apply andb_prop in Hsel as [Hsel ?]).
    assert (PaymentModel.has_payment db kv.1 = false) as Hno
      by (by destruct (PaymentModel.has_payment db kv.1)).
    rewrite has_payment_false in Hno. apply (Hno pid p Hp). congruence.
  - intros e1 e2 He1 He2 Hs1 Hs2.
    apply findAllPayments_elem in He1 as [(kv1 & Hkv1 & ->)|(kv1 & _ & _ & ->)];
      [|done].
    apply findAllPayments_elem in He2 as [(kv2 & _ & ->)|(kv2 & Hkv2 & Hsel & ->)];
      [done|].
    simpl. intros Heq.
    unfold PaymentModel.supply_selected in Hsel.
    repeat (apply andb_prop in Hsel as [Hsel ?]).
    assert (PaymentModel.has_payment db kv2.1 = false) as Hno
      by (by destruct (PaymentModel.has_payment db kv2.1)).
    rewrite has_payment_false in Hno.
    destruct (supply_records db !! p_supply_record_id kv1.2); [|done].
    simpl in Heq. injection Heq as Heq. by apply (Hno kv1.1 kv1.2 Hkv1).
Qed.

Lemma findAllPayments_no_double_entry_witness :
  let result :=
    PaymentModel.findAllPayments (λ _ _, false) Examples.no_filters Examples.paybook in
  let e :=
    PaymentModel.supply_entry Examples.paybook
      (2, Examples.delivery "SUP-20250105-0800" unpaid 1736064000000) in
  result = [PaymentModel.payment_entry Examples.paybook (1, Examples.direct_payment); e]
  ∧ PaymentModel.e_supply_record_id e ≠ Some 1.
Proof.
  intros result e.
  assert (result
          = [PaymentModel.payment_entry Examples.paybook (1, Examples.direct_payment); e])
    as Hres by (vm_compute; reflexivity).
  split; [exact Hres|].
  apply (proj1 (findAllPayments_no_double_entry (λ _ _, false) Examples.no_filters
                  Examples.paybook) 1 1 Examples.direct_payment e).
  - reflexivity.
  - reflexivity.
  - fold result. rewrite Hres. apply list_elem_of_further, list_elem_of_here.
  - reflexivity.
Defined.

(** The scenario of the specification: no payment row and one unpaid supply
    record of amount 300 give one pending entry of amount 300 tagged
    supply_record. *)
Example findAllPayments_unpaid_only :
  (λ e, (PaymentModel.e_source e, PaymentModel.e_payment_status e,
         PaymentModel.e_amount e))
  <$> PaymentModel.findAllPayments (λ _ _, false) Examples.no_filters Examples.unpaid_only
  = [(source_supply_record, p_pending, 300)].
Proof. vm_compute. reflexivity. Qed.

(** ** getPaymentStatistics *)

(** C4 (the code departs from the claim).  After one direct payment of 300
    for supply record 1, which the route also marks paid, the statistics
    report a completed total of 600: the payment row and the paid supply
    record are both counted, where the specification counts 300. *)
Theorem getPaymentStatistics_counts_paid_record_twice :
  PaymentModel.total_completed_amount
    (PaymentModel.getPaymentStatistics Examples.no_filters Examples.paybook) = 600
  ∧ Spec.total_completed Examples.no_filters Examples.paybook = 300.
Proof. split; vm_compute; reflexivity. Qed.

(** What getPaymentStatistics adds up as completed, for every database: the
    completed payments and every paid supply record, referenced by a payment
    row or not. *)
Lemma getPaymentStatistics_total_completed fl db :
  PaymentModel.total_completed_amount (PaymentModel.getPaymentStatistics fl db)
  = Spec.sum ((λ kv : Z * payment,
                 if PaymentModel.has_state p_completed kv then p_amount kv.2 else 0)
              <$> filter (λ kv, PaymentModel.stat_payment_selected fl kv = true)
                         (select_all (payments db)))
    + Spec.sum ((λ kv : Z * supply_record,
                   if PaymentModel.is_paid kv then sr_total_payment kv.2 else 0)
                <$> filter (λ kv, PaymentModel.stat_supply_selected fl kv = true)
                           (select_all (supply_records db))).
Proof.
  unfold PaymentModel.getPaymentStatistics, PaymentModel.sum_case, Sql.SUM,
    PaymentModel.num. simpl.
  f_equal.
  - by destruct (filter _ (select_all (payments db))).
  - by destruct (filter _ (select_all (supply_records db))).
Qed.

(** ** createSupplyRecord *)

(** C6 (the code departs from the claim).  A request with supplier, quantity
    [Q], unit price [P], date and notes (a string or null), for an existing
    supplier, is answered 201 and inserts one supply record with quantity_kg
    [Q], unit_price [P] and total_payment [Q * P]; its remaining_quantity_kg is
    the column default 0, not [Q]: the INSERT does not name the column.  The
    same request without the notes key creates nothing: it is answered 500. *)
Theorem createSupplyRecord_persists now body db sid Q P date u :
  SupplierController.supplier_id body = Some sid →
  Js.or_number (SupplierController.quantity_kg body) (SupplierController.quantity body)
  = Some Q →
  SupplierController.unit_price body = Some P →
  SupplierController.supply_date body = Some date →
  sid ≠ 0 → Q ≠ 0 → P ≠ 0 →
  users db !! sid = Some u → u_role u = supplier →
  let res := SupplierController.createSupplyRecord now body db in
  let id := insertId (supply_records db) in
  match SupplierController.notes body with
  | Js.Undefined =>
      res.1 = db ∧ status res.2 = 500
      ∧ message res.2 = "Failed to create supply record"
  | _ =>
      ∃ row,
        status res.2 = 201
        ∧ supply_records db !! id = None
        ∧ supply_records res.1 = <[id := row]> (supply_records db)
        ∧ sr_supplier_id row = sid
        ∧ sr_quantity_kg row = Q
        ∧ sr_unit_price row = P
        ∧ sr_total_payment row = Q * P
        ∧ sr_remaining_quantity_kg row = 0
  end.
Proof.
  intros Hs Hq Hp Hd Hs0 HQ0 HP0 Hu Hrole.
  unfold SupplierController.createSupplyRecord.
  rewrite Hs, Hq, Hp, Hd. cbn [Js.falsy_number].
  assert ((sid =? 0) = false) as -> by lia.
  assert ((Q =? 0) = false) as -> by lia.
  assert ((P =? 0) = false) as -> by lia.
  cbn [orb]. unfold SupplierModel.findById. rewrite Hu, Hrole.
  rewrite bool_decide_eq_true_2 by done.
  unfold SupplierModel.createSupplyRecord.
  cbn [SupplierModel.d_supplier_id SupplierModel.d_notes].
  rewrite Hu.
  destruct (SupplierController.notes body) as [| |s]; cbn [fst snd status message].
  - done.
  - eexists. split; [reflexivity|]. split; [apply insertId_fresh|].
    split; [reflexivity|]. repeat split.
  - eexists. split; [reflexivity|]. split; [apply insertId_fresh|].
    split; [reflexivity|]. repeat split.
Qed.

Lemma createSupplyRecord_persists_witness :
  ∃ row,
    supply_records
      (SupplierController.createSupplyRecord Examples.now Examples.supply_request
         Examples.directory).1 !! 1 = Some row
    ∧ sr_quantity_kg row = 100 ∧ sr_total_payment row = 5000
    ∧ sr_remaining_quantity_kg row = 0.
Proof.
  destruct (createSupplyRecord_persists Examples.now Examples.supply_request
              Examples.directory 1 100 50 20093 Examples.ann)
    as (row & _ & _ & Hins & _ & Hq & _ & Ht & Hr);
    try reflexivity; try discriminate.
  exists row. rewrite Hins, Hq, Ht, Hr. split; [|done].
  change (insertId (supply_records Examples.directory)) with 1.
  apply lookup_insert_eq.
Defined.

(** ** The edit window of a supply record *)

Lemma timeDifference_exceeds_spec (currentTime createdAt : Z) :
  SupplierModel.timeDifference_exceeds 15 currentTime createdAt = true
  ↔ 15 * 60 * 1000 < currentTime - createdAt.
Proof. unfold SupplierModel.timeDifference_exceeds. lia. Qed.

(** C5 as stated fails at the boundary.  Supply record 1 was created at
    1736064000000; exactly 15 minutes later (900000 ms) an edit of its notes
    is applied and a delete removes it: the boundary is inside the window. *)
Lemma edit_window_boundary_counterexample :
  let now := Examples.at_time (1736064000000 + 15 * 60 * 1000) in
  let r := Examples.supply "SUP-20250105-0800" 50 1736064000000 in
  supply_records Examples.ledger !! 1 = Some r
  ∧ Js.getTime now - sr_created_at r = 15 * 60 * 1000
  ∧ (SupplierModel.updateSupplyRecord now 1 Examples.edit_notes Examples.ledger).2
    = Ok (Some (set_sr_updated_at (Js.getTime now)
                  (set_sr_notes (Some "two bags were wet") r),
                Some (SupplierModel.mask_account_number Examples.ann)))
  ∧ (SupplierModel.deleteSupplyRecord now 1 Examples.ledger).2
    = Ok "Supply record deleted successfully"
  ∧ supply_records (SupplierModel.deleteSupplyRecord now 1 Examples.ledger).1 !! 1 = None.
Proof. repeat split; vm_compute; reflexivity. Qed.

(** C5, amended.  For an existing supply record created at [c] and a call at
    clock reading [t]: updateSupplyRecord throws the edit-window error exactly
    when [t - c] is more than 15 minutes, and then changes nothing; otherwise
    (also at exactly 15 minutes) an edit with at least one field whose
    assignments the server accepts is applied, with updated_at set to [t].
    deleteSupplyRecord throws and changes nothing exactly when [t - c] is more
    than 15 minutes; otherwise it removes the record. *)
Theorem edit_window now id data db r :
  supply_records db !! id = Some r →
  let elapsed := Js.getTime now - sr_created_at r in
  let upd := SupplierModel.updateSupplyRecord now id data db in
  let del := SupplierModel.deleteSupplyRecord now id db in
  (upd.2 = Throw (Js.new_Error SupplierModel.edit_window_message)
     ↔ 15 * 60 * 1000 < elapsed)
  ∧ (15 * 60 * 1000 < elapsed → upd.1 = db ∧ del.1 = db)
  ∧ (∀ r', elapsed ≤ 15 * 60 * 1000 →
       SupplierModel.update_fields data ≠ [] →
       SupplierModel.apply_update db id (Js.getTime now)
         (SupplierModel.update_fields data) r = Some r' →
       supply_records upd.1 = <[id := r']> (supply_records db)
       ∧ sr_updated_at r' = Js.getTime now
       ∧ ∃ v, upd.2 = Ok v)
  ∧ ((∃ e, del.2 = Throw e) ↔ 15 * 60 * 1000 < elapsed)
  ∧ (elapsed ≤ 15 * 60 * 1000 →
       del.2 = Ok "Supply record deleted successfully"
       ∧ supply_records del.1 = delete id (supply_records db)).
Proof.
  intros Hr. cbn zeta.
  unfold SupplierModel.updateSupplyRecord, SupplierModel.deleteSupplyRecord.
  rewrite Hr.
  pose proof (timeDifference_exceeds_spec (Js.getTime now) (sr_created_at r)) as Hiff.
  destruct (SupplierModel.timeDifference_exceeds 15 (Js.getTime now) (sr_created_at r))
    eqn:E.
  - assert (15 * 60 * 1000 < Js.getTime now - sr_created_at r) as Hlt by (by apply Hiff).
    cbn [fst snd]. split; [done|]. split; [done|].
    split; [intros r' Hle; lia|]. split; [|lia].
    split; [done|]. eauto.
  - assert (¬ 15 * 60 * 1000 < Js.getTime now - sr_created_at r) as Hle.
    { intros H. apply Hiff in H. discriminate. }
    split.
    { split; [|done]. intros H. exfalso.
      destruct (SupplierModel.update_fields data); [discriminate H|].
      destruct (SupplierModel.apply_update _ _ _ _ _); discriminate H. }
    split; [done|]. split.
    { intros r' _ Hne Happ. rewrite Happ.
      destruct (SupplierModel.update_fields data) eqn:Ef; [done|].
      cbn [fst snd]. split; [done|]. split; [|eauto].
      unfold SupplierModel.apply_update in Happ.
      destruct (foldl _ _ _) as [r0|]; [|done]. by injection Happ as <-. }
    cbn [fst snd]. split; [|done].
    split; [|done]. by intros [e He].
Qed.

Lemma edit_window_witness :
  let now := Examples.at_time (1736064000000 + 15 * 60 * 1000 + 1) in
  (SupplierModel.updateSupplyRecord now 1 Examples.edit_notes Examples.ledger).2
  = Throw (Js.new_Error SupplierModel.edit_window_message).
Proof.
  intros now.
  apply (proj1 (edit_window now 1 Examples.edit_notes Examples.ledger
                  (Examples.supply "SUP-20250105-0800" 50 1736064000000) eq_refl)).
  vm_compute. reflexivity.
Defined.

(** ** deactivateOldSuppliers *)





Lemma filter_none {A} (P : A → Prop) `{∀ x, Decision (P x)} (l : list A) :
  (∀ x, x ∈ l → ¬ P x) → filter P l = [].
Proof.
  induction l as [|x l IH]; intros Hl; [done|].
  rewrite filter_cons_False by (apply Hl; left).
  apply IH. intros y Hy. apply Hl. by right.
Qed.



(** The scenario of the specification: of two suppliers registered seven
    months ago, the one without a recent supply record becomes inactive, the
    one who delivered two months ago stays active, and the sweep returns 1. *)
Example deactivateOldSuppliers_scenario :
  let res := SupplierModel.deactivateOldSuppliers Examples.sweep_clock
               Examples.seven_months in
  u_status <$> users res.1 !! 2 = Some inactive
  ∧ u_status <$> users res.1 !! 3 = Some active
  ∧ res.2 = 1.
Proof. repeat split; vm_compute; reflexivity. Qed.

(** ** Decimal numerals *)

Lemma string_length_app (s t : string) :
  String.length (s +:+ t) = (String.length s + String.length t)%nat.
Proof. induction s as [|c s IH]; [done|]. rewrite string_app_cons. simpl. by rewrite IH. Qed.

Lemma all_digits_app (s t : string) :
  Js.all_digits (s +:+ t) = Js.all_digits s && Js.all_digits t.
Proof.
  induction s as [|c s IH]; [done|]. rewrite string_app_cons. simpl.
  by rewrite IH, andb_assoc.
Qed.

Lemma parse_digits_app (acc : Z) (s t : string) :
  Js.all_digits s = true →
  Js.parse_digits acc (s +:+ t) = Js.parse_digits (Js.parse_digits acc s) t.
Proof.
  revert acc. induction s as [|c s IH]; intros acc Hs; [done|].
  rewrite string_app_cons. simpl in *. apply andb_prop in Hs as [Hc Hs].
  rewrite Hc. by apply IH.
Qed.

Lemma pretty_N_char_digit (d : N) :
  Js.is_digit (pretty_N_char d) = true.
Proof. unfold pretty_N_char. by repeat case_match. Qed.

Lemma pretty_N_char_value (d : N) :
  (d < 10)%N → Js.digit_value (pretty_N_char d) = Z.of_N d.
Proof.
  intros Hd.
  assert (d = 0 ∨ d = 1 ∨ d = 2 ∨ d = 3 ∨ d = 4 ∨ d = 5 ∨ d = 6 ∨ d = 7 ∨ d = 8 ∨ d = 9)%N
    as Hcases by lia.
  repeat (destruct Hcases as [->|Hcases]; [reflexivity|]). by subst.
Qed.

(** The digits of a positive number, most significant first. *)
Lemma pretty_N_go_app (x : N) (s : string) :
  pretty_N_go x s = pretty_N_go x "" +:+ s.
Proof.
  revert s. induction (N.lt_wf_0 x) as [x _ IH]; intros s.
  destruct (decide (x = 0%N)) as [->|Hx]; [by rewrite !pretty_N_go_0|].
  rewrite (pretty_N_go_step x s), (pretty_N_go_step x "") by lia.
  rewrite (IH (x `div` 10)%N) by (apply N.div_lt; lia).
  rewrite (IH (x `div` 10)%N ltac:(apply N.div_lt; lia) (String _ "")).
  by rewrite string_app_assoc.
Qed.

Lemma pretty_N_go_unfold (x : N) :
  (0 < x)%N →
  pretty_N_go x ""
  = pretty_N_go (x `div` 10) "" +:+ String (pretty_N_char (x `mod` 10)) "".
Proof. intros Hx. by rewrite pretty_N_go_step, pretty_N_go_app. Qed.

Lemma pretty_N_go_all_digits (x : N) : Js.all_digits (pretty_N_go x "") = true.
Proof.
  induction (N.lt_wf_0 x) as [x _ IH].
  destruct (decide (x = 0%N)) as [->|Hx]; [done|].
  rewrite pretty_N_go_unfold, all_digits_app by lia.
  rewrite IH by (apply N.div_lt; lia). simpl.
  by rewrite pretty_N_char_digit.
Qed.

Lemma pretty_N_go_parse (x : N) : Js.parse_digits 0 (pretty_N_go x "") = Z.of_N x.
Proof.
  induction (N.lt_wf_0 x) as [x _ IH].
  destruct (decide (x = 0%N)) as [->|Hx]; [done|].
  rewrite pretty_N_go_unfold by lia.
  rewrite parse_digits_app by apply pretty_N_go_all_digits.
  rewrite IH by (apply N.div_lt; lia). simpl.
  rewrite pretty_N_char_digit, pretty_N_char_value by (apply N.mod_lt; lia).
  rewrite (N.div_mod x 10) at 3 by lia. lia.
Qed.

Lemma pretty_N_go_length_le (k : nat) (x : N) :
  (x < 10 ^ N.of_nat k)%N → (String.length (pretty_N_go x "") ≤ k)%nat.
Proof.
  revert x. induction k as [|k IH]; intros x Hx.
  - assert (x = 0%N) as -> by (simpl in Hx; lia). done.
  - destruct (decide (x = 0%N)) as [->|Hx0]; [simpl; lia|].
    rewrite pretty_N_go_unfold, string_length_app by lia. simpl.
    assert (String.length (pretty_N_go (x `div` 10) "") ≤ k)%nat; [|lia].
    apply IH. apply N.Div0.div_lt_upper_bound.
    rewrite Nat2N.inj_succ, N.pow_succ_r' in Hx. lia.
Qed.

Lemma pretty_N_go_length_gt (k : nat) (x : N) :
  (10 ^ N.of_nat k ≤ x)%N → (k < String.length (pretty_N_go x ""))%nat.
Proof.
  revert x. induction k as [|k IH]; intros x Hx.
  - simpl in Hx. rewrite pretty_N_go_unfold, string_length_app by lia. simpl. lia.
  - assert (0 < 10 ^ N.of_nat (S k))%N by (apply N.neq_0_lt_0, N.pow_nonzero; lia).
    rewrite pretty_N_go_unfold, string_length_app by lia. simpl.
    assert (k < String.length (pretty_N_go (x `div` 10) ""))%nat; [|lia].
    apply IH. apply N.div_le_lower_bound; [lia|].
    rewrite Nat2N.inj_succ, N.pow_succ_r' in Hx. lia.
Qed.

Lemma toString_pos (n : Z) :
  0 < n → Js.toString n = pretty_N_go (Z.to_N n) "".
Proof. destruct n as [|p|p]; [lia| |lia]. intros _. reflexivity. Qed.

Lemma toString_all_digits (n : Z) : 0 ≤ n → Js.all_digits (Js.toString n) = true.
Proof.
  intros Hn. destruct (decide (n = 0)) as [->|H0]; [done|].
  rewrite toString_pos by lia. apply pretty_N_go_all_digits.
Qed.

Lemma toString_parse (n : Z) : 0 ≤ n → Js.parse_digits 0 (Js.toString n) = n.
Proof.
  intros Hn. destruct (decide (n = 0)) as [->|H0]; [done|].
  rewrite toString_pos, pretty_N_go_parse by lia. lia.
Qed.

Lemma toString_length_le (k : nat) (n : Z) :
  0 ≤ n < 10 ^ Z.of_nat k → (0 < k)%nat → (String.length (Js.toString n) ≤ k)%nat.
Proof.
  intros Hn Hk. destruct (decide (n = 0)) as [->|H0]; [simpl; lia|].
  rewrite toString_pos by lia. apply pretty_N_go_length_le.
  apply N2Z.inj_lt. rewrite Z2N.id, N2Z.inj_pow, nat_N_Z by lia. simpl. lia.
Qed.

Lemma toString_length_gt (k : nat) (n : Z) :
  10 ^ Z.of_nat k ≤ n → (k < String.length (Js.toString n))%nat.
Proof.
  intros Hn. assert (0 < 10 ^ Z.of_nat k) by (apply Z.pow_pos_nonneg; lia).
  rewrite toString_pos by lia. apply pretty_N_go_length_gt.
  apply N2Z.inj_le. rewrite Z2N.id, N2Z.inj_pow, nat_N_Z by lia. simpl. lia.
Qed.

Lemma zeros_length (k : nat) : String.length (Js.zeros k) = k.
Proof. induction k as [|k IH]; simpl; [done|]. by rewrite IH. Qed.

Lemma zeros_all_digits (k : nat) : Js.all_digits (Js.zeros k) = true.
Proof. induction k as [|k IH]; simpl; done. Qed.

Lemma zeros_parse (k : nat) : Js.parse_digits 0 (Js.zeros k) = 0.
Proof. induction k as [|k IH]; simpl; done. Qed.

Lemma padStart0_length (k : nat) (s : string) :
  String.length (Js.padStart0 k s) = (k `max` String.length s)%nat.
Proof. unfold Js.padStart0. rewrite string_length_app, zeros_length. lia. Qed.

Lemma padStart0_all_digits (k : nat) (s : string) :
  Js.all_digits (Js.padStart0 k s) = Js.all_digits s.
Proof. unfold Js.padStart0. by rewrite all_digits_app, zeros_all_digits. Qed.

Lemma padStart0_parse (k : nat) (s : string) :
  Js.parse_digits 0 (Js.padStart0 k s) = Js.parse_digits 0 s.
Proof.
  unfold Js.padStart0.
  by rewrite parse_digits_app, zeros_parse by apply zeros_all_digits.
Qed.

(** ** Supplier identifiers *)

Lemma regexp_SUP6_app (d : string) :
  Sql.regexp_SUP6 ("SUP" +:+ d)
  = bool_decide (String.length d = 6%nat) && Js.all_digits d.
Proof.
  unfold Sql.regexp_SUP6. rewrite !string_app_cons, string_app_nil_l. simpl.
  rewrite andb_true_r. f_equal. apply bool_decide_ext. lia.
Qed.

Lemma regexp_SUP6_inv (s : string) :
  Sql.regexp_SUP6 s = true →
  ∃ d, s = "SUP" +:+ d ∧ String.length d = 6%nat ∧ Js.all_digits d = true.
Proof.
  unfold Sql.regexp_SUP6. intros H.
  apply andb_prop in H as [H Hd]. apply andb_prop in H as [Hlen Hpre].
  apply bool_decide_eq_true in Hlen.
  destruct s as [|a [|b [|c d]]]; simpl in *; try discriminate.
  repeat (apply andb_prop in Hpre as [?%bool_decide_eq_true Hpre]). subst.
  exists d. repeat split; [lia|done].
Qed.

Lemma substring_full (s : string) : substring 0 (String.length s) s = s.
Proof. induction s as [|c s IH]; simpl; [done|]. by rewrite IH. Qed.

Lemma slice_first_full (k : nat) (s : string) :
  String.length s = k → Js.slice_first k s = s.
Proof. intros <-. apply substring_full. Qed.

Lemma supplier_id_of_conforms (n : Z) :
  0 ≤ n ≤ 999999 → Sql.regexp_SUP6 (Spec.supplier_id_of n) = true.
Proof.
  intros Hn. unfold Spec.supplier_id_of.
  rewrite regexp_SUP6_app, padStart0_length, padStart0_all_digits.
  rewrite toString_all_digits by lia.
  pose proof (toString_length_le 6 n ltac:(simpl; lia) ltac:(lia)).
  rewrite bool_decide_eq_true_2 by lia. done.
Qed.

Lemma supplier_number_of (n : Z) :
  0 ≤ n → Spec.supplier_number (Spec.supplier_id_of n) = n.
Proof.
  intros Hn. unfold Spec.supplier_number, Spec.supplier_id_of.
  rewrite !string_app_cons, string_app_nil_l. simpl.
  by rewrite padStart0_parse, toString_parse.
Qed.

Lemma supplier_id_of_overflow (n : Z) :
  1000000 ≤ n → Sql.regexp_SUP6 (Spec.supplier_id_of n) = false.
Proof.
  intros Hn. unfold Spec.supplier_id_of.
  rewrite regexp_SUP6_app, padStart0_length.
  pose proof (toString_length_gt 6 n ltac:(simpl; lia)).
  rewrite bool_decide_eq_false_2 by lia. done.
Qed.

Lemma maxNumber_step_conforming (m : Z) (s : string) :
  Sql.regexp_SUP6 s = true →
  SupplierModel.maxNumber_step m s = Z.max m (Spec.supplier_number s).
Proof.
  intros (d & -> & Hlen & Hd)%regexp_SUP6_inv.
  unfold SupplierModel.maxNumber_step, Spec.supplier_number.
  rewrite bool_decide_eq_false_2 by (rewrite !string_app_cons; discriminate).
  assert (Js.match_SUP_d6 ("SUP" +:+ d) = Some d) as ->.
  { rewrite !string_app_cons, string_app_nil_l.
    unfold Js.match_SUP_d6; fold Js.match_SUP_d6.
    unfold Js.capture_SUP_d6_here. simpl.
    rewrite (slice_first_full 6 d Hlen).
    rewrite bool_decide_eq_true_2, Hd by done. done. }
  rewrite !string_app_cons, string_app_nil_l. simpl.
  destruct d as [|c d]; [done|]. unfold Js.parseInt.
  simpl in Hd. apply andb_prop in Hd as [Hc Hd]. rewrite Hc.
  destruct (m <? _) eqn:E; lia.
Qed.

Lemma maxNumber_foldl (rows : list string) (acc : Z) :
  Forall (λ s, Sql.regexp_SUP6 s = true) rows →
  let m := foldl SupplierModel.maxNumber_step acc rows in
  acc ≤ m
  ∧ (∀ s, s ∈ rows → Spec.supplier_number s ≤ m)
  ∧ (m = acc ∨ ∃ s, s ∈ rows ∧ Spec.supplier_number s = m).
Proof.
  revert acc. induction rows as [|s rows IH]; intros acc Hrows; simpl.
  - split; [lia|]. split; [by intros s ?%elem_of_nil|by left].
  - apply Forall_cons in Hrows as [Hs Hrows].
    rewrite maxNumber_step_conforming by done.
    destruct (IH (Z.max acc (Spec.supplier_number s)) Hrows) as (Hle & Hall & Hex).
    split; [lia|]. split.
    + intros s' [->|Hin]%elem_of_cons; [lia|by apply Hall].
    + destruct Hex as [Hex|(s' & Hin & Hex)].
      * destruct (Z.max_spec acc (Spec.supplier_number s)) as [[_ Hm]|[_ Hm]].
        -- right. exists s. split; [left|]. lia.
        -- left. lia.
      * right. exists s'. split; [by right|done].
Qed.

Lemma existing_supplier_ids_spec (db : database) (s : string) :
  s ∈ SupplierModel.existing_supplier_ids db ↔
  ∃ id u, users db !! id = Some u ∧ u_role u = supplier
          ∧ u_supplier_id u = Some s ∧ s ≠ "" ∧ Sql.regexp_SUP6 s = true.
Proof.
  unfold SupplierModel.existing_supplier_ids, Sql.order_by_desc, select_all.
  rewrite elem_of_sort, list_elem_of_omap. split.
  - intros ([id u] & Hin & Hf). apply elem_of_map_to_list in Hin. simpl in Hf.
    destruct (u_supplier_id u) as [s'|] eqn:Hs; [|done].
    destruct (bool_decide (u_role u = supplier)) eqn:Hr; [|done].
    destruct (bool_decide (s' = "")) eqn:He; [done|].
    destruct (Sql.regexp_SUP6 s') eqn:Hx; [|done].
    simpl in Hf. injection Hf as ->.
    apply bool_decide_eq_true in Hr. apply bool_decide_eq_false in He.
    exists id, u. done.
  - intros (id & u & Hu & Hr & Hs & He & Hx). exists (id, u).
    split; [by apply elem_of_map_to_list|]. simpl. rewrite Hs.
    by rewrite (bool_decide_eq_true_2 _ Hr), (bool_decide_eq_false_2 _ He), Hx.
Qed.

Lemma supplierIdExists_spec (s : string) (db : database) :
  SupplierModel.supplierIdExists s db = true ↔
  ∃ id u, users db !! id = Some u ∧ u_supplier_id u = Some s ∧ u_role u = supplier.
Proof.
  unfold SupplierModel.supplierIdExists, select_all. rewrite existsb_exists. split.
  - intros ([id u] & Hin & H). apply list_elem_of_In, elem_of_map_to_list in Hin.
    apply andb_prop in H as [Hs Hr]. simpl in *.
    apply bool_decide_eq_true in Hs, Hr. eauto.
  - intros (id & u & Hu & Hs & Hr). exists (id, u). split.
    + apply list_elem_of_In. by apply elem_of_map_to_list.
    + simpl. by rewrite !bool_decide_eq_true_2.
Qed.

Lemma existing_supplier_ids_conforming (db : database) :
  Forall (λ s, Sql.regexp_SUP6 s = true) (SupplierModel.existing_supplier_ids db).
Proof.
  apply Forall_forall. intros s Hs.
  by apply existing_supplier_ids_spec in Hs as (_ & _ & _ & _ & _ & _ & ?).
Qed.

Lemma nextNumber_spec (db : database) :
  SupplierModel.nextNumber db
  = SupplierModel.maxNumber (SupplierModel.existing_supplier_ids db) + 1.
Proof.
  unfold SupplierModel.nextNumber.
  by destruct (SupplierModel.existing_supplier_ids db).
Qed.

(** The attempts loop stops at the first candidate that is not in use. *)
Lemma supplierId_attempts_spec (n : nat) (a : Z) (s0 : string) (next : Z)
    (db : database) :
  let res := SupplierModel.supplierId_attempts n a s0 next db in
  (∀ j, a ≤ j < res.1 →
     SupplierModel.supplierIdExists (Spec.supplier_id_of (next + j)) db = true)
  ∧ a ≤ res.1 ≤ a + Z.of_nat n
  ∧ (res.1 < a + Z.of_nat n →
     res.2 = Spec.supplier_id_of (next + res.1)
     ∧ SupplierModel.supplierIdExists res.2 db = false).
Proof.
  revert a s0. induction n as [|n IH]; intros a s0; simpl.
  - split; [lia|]. split; lia.
  - fold (Spec.supplier_id_of (next + a)).
    destruct (SupplierModel.supplierIdExists (Spec.supplier_id_of (next + a)) db) eqn:E.
    + destruct (IH (a + 1) (Spec.supplier_id_of (next + a))) as (Hall & Hb & Hres).
      split.
      * intros j Hj. destruct (decide (j = a)) as [->|Hne]; [done|].
        apply Hall. lia.
      * split; [lia|]. intros Hlt. apply Hres. lia.
    + simpl. split; [lia|]. split; [lia|]. done.
Qed.

Lemma substring_all_digits (n m : nat) (s : string) :
  Js.all_digits s = true → Js.all_digits (substring n m s) = true.
Proof.
  revert n m. induction s as [|c s IH]; intros n m Hs.
  - by destruct n, m.
  - simpl in Hs. apply andb_prop in Hs as [Hc Hs].
    destruct n as [|n]; simpl.
    + destruct m as [|m]; [done|]. simpl. by rewrite Hc, IH.
    + by apply IH.
Qed.

Lemma substring_length (n m : nat) (s : string) :
  (n + m ≤ String.length s)%nat → String.length (substring n m s) = m.
Proof.
  revert n m. induction s as [|c s IH]; intros n m Hs; simpl in Hs.
  - by destruct n, m; simpl; lia.
  - destruct n as [|n]; simpl.
    + destruct m as [|m]; [done|]. simpl. rewrite IH; lia.
    + apply IH. lia.
Qed.

Lemma fallbackId_conforms (now : Js.Date) :
  100000 ≤ Js.getTime now → Sql.regexp_SUP6 (SupplierModel.fallbackId now) = true.
Proof.
  intros Ht. unfold SupplierModel.fallbackId, Js.slice_last.
  rewrite regexp_SUP6_app.
  pose proof (toString_length_gt 5 (Js.getTime now) ltac:(simpl; lia)) as Hlen.
  rewrite substring_length by lia.
  rewrite substring_all_digits by (apply toString_all_digits; lia).
  done.
Qed.

Lemma supplier_id_of_nonempty (n : Z) :
  bool_decide (Spec.supplier_id_of n = "")
  || negb (Js.startsWith "SUP" (Spec.supplier_id_of n)) = false.
Proof. unfold Spec.supplier_id_of. by rewrite !string_app_cons. Qed.

(** The first candidate is free while the numbers have six digits. *)
Lemma first_candidate_free (db : database) :
  SupplierModel.maxNumber (SupplierModel.existing_supplier_ids db) < 999999 →
  SupplierModel.supplierIdExists
    (Spec.supplier_id_of
       (SupplierModel.maxNumber (SupplierModel.existing_supplier_ids db) + 1)) db
  = false.
Proof.
  intros Hm.
  destruct (maxNumber_foldl (SupplierModel.existing_supplier_ids db) 0
              (existing_supplier_ids_conforming db)) as (H0 & Hall & _).
  fold (SupplierModel.maxNumber (SupplierModel.existing_supplier_ids db)) in *.
  set (m := SupplierModel.maxNumber (SupplierModel.existing_supplier_ids db)) in *.
  destruct (SupplierModel.supplierIdExists (Spec.supplier_id_of (m + 1)) db) eqn:E;
    [|done].
  apply supplierIdExists_spec in E as (id & u & Hu & Hs & Hr).
  assert (Spec.supplier_id_of (m + 1) ∈ SupplierModel.existing_supplier_ids db) as Hin.
  { apply existing_supplier_ids_spec. exists id, u.
    split; [done|]. split; [done|]. split; [done|]. split.
    - unfold Spec.supplier_id_of. rewrite !string_app_cons. discriminate.
    - apply supplier_id_of_conforms. lia. }
  apply Hall in Hin. rewrite supplier_number_of in Hin by lia. lia.
Qed.

Lemma parse_digits_bound (s : string) (acc : Z) :
  0 ≤ acc → Js.all_digits s = true →
  Js.parse_digits acc s < (acc + 1) * 10 ^ Z.of_nat (String.length s).
Proof.
  revert acc. induction s as [|c s IH]; intros acc Hacc Hs.
  - cbn. lia.
  - cbn [Js.all_digits] in Hs. apply andb_prop in Hs as [Hc Hs].
    cbn [Js.parse_digits String.length]. rewrite Hc.
    assert (0 ≤ Js.digit_value c ≤ 9) as Hd.
    { unfold Js.is_digit in Hc. unfold Js.digit_value. lia. }
    specialize (IH (acc * 10 + Js.digit_value c) ltac:(lia) Hs).
    rewrite Nat2Z.inj_succ, Z.pow_succ_r by lia.
    pose proof (Z.pow_pos_nonneg 10 (Z.of_nat (String.length s)) ltac:(lia) ltac:(lia)).
    nia.
Qed.

(** A supplier id of the form SUP and six digits carries a number of at most
    999999. *)
Lemma supplier_number_conforming (s : string) :
  Sql.regexp_SUP6 s = true → Spec.supplier_number s ≤ 999999.
Proof.
  intros (d & -> & Hlen & Hd)%regexp_SUP6_inv. unfold Spec.supplier_number.
  rewrite !string_app_cons, string_app_nil_l. simpl.
  pose proof (parse_digits_bound d 0 ltac:(lia) Hd) as H. rewrite Hlen in H.
  simpl in H. lia.
Qed.

(** C7 as stated fails when the highest six-digit number is in use: the id
    issued next has seven digits. *)
Lemma generateSupplierId_format_counterexample :
  SupplierModel.generateSupplierId Examples.now Examples.full_range = "SUP1000000"
  ∧ Sql.regexp_SUP6 "SUP1000000" = false.
Proof. split; vm_compute; reflexivity. Qed.

(** C7, amended.  Let [m] be the largest number among the existing supplier
    ids of the form SUP and six digits (0 when there is none); [m] is at most
    999999.  generateSupplierId returns SUP(m+k), zero-padded to at least six
    digits, for the smallest k from 1 to 10 whose id is not in use, a number
    above every existing conforming id; when all ten are in use it returns
    the fallback, SUP and the last six digits of the clock's milliseconds.
    A candidate SUP(m+k) has the form SUP and six digits exactly when
    [m + k] is at most 999999, and seven digits otherwise; while [m] is below
    999999 the result is SUP(m+1), of that form; the fallback has the form for
    a clock of at least six digits. *)
Theorem generateSupplierId_spec now db :
  let existing := SupplierModel.existing_supplier_ids db in
  let m := SupplierModel.maxNumber existing in
  let id := SupplierModel.generateSupplierId now db in
  0 ≤ m ≤ 999999
  ∧ (∀ s, s ∈ existing → Spec.supplier_number s ≤ m)
  ∧ (m = 0 ∨ ∃ s, s ∈ existing ∧ Spec.supplier_number s = m)
  ∧ ((∃ k, 1 ≤ k ≤ 10
           ∧ id = Spec.supplier_id_of (m + k)
           ∧ SupplierModel.supplierIdExists id db = false
           ∧ (∀ j, 1 ≤ j < k →
                SupplierModel.supplierIdExists (Spec.supplier_id_of (m + j)) db = true)
           ∧ Spec.supplier_number id = m + k
           ∧ (∀ s, s ∈ existing → Spec.supplier_number s < Spec.supplier_number id)
           ∧ (Sql.regexp_SUP6 id = true ↔ m + k ≤ 999999)
           ∧ (String.length id = if bool_decide (m + k ≤ 999999) then 9%nat
                                 else 10%nat))
     ∨ ((∀ j, 1 ≤ j ≤ 10 →
           SupplierModel.supplierIdExists (Spec.supplier_id_of (m + j)) db = true)
        ∧ id = SupplierModel.fallbackId now))
  ∧ (m < 999999 → id = Spec.supplier_id_of (m + 1) ∧ Sql.regexp_SUP6 id = true)
  ∧ (100000 ≤ Js.getTime now → Sql.regexp_SUP6 (SupplierModel.fallbackId now) = true).
Proof.
  cbn zeta.
  destruct (maxNumber_foldl (SupplierModel.existing_supplier_ids db) 0
              (existing_supplier_ids_conforming db)) as (H0 & Hall & Hex).
  fold (SupplierModel.maxNumber (SupplierModel.existing_supplier_ids db)) in *.
  set (m := SupplierModel.maxNumber (SupplierModel.existing_supplier_ids db)) in *.
  pose proof (supplierId_attempts_spec 10 0 "" (m + 1) db) as Hloop.
  cbn zeta in Hloop. destruct Hloop as (Hused & Hb & Hres).
  assert ((∃ k, 1 ≤ k ≤ 10
             ∧ SupplierModel.generateSupplierId now db = Spec.supplier_id_of (m + k)
             ∧ SupplierModel.supplierIdExists (Spec.supplier_id_of (m + k)) db = false
             ∧ (∀ j, 1 ≤ j < k →
                  SupplierModel.supplierIdExists (Spec.supplier_id_of (m + j)) db = true))
          ∨ ((∀ j, 1 ≤ j ≤ 10 →
                SupplierModel.supplierIdExists (Spec.supplier_id_of (m + j)) db = true)
             ∧ SupplierModel.generateSupplierId now db = SupplierModel.fallbackId now))
    as Hcases.
  { unfold SupplierModel.generateSupplierId, SupplierModel.generateSupplierId_try.
    rewrite nextNumber_spec. fold m.
    destruct (SupplierModel.supplierId_attempts 10 0 "" (m + 1) db) as [k0 sid].
    cbn [fst snd] in *.
    destruct (decide (k0 < 10)) as [Hlt|Hge].
    - left. destruct (Hres ltac:(lia)) as [-> Hfree].
      rewrite supplier_id_of_nonempty.
      assert ((10 <=? k0) = false) as -> by lia.
      exists (k0 + 1). replace (m + (k0 + 1)) with (m + 1 + k0) by lia.
      split; [lia|]. split; [done|]. split; [done|].
      intros j Hj. replace (m + j) with (m + 1 + (j - 1)) by lia. apply Hused. lia.
    - right. assert ((10 <=? k0) = true) as E by lia. split.
      + intros j Hj. replace (m + j) with (m + 1 + (j - 1)) by lia. apply Hused. lia.
      + destruct (_ || _); [done|]. by rewrite E. }
  assert (m ≤ 999999) as Hmax.
  { destruct Hex as [->|(s & Hs & <-)]; [lia|].
    apply supplier_number_conforming.
    pose proof (existing_supplier_ids_conforming db) as Hconf.
    rewrite Forall_forall in Hconf. by apply Hconf. }
  split; [done|]. split; [done|]. split; [done|]. split.
  { destruct Hcases as [(k & Hk & Hid & Hfree & Hprev)|Hfall]; [left|by right].
    exists k. rewrite Hid.
    split; [done|]. split; [done|]. split; [done|]. split; [done|].
    split; [by rewrite supplier_number_of by lia|].
    split.
    { intros s Hs. rewrite supplier_number_of by lia. apply Hall in Hs. lia. }
    split.
    { split.
      - intros Hconf. destruct (decide (m + k ≤ 999999)) as [|Hbig]; [done|].
        rewrite supplier_id_of_overflow in Hconf by lia. done.
      - intros Hle. apply supplier_id_of_conforms. lia. }
    case_bool_decide as Hle.
    - pose proof (supplier_id_of_conforms (m + k) ltac:(lia)) as Hconf.
      apply regexp_SUP6_inv in Hconf as (d & -> & Hlen & _).
      rewrite !string_app_cons, string_app_nil_l. cbn [String.length]. lia.
    - assert (m + k - 1000000 ∈ seqZ 0 10) as Hin by (apply elem_of_seqZ; lia).
      replace (m + k) with (1000000 + (m + k - 1000000)) by lia.
      revert Hin. generalize (m + k - 1000000). intros z Hz.
      cbn in Hz. repeat (apply elem_of_cons in Hz as [->|Hz]; [by vm_compute|]).
      by apply elem_of_nil in Hz. }
  split; [|apply fallbackId_conforms].
  intros Hm. pose proof (first_candidate_free db Hm) as Hfree. fold m in Hfree.
  assert (SupplierModel.generateSupplierId now db = Spec.supplier_id_of (m + 1)) as ->.
  { destruct Hcases as [(k & Hk & Hid & _ & Hprev)|[Hall10 _]].
    - destruct (decide (k = 1)) as [->|Hne]; [done|].
      rewrite (Hprev 1) in Hfree by lia. done.
    - rewrite (Hall10 1) in Hfree by lia. done. }
  split; [done|]. apply supplier_id_of_conforms. lia.
Qed.

(** ** generateSupplyId leaves its loop *)

Lemma supply_candidate_inj (baseId : string) : Inj (=) (=) (Spec.supply_candidate baseId).
Proof.
  assert (∀ k, baseId ≠ Spec.supply_candidate baseId (S k)) as Hbase.
  { intros k H. apply (f_equal String.length) in H. unfold Spec.supply_candidate in H.
    rewrite !string_length_app in H. simpl in H. lia. }
  intros [|i] [|j] H; [done|by apply Hbase in H|symmetry in H; by apply Hbase in H|].
  unfold Spec.supply_candidate in H.
  apply String.app_inj, String.app_inj in H.
  apply (f_equal (Js.parse_digits 0)) in H.
  rewrite !padStart0_parse, !toString_parse in H by lia. lia.
Qed.

Lemma supplyIdExists_spec (s : string) (db : database) :
  SupplierModel.supplyIdExists s db = true
  ↔ s ∈ (λ kv : Z * supply_record, sr_supply_id kv.2) <$> select_all (supply_records db).
Proof.
  unfold SupplierModel.supplyIdExists. rewrite existsb_exists, list_elem_of_fmap. split.
  - intros (kv & Hin & H). apply bool_decide_eq_true in H. exists kv.
    split; [done|]. by apply list_elem_of_In.
  - intros (kv & -> & Hin). exists kv. split; [by apply list_elem_of_In|].
    by apply bool_decide_eq_true.
Qed.

(** From the candidate [j], with [fuel] iterations left, the loop returns a
    candidate that is not in use, or all the candidates it went through are. *)
Lemma generateSupplyId_loop_spec (fuel : nat) (baseId : string) (j : nat)
    (db : database) :
  let res := SupplierModel.generateSupplyId_loop fuel baseId
               (Spec.supply_candidate baseId j) (Z.of_nat j + 1) db in
  (∃ k, (j ≤ k)%nat ∧ res = Spec.supply_candidate baseId k
        ∧ SupplierModel.supplyIdExists res db = false
        ∧ ∀ i, (j ≤ i < k)%nat →
               SupplierModel.supplyIdExists (Spec.supply_candidate baseId i) db = true)
  ∨ (∀ i, (j ≤ i < j + fuel)%nat →
          SupplierModel.supplyIdExists (Spec.supply_candidate baseId i) db = true).
Proof.
  revert j. induction fuel as [|fuel IH]; intros j; simpl.
  - right. intros i Hi. lia.
  - destruct (SupplierModel.supplyIdExists (Spec.supply_candidate baseId j) db) eqn:E.
    + specialize (IH (S j)).
      replace (Z.of_nat j + 1) with (Z.of_nat (S j)) by lia.
      change (baseId +:+ "-" +:+ Js.padStart0 2 (Js.toString (Z.of_nat (S j))))
        with (Spec.supply_candidate baseId (S j)).
      replace (Z.of_nat (S j) + 1) with (Z.of_nat (S j) + 1) in IH by done.
      destruct IH as [(k & Hk & Hres & Hfree & Hused)|Hall].
      * left. exists k. split; [lia|]. split; [done|]. split; [done|].
        intros i Hi. destruct (decide (i = j)) as [->|Hne]; [done|]. apply Hused. lia.
      * right. intros i Hi. destruct (decide (i = j)) as [->|Hne]; [done|].
        apply Hall. lia.
    + left. exists j. split; [lia|]. split; [done|]. split; [done|].
      intros i Hi. lia.
Qed.

(** The id generateSupplyId returns is the first candidate that is not in
    use: the loop is never stopped by its bound. *)
Lemma generateSupplyId_loop_exits now db :
  ∃ k, SupplierModel.generateSupplyId now db
       = Spec.supply_candidate (SupplierModel.supply_baseId now) k
       ∧ SupplierModel.supplyIdExists (SupplierModel.generateSupplyId now db) db = false
       ∧ ∀ i, (i < k)%nat →
              SupplierModel.supplyIdExists
                (Spec.supply_candidate (SupplierModel.supply_baseId now) i) db = true.
Proof.
  unfold SupplierModel.generateSupplyId.
  destruct (generateSupplyId_loop_spec (S (size (supply_records db)))
              (SupplierModel.supply_baseId now) 0 db)
    as [(k & _ & Hres & Hfree & Hused)|Hall].
  - exists k. split; [done|]. split; [done|]. intros i Hi. apply Hused. lia.
  - exfalso.
    set (cands := Spec.supply_candidate (SupplierModel.supply_baseId now)
                  <$> seq 0 (S (size (supply_records db)))).
    set (ids := (λ kv : Z * supply_record, sr_supply_id kv.2)
                <$> select_all (supply_records db)).
    assert (NoDup cands) as Hnd.
    { pose proof (supply_candidate_inj (SupplierModel.supply_baseId now)).
      apply (NoDup_fmap_2 _), NoDup_seq. }
    assert (cands ⊆+ ids) as Hsub.
    { apply NoDup_submseteq; [done|]. intros s Hs.
      apply list_elem_of_fmap in Hs as (i & -> & Hi). apply elem_of_seq in Hi.
      apply supplyIdExists_spec, Hall. lia. }
    apply submseteq_length in Hsub.
    unfold cands, ids, select_all in Hsub.
    rewrite !length_fmap, length_seq, length_map_to_list in Hsub. lia.
Qed.

Lemma generateSupplyId_fresh now db :
  SupplierModel.supplyIdExists (SupplierModel.generateSupplyId now db) db = false.
Proof. by destruct (generateSupplyId_loop_exits now db) as (k & _ & H & _). Qed.

(** ** findAll *)




(** ** The listings write the identifiers they miss *)



(** ** The listings, row by row *)









(** On the backlog both listings return the assigned ids and leave them in the
    store; the rows that had an id are returned and stored as they were. *)
Example listings_backlog :
  let su := SupplierModel.findAll Examples.now Examples.backlog in
  let sr := SupplierModel.findAllSupplyRecords Examples.now Examples.backlog in
  (u_supplier_id <$> su.2.*2) = [Some "SUP000002"; Some "SUP000001"]
  ∧ (u_supplier_id <$> users su.1 !! 2) = Some (Some "SUP000002")
  ∧ users su.1 !! 1 = Some Examples.ann
  ∧ ((λ row, sr_supply_id (SupplierModel.row_record row)) <$> sr.2)
    = ["SUP-20250105-0800"; "SUP-20250105-0907"]
  ∧ (sr_supply_id <$> supply_records sr.1 !! 3) = Some "SUP-20250105-0907"
  ∧ supply_records sr.1 !! 1
    = Some (Examples.supply "SUP-20250105-0800" 50 1736064000000).
Proof. repeat split; vm_compute; reflexivity. Qed.

(** ** The amended statements at concrete stores *)

Lemma generateSupplierId_spec_witness :
  SupplierModel.generateSupplierId Examples.now Examples.ledger
  = Spec.supplier_id_of 2
  ∧ Sql.regexp_SUP6 (SupplierModel.generateSupplierId Examples.now Examples.ledger)
    = true.
Proof.
  destruct (generateSupplierId_spec Examples.now Examples.ledger)
    as (_ & _ & _ & _ & H & _).
  exact (H ltac:(vm_compute; reflexivity)).
Defined.


(** * Further properties of the supplier model *)

(** ** updatePaymentStatus *)

(** X1.  updatePaymentStatus on a record that does not exist, or with a value
    other than paid and unpaid, changes nothing and throws "Failed to update
    payment status".  On an existing record, whatever its age, the record
    stored afterwards has the new payment_status and the clock as updated_at,
    every other column of it is as before, no other row changes, and the
    record is returned with its (masked) supplier. *)
Theorem updatePaymentStatus_spec now id s db :
  let res := SupplierModel.updatePaymentStatus now id s db in
  match supply_records db !! id with
  | None => res = (db, Throw (Js.new_Error "Failed to update payment status"))
  | Some r =>
      (∀ st, (s = "paid" ∧ st = paid) ∨ (s = "unpaid" ∧ st = unpaid) →
         ∃ r',
           supply_records res.1 !! id = Some r'
           ∧ sr_payment_status r' = st
           ∧ sr_updated_at r' = Js.getTime now
           ∧ (sr_supply_id r' = sr_supply_id r
              ∧ sr_supplier_id r' = sr_supplier_id r
              ∧ sr_quantity_kg r' = sr_quantity_kg r
              ∧ sr_remaining_quantity_kg r' = sr_remaining_quantity_kg r
              ∧ sr_unit_price r' = sr_unit_price r
              ∧ sr_total_payment r' = sr_total_payment r
              ∧ sr_payment_method r' = sr_payment_method r
              ∧ sr_supply_date r' = sr_supply_date r
              ∧ sr_supply_time r' = sr_supply_time r
              ∧ sr_notes r' = sr_notes r
              ∧ sr_created_at r' = sr_created_at r)
           ∧ r' = set_sr_updated_at (Js.getTime now) (set_sr_payment_status st r)
           ∧ supply_records res.1 = <[id := r']> (supply_records db)
           ∧ users res.1 = users db ∧ payments res.1 = payments db
           ∧ inventory res.1 = inventory db
           ∧ production_data res.1 = production_data db
           ∧ res.2 = Ok (Some (r', SupplierModel.mask_account_number
                                     <$> SupplierModel.join_supplier db r)))
      ∧ (s ≠ "paid" → s ≠ "unpaid" →
         res = (db, Throw (Js.new_Error "Failed to update payment status")))
  end.
Proof.
  cbn zeta. unfold SupplierModel.updatePaymentStatus.
  destruct (supply_records db !! id) as [r|] eqn:Hr; [|done].
  split.
  - intros st [[-> ->]|[-> ->]]; eexists;
      cbn [fst snd with_supply_records supply_records users
      payments inventory production_data];
      (split; [apply lookup_insert_eq|]);
      (repeat split; try done).
    + rewrite (bool_decide_eq_true_2 _ (eq_refl "paid")).
      cbn [snd]. unfold SupplierModel.findSupplyRecordById.
      cbn [with_supply_records supply_records]. by rewrite lookup_insert_eq.
    + rewrite (bool_decide_eq_false_2 ("unpaid" = "paid")) by done.
      rewrite (bool_decide_eq_true_2 _ (eq_refl "unpaid")).
      cbn [snd]. unfold SupplierModel.findSupplyRecordById.
      cbn [with_supply_records supply_records]. by rewrite lookup_insert_eq.
  - intros H1 H2. rewrite !bool_decide_eq_false_2 by done. done.
Qed.

Lemma updatePaymentStatus_spec_witness :
  let res := SupplierModel.updatePaymentStatus
               (Examples.at_time (1736064000000 + 3600000)) 1 "paid" Examples.ledger in
  sr_payment_status (Examples.supply "SUP-20250105-0800" 50 1736064000000) = unpaid
  ∧ (sr_payment_status <$> supply_records res.1 !! 1) = Some paid
  ∧ (sr_updated_at <$> supply_records res.1 !! 1) = Some (1736064000000 + 3600000)
  ∧ (sr_total_payment <$> supply_records res.1 !! 1) = Some 2500
  ∧ payments res.1 = payments Examples.ledger.
Proof.
  pose proof (updatePaymentStatus_spec (Examples.at_time (1736064000000 + 3600000))
                1 "paid" Examples.ledger) as H.
  cbn zeta in H.
  change (supply_records Examples.ledger !! 1)
    with (Some (Examples.supply "SUP-20250105-0800" 50 1736064000000)) in H.
  destruct H as [H _]. destruct (H paid (or_introl (conj eq_refl eq_refl)))
    as (r' & Hs & Hst & Hup & (_ & _ & _ & _ & _ & Htot & _) & _ & _ & _ & Hp & _).
  split; [reflexivity|]. rewrite Hs. cbn [fmap option_fmap option_map].
  rewrite Hst, Hup, Htot. split; [done|]. split; [done|]. split; [done|]. exact Hp.
Defined.

(** X2.  The edit window binds updateSupplyRecord only.  For a record up to
    15 minutes old an edit of payment_status and updatePaymentStatus write the
    same row; for an older record the edit is refused and changes nothing,
    while updatePaymentStatus still writes the new status. *)
Theorem updatePaymentStatus_ignores_edit_window now id r db :
  supply_records db !! id = Some r →
  let edit := SupplierModel.updateSupplyRecord now id
                [("payment_status", Some (SupplierModel.V_string "paid"))] db in
  let direct := SupplierModel.updatePaymentStatus now id "paid" db in
  let r' := set_sr_updated_at (Js.getTime now) (set_sr_payment_status paid r) in
  supply_records direct.1 !! id = Some r'
  ∧ (Js.getTime now - sr_created_at r ≤ 15 * 60 * 1000 → edit = direct)
  ∧ (15 * 60 * 1000 < Js.getTime now - sr_created_at r →
     edit = (db, Throw (Js.new_Error SupplierModel.edit_window_message))).
Proof.
  intros Hr. cbn zeta.
  unfold SupplierModel.updatePaymentStatus, SupplierModel.updateSupplyRecord.
  rewrite Hr.
  rewrite (bool_decide_eq_true_2 _ (eq_refl "paid")).
  destruct (SupplierModel.timeDifference_exceeds 15 (Js.getTime now) (sr_created_at r))
    eqn:E.
  - split; [cbn; apply lookup_insert_eq|]. split; [|done].
    intros Hle. apply timeDifference_exceeds_spec in E. lia.
  - split; [cbn; apply lookup_insert_eq|]. split.
    + intros _. vm_compute (SupplierModel.update_fields _).
      unfold SupplierModel.apply_update. cbn [foldl mbind option_bind fst snd].
      unfold SupplierModel.assign_column. cbn [fst snd].
      rewrite (bool_decide_eq_false_2 ("payment_status" = "supply_id")) by done.
      rewrite (bool_decide_eq_false_2 ("payment_status" = "payment_method")) by done.
      rewrite (bool_decide_eq_true_2 _ (eq_refl "payment_status")).
      rewrite (bool_decide_eq_true_2 _ (eq_refl "paid")).
      reflexivity.
    + intros Hlt. apply timeDifference_exceeds_spec in Hlt. congruence.
Qed.

Lemma updatePaymentStatus_ignores_edit_window_witness :
  let now := Examples.at_time (1736064000000 + 3600000) in
  (SupplierModel.updateSupplyRecord now 1
     [("payment_status", Some (SupplierModel.V_string "paid"))] Examples.ledger)
  = (Examples.ledger, Throw (Js.new_Error SupplierModel.edit_window_message))
  ∧ sr_payment_status
      <$> supply_records (SupplierModel.updatePaymentStatus now 1 "paid" Examples.ledger).1
          !! 1 = Some paid.
Proof.
  destruct (updatePaymentStatus_ignores_edit_window
              (Examples.at_time (1736064000000 + 3600000)) 1
              (Examples.supply "SUP-20250105-0800" 50 1736064000000)
              Examples.ledger eq_refl) as (H1 & _ & H3).
  split.
  - apply H3. vm_compute. reflexivity.
  - cbn zeta. rewrite H1. reflexivity.
Defined.

(** ** generateSupplyId and the uniqueness of supply ids *)

(** X3.  generateSupplyId leaves its loop: it returns the first of the
    candidates base, base-01, base-02, ... (base = SUP-YYYYMMDD-HHMM of the
    clock) that no supply record carries, after at most as many rounds as there
    are supply records. *)
Theorem generateSupplyId_first_unused now db :
  ∃ k : nat,
    (k ≤ size (supply_records db))%nat
    ∧ SupplierModel.generateSupplyId now db
      = Spec.supply_candidate (SupplierModel.supply_baseId now) k
    ∧ SupplierModel.supplyIdExists (SupplierModel.generateSupplyId now db) db = false
    ∧ ∀ i, (i < k)%nat →
           SupplierModel.supplyIdExists
             (Spec.supply_candidate (SupplierModel.supply_baseId now) i) db = true.
Proof.
  destruct (generateSupplyId_loop_exits now db) as (k & Hres & Hfree & Hused).
  exists k. split; [|done].
  set (cands := Spec.supply_candidate (SupplierModel.supply_baseId now) <$> seq 0 k).
  set (ids := (λ kv : Z * supply_record, sr_supply_id kv.2)
              <$> select_all (supply_records db)).
  assert (NoDup cands) as Hnd.
  { pose proof (supply_candidate_inj (SupplierModel.supply_baseId now)).
    apply (NoDup_fmap_2 _), NoDup_seq. }
  assert (cands ⊆+ ids) as Hsub.
  { apply NoDup_submseteq; [done|]. intros s Hs.
    apply list_elem_of_fmap in Hs as (i & -> & Hi). apply elem_of_seq in Hi.
    apply supplyIdExists_spec, Hused. lia. }
  apply submseteq_length in Hsub.
  unfold cands, ids, select_all in Hsub.
  rewrite !length_fmap, length_seq, length_map_to_list in Hsub. lia.
Qed.

Lemma update_supply_id_unique newId id t db :
  unique_supply_ids db →
  SupplierModel.supplyIdExists newId db = false →
  unique_supply_ids (SupplierModel.update_supply_id newId id t db).
Proof.
  intros Hu Hfree k1 k2 r1 r2.
  unfold SupplierModel.update_supply_id. cbn [with_supply_records supply_records].
  assert (∀ k r, supply_records db !! k = Some r → sr_supply_id r ≠ newId) as Hnew.
  { intros k r Hr Heq.
    assert (SupplierModel.supplyIdExists newId db = true); [|congruence].
    apply supplyIdExists_spec, list_elem_of_fmap. exists (k, r).
    split; [done|]. by apply elem_of_map_to_list. }
  destruct (decide (k1 = id)) as [->|H1], (decide (k2 = id)) as [->|H2]; [done|..].
  - rewrite lookup_alter_eq, lookup_alter_ne by done.
    destruct (supply_records db !! id) as [r|]; [|done]. cbn.
    intros [= <-] Hr2 Heq. cbn in Heq. by destruct (Hnew k2 r2 Hr2).
  - rewrite lookup_alter_eq, lookup_alter_ne by done.
    destruct (supply_records db !! id) as [r|]; [|done]. cbn.
    intros Hr1 [= <-] Heq. cbn in Heq. by destruct (Hnew k1 r1 Hr1).
  - rewrite !lookup_alter_ne by done. apply Hu.
Qed.

Lemma findAllSupplyRecords_rows_unique now rows db :
  unique_supply_ids db →
  unique_supply_ids (SupplierModel.findAllSupplyRecords_rows now rows db).1.
Proof.
  revert db. induction rows as [|row rows IH]; intros db Hu; [done|].
  cbn [SupplierModel.findAllSupplyRecords_rows].
  destruct (bool_decide (sr_supply_id (SupplierModel.row_record row) = "")).
  - specialize (IH (SupplierModel.update_supply_id
                      (SupplierModel.generateSupplyId now db)
                      (SupplierModel.row_id row) (Js.getTime now) db)).
    destruct (SupplierModel.findAllSupplyRecords_rows now rows _) as [db2 rest].
    apply IH, update_supply_id_unique; [done|]. apply generateSupplyId_fresh.
  - specialize (IH db Hu).
    by destruct (SupplierModel.findAllSupplyRecords_rows now rows db) as [db2 rest].
Qed.

(** X4.  The code keeps the UNIQUE constraint on supply_id by itself: if no two
    supply records share a supply_id, the same holds after findAllSupplyRecords
    (which assigns the missing ids) and after createSupplyRecord (whose INSERT
    therefore never meets a duplicate). *)
Theorem supply_ids_stay_unique now db :
  unique_supply_ids db →
  unique_supply_ids (SupplierModel.findAllSupplyRecords now db).1
  ∧ ∀ data, unique_supply_ids (SupplierModel.createSupplyRecord now data db).1.
Proof.
  intros Hu. split; [by apply findAllSupplyRecords_rows_unique|].
  intros data.
  pose proof (insertId_fresh (supply_records db)) as Hfresh.
  assert (∀ k r, supply_records db !! k = Some r →
            sr_supply_id r ≠ SupplierModel.generateSupplyId now db) as Hnew.
  { intros k r Hr Heq.
    assert (SupplierModel.supplyIdExists (SupplierModel.generateSupplyId now db) db
            = true); [|by rewrite generateSupplyId_fresh in *].
    apply supplyIdExists_spec, list_elem_of_fmap. exists (k, r).
    split; [done|]. by apply elem_of_map_to_list. }
  assert (∀ row, sr_supply_id row = SupplierModel.generateSupplyId now db →
            unique_supply_ids
              (with_supply_records (insert (insertId (supply_records db)) row) db))
    as Hinsert.
  { intros row Hrow k1 k2 r1 r2. cbn [with_supply_records supply_records].
    destruct (decide (k1 = insertId (supply_records db))) as [->|H1],
             (decide (k2 = insertId (supply_records db))) as [->|H2]; [done|..].
    - rewrite lookup_insert_eq, lookup_insert_ne by done.
      intros [= <-] Hr2 Heq. rewrite Hrow in Heq. by destruct (Hnew k2 r2 Hr2).
    - rewrite lookup_insert_eq, lookup_insert_ne by done.
      intros Hr1 [= <-] Heq. rewrite Hrow in Heq. by destruct (Hnew k1 r1 Hr1).
    - rewrite !lookup_insert_ne by done. apply Hu. }
  unfold SupplierModel.createSupplyRecord.
  destruct (SupplierModel.d_notes data) as [| |s];
    destruct (users db !! SupplierModel.d_supplier_id data); try done;
    cbn [fst]; by apply Hinsert.
Qed.

Lemma supply_ids_stay_unique_witness :
  unique_supply_ids
    (SupplierModel.findAllSupplyRecords Examples.now Examples.backlog).1.
Proof.
  apply (supply_ids_stay_unique Examples.now Examples.backlog).
  intros k1 k2 r1 r2 H1 H2.
  unfold Examples.backlog in H1, H2. cbn [supply_records] in H1, H2.
  apply lookup_insert_Some in H1 as [[<- <-]|[? H1]];
    apply lookup_insert_Some in H2 as [[<- <-]|[? H2]]; try done.
  - apply lookup_singleton_Some in H2 as [<- <-]. discriminate.
  - apply lookup_singleton_Some in H1 as [<- <-]. discriminate.
  - apply lookup_singleton_Some in H1 as [<- <-].
    apply lookup_singleton_Some in H2 as [<- <-]. done.
Defined.

(** ** getSupplierIdStats *)

Lemma suppliers_by_id_elem (db : database) (row : Z * user) :
  row ∈ SupplierModel.suppliers_by_id db
  ↔ users db !! row.1 = Some row.2 ∧ u_role row.2 = supplier.
Proof.
  unfold SupplierModel.suppliers_by_id, Sql.order_by_asc, select_all.
  rewrite elem_of_sort, list_elem_of_filter, elem_of_map_to_list'. tauto.
Qed.

Lemma suppliers_by_id_NoDup (db : database) :
  NoDup (SupplierModel.suppliers_by_id db).*1.
Proof.
  unfold SupplierModel.suppliers_by_id, Sql.order_by_asc. rewrite sort_Permutation.
  eapply sublist_NoDup; [apply (NoDup_fst_map_to_list (users db))|].
  apply fmap_sublist, sublist_filter.
Qed.

(** The supplier ids the statistics count: the ones that are not empty. *)
Lemma stats_foldl (rows : list (Z * user)) (st : SupplierModel.supplier_id_stats) :
  let ids := omap (λ row : Z * user,
                     match u_supplier_id row.2 with
                     | Some s => if bool_decide (s = "") then None else Some s
                     | None => None
                     end) rows in
  let st' := foldl SupplierModel.stats_step st rows in
  SupplierModel.totalSuppliers st' = SupplierModel.totalSuppliers st
  ∧ SupplierModel.allIds st' = SupplierModel.allIds st ++ ids
  ∧ SupplierModel.suppliersWithIds st'
    = SupplierModel.suppliersWithIds st + Z.of_nat (length ids)
  ∧ SupplierModel.suppliersWithoutIds st'
    = SupplierModel.suppliersWithoutIds st + Z.of_nat (length rows)
      - Z.of_nat (length ids)
  ∧ SupplierModel.highestIdNumber st'
    = foldl SupplierModel.maxNumber_step (SupplierModel.highestIdNumber st) ids.
Proof.
  revert st. induction rows as [|row rows IH]; intros st; cbn zeta.
  { cbn. rewrite app_nil_r. repeat split; lia. }
  cbn [foldl omap list_omap]. specialize (IH (SupplierModel.stats_step st row)).
  cbn zeta in IH. destruct IH as (H1 & H2 & H3 & H4 & H5).
  rewrite H1, H2, H3, H4, H5. clear H1 H2 H3 H4 H5.
  unfold SupplierModel.stats_step.
  destruct (u_supplier_id row.2) as [s|]; [|cbn; repeat split; lia].
  destruct (bool_decide (s = "")) eqn:Es; [cbn; repeat split; lia|].
  cbn [SupplierModel.totalSuppliers SupplierModel.allIds SupplierModel.suppliersWithIds
       SupplierModel.suppliersWithoutIds SupplierModel.highestIdNumber foldl length].
  split; [done|]. split; [by rewrite <-app_assoc|]. split; [lia|]. split; [lia|].
  f_equal. unfold SupplierModel.maxNumber_step. by rewrite Es.
Qed.

Lemma maxNumber_step_ge (m : Z) (s : string) : m ≤ SupplierModel.maxNumber_step m s.
Proof.
  unfold SupplierModel.maxNumber_step.
  destruct (bool_decide (s = "")); [lia|].
  destruct (Js.match_SUP_d6 s) as [d|]; [|lia].
  destruct (Js.parseInt d) as [num|]; [|lia].
  destruct (m <? num) eqn:E; lia.
Qed.

Lemma maxNumber_foldl_ge (rows : list string) (acc : Z) :
  acc ≤ foldl SupplierModel.maxNumber_step acc rows.
Proof.
  revert acc. induction rows as [|s rows IH]; intros acc; [cbn; lia|].
  cbn [foldl]. pose proof (maxNumber_step_ge acc s). specialize (IH (SupplierModel.maxNumber_step acc s)). lia.
Qed.

Lemma maxNumber_foldl_elem (rows : list string) (acc : Z) (s : string) :
  s ∈ rows → Sql.regexp_SUP6 s = true →
  Spec.supplier_number s ≤ foldl SupplierModel.maxNumber_step acc rows.
Proof.
  revert acc. induction rows as [|s' rows IH]; intros acc Hin Hs.
  { by apply elem_of_nil in Hin. }
  cbn [foldl]. apply elem_of_cons in Hin as [<-|Hin]; [|by apply IH].
  pose proof (maxNumber_foldl_ge rows (SupplierModel.maxNumber_step acc s)).
  rewrite maxNumber_step_conforming in * by done. lia.
Qed.

(** X5.  getSupplierIdStats: the suppliers with and without an id add up to
    the total; allIds lists exactly the non-empty supplier ids of the
    suppliers; highestIdNumber is the number the scan of generateSupplierId
    finds in allIds, so the number generateSupplierId starts from never
    exceeds highestIdNumber + 1, and equals it when every id has the form SUP
    and six digits. *)
Theorem getSupplierIdStats_spec db :
  let stats := (SupplierModel.getSupplierIdStats db).1 in
  SupplierModel.totalSuppliers stats
  = SupplierModel.suppliersWithIds stats + SupplierModel.suppliersWithoutIds stats
  ∧ SupplierModel.suppliersWithIds stats
    = Z.of_nat (length (SupplierModel.allIds stats))
  ∧ (∀ s, s ∈ SupplierModel.allIds stats
          ↔ s ≠ "" ∧ ∃ id u, users db !! id = Some u ∧ u_role u = supplier
                             ∧ u_supplier_id u = Some s)
  ∧ SupplierModel.highestIdNumber stats
    = SupplierModel.maxNumber (SupplierModel.allIds stats)
  ∧ SupplierModel.nextNumber db ≤ SupplierModel.highestIdNumber stats + 1
  ∧ (Forall (λ s, Sql.regexp_SUP6 s = true) (SupplierModel.allIds stats) →
     SupplierModel.nextNumber db = SupplierModel.highestIdNumber stats + 1).
Proof.
  cbn zeta. unfold SupplierModel.getSupplierIdStats. cbn [fst].
  pose proof (stats_foldl (SupplierModel.suppliers_by_id db)
                {| SupplierModel.totalSuppliers :=
                     Z.of_nat (length (SupplierModel.suppliers_by_id db));
                   SupplierModel.suppliersWithIds := 0;
                   SupplierModel.suppliersWithoutIds := 0;
                   SupplierModel.highestIdNumber := 0;
                   SupplierModel.allIds := [] |}) as H.
  cbn zeta in H. cbn [SupplierModel.totalSuppliers SupplierModel.allIds
    SupplierModel.suppliersWithIds SupplierModel.suppliersWithoutIds
    SupplierModel.highestIdNumber app] in H.
  destruct H as (H1 & H2 & H3 & H4 & H5). rewrite H1, H2, H3, H4, H5.
  set (ids := omap _ (SupplierModel.suppliers_by_id db)).
  assert (∀ s, s ∈ ids ↔ s ≠ "" ∧ ∃ id u, users db !! id = Some u ∧ u_role u = supplier
                                          ∧ u_supplier_id u = Some s) as Hids.
  { intros s. unfold ids. rewrite list_elem_of_omap. split.
    - intros ([id u] & Hin & Hs). apply suppliers_by_id_elem in Hin as [Hu Hrole].
      cbn in *. destruct (u_supplier_id u) as [s'|] eqn:Es; [|done].
      destruct (bool_decide (s' = "")) eqn:Eb; [done|]. injection Hs as ->.
      apply bool_decide_eq_false in Eb. eauto 10.
    - intros (Hne & id & u & Hu & Hrole & Hs). exists (id, u). split.
      + by apply suppliers_by_id_elem.
      + cbn. rewrite Hs. by rewrite bool_decide_eq_false_2. }
  split; [lia|]. split; [lia|]. split; [done|]. split; [done|].
  fold (SupplierModel.maxNumber ids).
  rewrite nextNumber_spec.
  destruct (maxNumber_foldl (SupplierModel.existing_supplier_ids db) 0
              (existing_supplier_ids_conforming db)) as (H0 & Hall & Hex).
  fold (SupplierModel.maxNumber (SupplierModel.existing_supplier_ids db)) in *.
  assert (SupplierModel.maxNumber (SupplierModel.existing_supplier_ids db)
          ≤ SupplierModel.maxNumber ids) as Hle.
  { destruct Hex as [->|(s & Hs & <-)]; [apply maxNumber_foldl_ge|].
    apply existing_supplier_ids_spec in Hs as (id & u & Hu & Hrole & Hsid & Hne & Hre).
    apply maxNumber_foldl_elem; [|done]. apply Hids. eauto 10. }
  split; [lia|].
  intros Hconf.
  destruct (maxNumber_foldl ids 0 Hconf) as (_ & _ & Hex').
  fold (SupplierModel.maxNumber ids) in Hex'.
  destruct Hex' as [Heq|(s & Hs & Heq)]; [lia|].
  assert (s ∈ SupplierModel.existing_supplier_ids db) as Hin.
  { apply existing_supplier_ids_spec. apply Hids in Hs as (Hne & id & u & ? & ? & ?).
    exists id, u. repeat split; try done. rewrite Forall_forall in Hconf.
    apply Hconf, Hids. eauto 10. }
  apply Hall in Hin. lia.
Qed.

Lemma getSupplierIdStats_spec_witness :
  SupplierModel.nextNumber Examples.backlog
  = SupplierModel.highestIdNumber (SupplierModel.getSupplierIdStats Examples.backlog).1 + 1.
Proof.
  apply (getSupplierIdStats_spec Examples.backlog).
  assert (SupplierModel.allIds (SupplierModel.getSupplierIdStats Examples.backlog).1
          = ["SUP000001"]) as -> by (vm_compute; reflexivity).
  constructor; [vm_compute; reflexivity|constructor].
Defined.

(** ** resetAllSupplierIds *)

Lemma reset_supplier_id_lookup newId id t db k :
  users (SupplierModel.reset_supplier_id newId id t db) !! k
  = if bool_decide (k = id)
    then (λ u, if bool_decide (u_role u = supplier)
               then if bool_decide (u_supplier_id u = Some newId) then u
                    else set_u_updated_at t (set_u_supplier_id (Some newId) u)
               else u) <$> users db !! k
    else users db !! k.
Proof.
  unfold SupplierModel.reset_supplier_id. cbn [with_users users].
  case_bool_decide as Hk; [subst; by rewrite lookup_alter_eq|by rewrite lookup_alter_ne].
Qed.

Lemma reset_loop_spec now rows c db :
  NoDup rows.*1 →
  (∀ row : Z * user, row ∈ rows → ∃ u, users db !! row.1 = Some u ∧ u_role u = supplier) →
  let db' := SupplierModel.reset_loop now rows c db in
  supply_records db' = supply_records db ∧ payments db' = payments db
  ∧ inventory db' = inventory db ∧ production_data db' = production_data db
  ∧ (∀ id, id ∉ rows.*1 → users db' !! id = users db !! id)
  ∧ (∀ (i : nat) row, rows !! i = Some row →
       ∃ u u', users db !! row.1 = Some u ∧ users db' !! row.1 = Some u'
               ∧ u_supplier_id u' = Some (Spec.supplier_id_of (c + Z.of_nat i))
               ∧ set_u_updated_at 0 (set_u_supplier_id None u')
                 = set_u_updated_at 0 (set_u_supplier_id None u)
               ∧ (u_supplier_id u = Some (Spec.supplier_id_of (c + Z.of_nat i)) → u' = u)).
Proof.
  revert c db. induction rows as [|[id u0] rows IH]; intros c db Hnd Hrows; cbn zeta.
  { by repeat split. }
  rewrite fmap_cons in Hnd. apply NoDup_cons in Hnd as [Hid Hnd]. cbn [fst] in Hid.
  cbn [SupplierModel.reset_loop fst].
  set (db1 := SupplierModel.reset_supplier_id _ id (Js.getTime now) db).
  assert (∀ k, k ≠ id → users db1 !! k = users db !! k) as Hother.
  { intros k Hk. unfold db1. rewrite reset_supplier_id_lookup.
    by rewrite bool_decide_eq_false_2. }
  destruct (IH (c + 1) db1 Hnd) as (Hs & Hp & Hi & Hpr & Hrest & Hpos).
  { intros row Hrow. rewrite Hother.
    - apply Hrows. by right.
    - intros Heq. apply Hid. apply list_elem_of_fmap. by exists row. }
  split; [done|]. split; [done|]. split; [done|]. split; [done|]. split.
  - intros k Hk. rewrite fmap_cons, not_elem_of_cons in Hk. destruct Hk as [Hk1 Hk2].
    cbn [fst] in Hk1. rewrite Hrest by done. by apply Hother.
  - intros [|i] row Hrow.
    + injection Hrow as <-. cbn [fst].
      destruct (Hrows (id, u0)) as (u & Hu & Hrole); [by left|]. cbn [fst] in Hu.
      rewrite Hrest by done. unfold db1. rewrite reset_supplier_id_lookup.
      rewrite bool_decide_eq_true_2 by done. rewrite Hu. cbn [fmap option_fmap option_map].
      rewrite bool_decide_eq_true_2 by done.
      replace (c + Z.of_nat 0) with c by lia.
      fold (Spec.supplier_id_of c).
      case_bool_decide as Hsame; eauto 10.
      eexists _, _. split; [done|]. split; [done|]. split; [done|]. split; [done|].
      done.
    + cbn [lookup list_lookup] in Hrow.
      destruct (Hpos i row Hrow) as (u & u' & Hu & Hu' & Hsid & Hsame & Hkeep).
      exists u, u'. rewrite Hother in Hu.
      * replace (c + Z.of_nat (S i)) with (c + 1 + Z.of_nat i) by lia. done.
      * intros Heq. apply Hid. apply list_elem_of_fmap. exists row. split; [done|].
        by eapply list_elem_of_lookup_2.
Qed.

(** Below the limit of six digits the first candidate is free, and
    generateSupplierId returns it. *)
Lemma generateSupplierId_below_limit now db :
  SupplierModel.maxNumber (SupplierModel.existing_supplier_ids db) < 999999 →
  SupplierModel.generateSupplierId now db
  = Spec.supplier_id_of
      (SupplierModel.maxNumber (SupplierModel.existing_supplier_ids db) + 1).
Proof.
  intros Hm. pose proof (first_candidate_free db Hm) as Hfree.
  set (m := SupplierModel.maxNumber (SupplierModel.existing_supplier_ids db)) in *.
  pose proof (supplierId_attempts_spec 10 0 "" (m + 1) db) as Hloop.
  cbn zeta in Hloop. destruct Hloop as (Hused & Hb & Hres).
  unfold SupplierModel.generateSupplierId, SupplierModel.generateSupplierId_try.
  rewrite nextNumber_spec. fold m.
  destruct (SupplierModel.supplierId_attempts 10 0 "" (m + 1) db) as [k0 sid].
  cbn [fst snd] in *.
  assert (k0 = 0) as ->.
  { destruct (decide (k0 = 0)) as [|Hne]; [done|].
    specialize (Hused 0 ltac:(lia)). replace (m + 1 + 0) with (m + 1) in Hused by lia.
    congruence. }
  destruct (Hres ltac:(lia)) as [-> _]. replace (m + 1 + 0) with (m + 1) by lia.
  rewrite supplier_id_of_nonempty. done.
Qed.

(** The users table after resetAllSupplierIds. *)
Lemma resetAllSupplierIds_users now db :
  let sups := SupplierModel.suppliers_by_id db in
  let res := SupplierModel.resetAllSupplierIds now db in
  res.2 = Z.of_nat (length sups)
  ∧ NoDup sups.*1 ∧ Sorted Z.le sups.*1
  ∧ (∀ row, row ∈ sups ↔ users db !! row.1 = Some row.2 ∧ u_role row.2 = supplier)
  ∧ (∀ (i : nat) row, sups !! i = Some row →
       ∃ u', users res.1 !! row.1 = Some u'
             ∧ u_supplier_id u' = Some (Spec.supplier_id_of (Z.of_nat i + 1))
             ∧ set_u_updated_at 0 (set_u_supplier_id None u')
               = set_u_updated_at 0 (set_u_supplier_id None row.2)
             ∧ (u_supplier_id row.2 = Some (Spec.supplier_id_of (Z.of_nat i + 1)) →
                u' = row.2))
  ∧ (∀ id u, users db !! id = Some u → u_role u ≠ supplier → users res.1 !! id = Some u)
  ∧ (∀ id, users db !! id = None → users res.1 !! id = None)
  ∧ supply_records res.1 = supply_records db ∧ payments res.1 = payments db
  ∧ inventory res.1 = inventory db ∧ production_data res.1 = production_data db
  ∧ (∀ id1 id2 u1 u2,
       users res.1 !! id1 = Some u1 → users res.1 !! id2 = Some u2 →
       u_role u1 = supplier → u_role u2 = supplier →
       u_supplier_id u1 = u_supplier_id u2 → id1 = id2).
Proof.
  cbn zeta. unfold SupplierModel.resetAllSupplierIds. cbn [fst snd].
  pose proof (suppliers_by_id_NoDup db) as Hnd.
  destruct (reset_loop_spec now (SupplierModel.suppliers_by_id db) 1 db Hnd)
    as (Hs & Hp & Hi & Hpr & Hrest & Hpos).
  { intros row Hrow. apply suppliers_by_id_elem in Hrow as [? ?]. eauto. }
  assert (∀ (i : nat) row, SupplierModel.suppliers_by_id db !! i = Some row →
       ∃ u', users (SupplierModel.reset_loop now (SupplierModel.suppliers_by_id db) 1 db)
               !! row.1 = Some u'
             ∧ u_supplier_id u' = Some (Spec.supplier_id_of (Z.of_nat i + 1))
             ∧ set_u_updated_at 0 (set_u_supplier_id None u')
               = set_u_updated_at 0 (set_u_supplier_id None row.2)
             ∧ (u_supplier_id row.2 = Some (Spec.supplier_id_of (Z.of_nat i + 1)) →
                u' = row.2)) as Hpos'.
  { intros i row Hrow.
    destruct (Hpos i row Hrow) as (u & u' & Hu & Hu' & Hsid & Hsame & Hkeep).
    apply list_elem_of_lookup_2, suppliers_by_id_elem in Hrow as [Hu0 _].
    assert (u = row.2) as -> by congruence.
    exists u'. by rewrite (Z.add_comm (Z.of_nat i) 1). }
  split; [done|]. split; [done|].
  split.
  { unfold SupplierModel.suppliers_by_id, Sql.order_by_asc.
    apply (Sorted_fmap_elem (λ a b : Z * user, a.1 ≤ b.1)); [done|].
    apply (sort_asc_Sorted (λ kv : Z * user, kv.1)). }
  split; [apply suppliers_by_id_elem|].
  split; [done|].
  split.
  { intros id u Hu Hrole. rewrite Hrest; [done|].
    intros Hin. apply list_elem_of_fmap in Hin as ([id' u'] & -> & Hin).
    apply suppliers_by_id_elem in Hin as [? ?]. cbn in *. congruence. }
  split.
  { intros id Hu. rewrite Hrest; [done|].
    intros Hin. apply list_elem_of_fmap in Hin as ([id' u'] & -> & Hin).
    apply suppliers_by_id_elem in Hin as [? ?]. cbn in *. congruence. }
  do 4 (split; [done|]).
  (* distinct ids *)
  assert (∀ id u, users (SupplierModel.reset_loop now
                           (SupplierModel.suppliers_by_id db) 1 db) !! id = Some u →
                  u_role u = supplier →
                  ∃ (i : nat) row, SupplierModel.suppliers_by_id db !! i = Some row
                                   ∧ row.1 = id
                                   ∧ u_supplier_id u
                                     = Some (Spec.supplier_id_of (Z.of_nat i + 1)))
    as Hinv.
  { intros id u Hu Hrole.
    destruct (decide (id ∈ (SupplierModel.suppliers_by_id db).*1)) as [Hin|Hout].
    - apply list_elem_of_fmap in Hin as (row & -> & Hin).
      apply list_elem_of_lookup in Hin as [i Hrow].
      destruct (Hpos' i row Hrow) as (u' & Hu' & Hsid & _).
      exists i, row. split; [done|]. split; [done|]. congruence.
    - rewrite Hrest in Hu by done. exfalso. apply Hout.
      apply list_elem_of_fmap. exists (id, u). split; [done|].
      by apply suppliers_by_id_elem. }
  intros id1 id2 u1 u2 Hu1 Hu2 Hr1 Hr2 Heq.
  destruct (Hinv id1 u1 Hu1 Hr1) as (i1 & row1 & Hrow1 & <- & Hs1).
  destruct (Hinv id2 u2 Hu2 Hr2) as (i2 & row2 & Hrow2 & <- & Hs2).
  assert (Spec.supplier_id_of (Z.of_nat i1 + 1) = Spec.supplier_id_of (Z.of_nat i2 + 1))
    as Heq' by congruence.
  apply (f_equal Spec.supplier_number) in Heq'.
  rewrite !supplier_number_of in Heq' by lia.
  assert (i1 = i2) as -> by lia. congruence.
Qed.

(** X6.  resetAllSupplierIds numbers the suppliers in ascending order of
    their user id: the i-th supplier (from 1) gets the supplier_id SUP and i
    zero-padded to six digits; every other column but updated_at keeps its
    value, a supplier that already held that id is not touched, users of other
    roles and the other tables are unchanged, and the function returns the
    number of suppliers.  Afterwards no two suppliers share a supplier_id. *)
Theorem resetAllSupplierIds_spec now db :
  let sups := SupplierModel.suppliers_by_id db in
  let res := SupplierModel.resetAllSupplierIds now db in
  res.2 = Z.of_nat (length sups)
  ∧ NoDup sups.*1 ∧ Sorted Z.le sups.*1
  ∧ (∀ row, row ∈ sups ↔ users db !! row.1 = Some row.2 ∧ u_role row.2 = supplier)
  ∧ (∀ (i : nat) row, sups !! i = Some row →
       ∃ u', users res.1 !! row.1 = Some u'
             ∧ u_supplier_id u' = Some (Spec.supplier_id_of (Z.of_nat i + 1))
             ∧ set_u_updated_at 0 (set_u_supplier_id None u')
               = set_u_updated_at 0 (set_u_supplier_id None row.2)
             ∧ (u_supplier_id row.2 = Some (Spec.supplier_id_of (Z.of_nat i + 1)) →
                u' = row.2))
  ∧ (∀ id u, users db !! id = Some u → u_role u ≠ supplier → users res.1 !! id = Some u)
  ∧ (∀ id, users db !! id = None → users res.1 !! id = None)
  ∧ supply_records res.1 = supply_records db ∧ payments res.1 = payments db
  ∧ inventory res.1 = inventory db ∧ production_data res.1 = production_data db
  ∧ (∀ id1 id2 u1 u2,
       users res.1 !! id1 = Some u1 → users res.1 !! id2 = Some u2 →
       u_role u1 = supplier → u_role u2 = supplier →
       u_supplier_id u1 = u_supplier_id u2 → id1 = id2).
Proof. exact (resetAllSupplierIds_users now db). Qed.

Lemma resetAllSupplierIds_spec_witness :
  let res := SupplierModel.resetAllSupplierIds Examples.now Examples.backlog in
  ∃ u', users res.1 !! 2 = Some u'
        ∧ u_supplier_id u' = Some (Spec.supplier_id_of 2)
        ∧ set_u_updated_at 0 (set_u_supplier_id None u')
          = set_u_updated_at 0 (set_u_supplier_id None Examples.bob).
Proof.
  destruct (resetAllSupplierIds_spec Examples.now Examples.backlog)
    as (_ & _ & _ & _ & H & _).
  destruct (H 1%nat (2, Examples.bob)) as (u' & H1 & H2 & H3 & _);
    [vm_compute; reflexivity|].
  exists u'. split; [exact H1|]. split; [exact H2|exact H3].
Defined.

(** X7.  After resetAllSupplierIds has numbered n suppliers, n below 999999,
    the next id generateSupplierId issues is SUP and n + 1 zero-padded to six
    digits. *)
Theorem resetAllSupplierIds_then_generate now now' db :
  let res := SupplierModel.resetAllSupplierIds now db in
  res.2 < 999999 →
  SupplierModel.generateSupplierId now' res.1 = Spec.supplier_id_of (res.2 + 1).
Proof.
  cbn zeta.
  destruct (resetAllSupplierIds_users now db)
    as (Hn & Hnd & _ & Helem & Hpos & Hother & Hnone & _ & _ & _ & _ & _).
  cbn zeta in *. rewrite Hn.
  set (sups := SupplierModel.suppliers_by_id db) in *.
  set (db' := (SupplierModel.resetAllSupplierIds now db).1) in *.
  intros Hlt.
  assert (∀ id u, users db' !! id = Some u → u_role u = supplier →
            ∃ i : nat, (i < length sups)%nat
                       ∧ u_supplier_id u = Some (Spec.supplier_id_of (Z.of_nat i + 1)))
    as Hinv.
  { intros id u Hu Hrole.
    destruct (users db !! id) as [u0|] eqn:Hu0; [|rewrite Hnone in Hu; done].
    destruct (decide (u_role u0 = supplier)) as [Hr0|Hr0].
    - assert ((id, u0) ∈ sups) as Hin by (by apply Helem).
      apply list_elem_of_lookup in Hin as [i Hrow].
      destruct (Hpos i _ Hrow) as (u' & Hu' & Hsid & _). cbn [fst] in Hu'.
      exists i. split; [by eapply lookup_lt_Some|]. congruence.
    - rewrite (Hother id u0) in Hu by done. congruence. }
  assert (SupplierModel.maxNumber (SupplierModel.existing_supplier_ids db')
          = Z.of_nat (length sups)) as Hmax.
  { destruct (maxNumber_foldl (SupplierModel.existing_supplier_ids db') 0
                (existing_supplier_ids_conforming db')) as (H0 & Hall & Hex).
    fold (SupplierModel.maxNumber (SupplierModel.existing_supplier_ids db')) in *.
    apply Z.le_antisymm.
    - destruct Hex as [->|(s & Hs & <-)]; [lia|].
      apply existing_supplier_ids_spec in Hs as (id & u & Hu & Hrole & Hsid & _ & _).
      destruct (Hinv id u Hu Hrole) as (i & Hi & Hsid').
      assert (s = Spec.supplier_id_of (Z.of_nat i + 1)) as -> by congruence.
      rewrite supplier_number_of by lia. lia.
    - destruct (length sups) as [|n] eqn:Hlen; [lia|].
      destruct (lookup_lt_is_Some_2 sups n) as [row Hrow]; [lia|].
      destruct (Hpos n row Hrow) as (u' & Hu' & Hsid & Hsame & _).
      assert (Spec.supplier_id_of (Z.of_nat n + 1)
              ∈ SupplierModel.existing_supplier_ids db') as Hin.
      { apply existing_supplier_ids_spec. exists row.1, u'.
        apply list_elem_of_lookup_2, Helem in Hrow as [_ Hrole].
        split; [done|]. split.
        { apply (f_equal u_role) in Hsame. cbn in Hsame. congruence. }
        split; [done|]. split.
        { intros Heq. apply (f_equal String.length) in Heq.
          unfold Spec.supplier_id_of in Heq. rewrite string_length_app in Heq.
          cbn in Heq. lia. }
        apply supplier_id_of_conforms. lia. }
      apply Hall in Hin. rewrite supplier_number_of in Hin by lia. lia. }
  rewrite generateSupplierId_below_limit by lia. by rewrite Hmax.
Qed.

Lemma resetAllSupplierIds_then_generate_witness :
  SupplierModel.generateSupplierId Examples.now
    (SupplierModel.resetAllSupplierIds Examples.now Examples.backlog).1
  = Spec.supplier_id_of 3.
Proof.
  apply (resetAllSupplierIds_then_generate Examples.now Examples.now Examples.backlog).
  vm_compute. reflexivity.
Defined.

(** * Payments: the routes and what the listings make of them *)

(** ** Sums over a table that gains or changes one row *)

Lemma sum_filter_Permutation {A} (f : A → Z) (P : A → bool) (l1 l2 : list A) :
  l1 ≡ₚ l2 →
  Spec.sum (f <$> filter (λ a, P a = true) l1)
  = Spec.sum (f <$> filter (λ a, P a = true) l2).
Proof. intros H. apply sum_Permutation. by rewrite H. Qed.

Lemma sum_filter_cons {A} (f : A → Z) (P : A → bool) (a : A) (l : list A) :
  Spec.sum (f <$> filter (λ a, P a = true) (a :: l))
  = (if P a then f a else 0) + Spec.sum (f <$> filter (λ a, P a = true) l).
Proof.
  destruct (P a) eqn:E.
  - rewrite filter_cons_True by done. by rewrite fmap_cons, sum_cons.
  - rewrite filter_cons_False by (by rewrite E). lia.
Qed.

Lemma sum_filter_insert_fresh {A} (f : Z * A → Z) (P : Z * A → bool)
    (t : gmap Z A) (k : Z) (v : A) :
  t !! k = None →
  Spec.sum (f <$> filter (λ kv, P kv = true) (select_all (<[k:=v]> t)))
  = (if P (k, v) then f (k, v) else 0)
    + Spec.sum (f <$> filter (λ kv, P kv = true) (select_all t)).
Proof.
  intros Hk. unfold select_all.
  rewrite (sum_filter_Permutation f P _ _ (map_to_list_insert t k v Hk)).
  apply sum_filter_cons.
Qed.

Lemma sum_filter_insert_existing {A} (f : Z * A → Z) (P : Z * A → bool)
    (t : gmap Z A) (k : Z) (v0 v : A) :
  t !! k = Some v0 →
  Spec.sum (f <$> filter (λ kv, P kv = true) (select_all (<[k:=v]> t)))
  = (if P (k, v) then f (k, v) else 0) - (if P (k, v0) then f (k, v0) else 0)
    + Spec.sum (f <$> filter (λ kv, P kv = true) (select_all t)).
Proof.
  intros Hk.
  rewrite <-(insert_delete_eq t k v).
  rewrite <-(insert_delete_id t k v0 Hk) at 2.
  rewrite !sum_filter_insert_fresh by apply lookup_delete_eq. lia.
Qed.

Lemma length_filter_Permutation {A} (P : A → bool) (l1 l2 : list A) :
  l1 ≡ₚ l2 →
  length (filter (λ a, P a = true) l1) = length (filter (λ a, P a = true) l2).
Proof. intros H. by rewrite H. Qed.

(** ** POST /direct *)

Lemma mark_paid_lookup id t db k :
  supply_records (PaymentRoutes.mark_paid id t db) !! k
  = if bool_decide (k = id)
    then (λ r, if bool_decide (sr_payment_status r = paid) then r
               else set_sr_updated_at t (set_sr_payment_status paid r))
         <$> supply_records db !! k
    else supply_records db !! k.
Proof.
  unfold PaymentRoutes.mark_paid. cbn [with_supply_records supply_records].
  case_bool_decide as Hk; [subst; by rewrite lookup_alter_eq|by rewrite lookup_alter_ne].
Qed.

Lemma payment_id_exists_spec (s : string) (db : database) :
  PaymentModel.payment_id_exists s db = true
  ↔ ∃ k p, payments db !! k = Some p ∧ p_payment_id p = s.
Proof.
  unfold PaymentModel.payment_id_exists. rewrite existsb_exists. split.
  - intros ([k p] & Hin & H). apply bool_decide_eq_true in H.
    exists k, p. split; [|done]. apply elem_of_map_to_list. by apply list_elem_of_In.
  - intros (k & p & Hp & Hs). exists (k, p). split.
    + apply list_elem_of_In. by apply elem_of_map_to_list.
    + by apply bool_decide_eq_true.
Qed.

Lemma given_number_Some (o : option Z) (n : Z) :
  PaymentModel.given_number o = Some n ↔ o = Some n ∧ n ≠ 0.
Proof.
  unfold PaymentModel.given_number, Js.falsy_number.
  destruct o as [x|]; [|split; [done|by intros [? _]]].
  destruct (x =? 0) eqn:E.
  - split; [done|]. intros [[= ->] Hn]. lia.
  - split; [intros [= ->]; split; [done|lia]|by intros [? _]].
Qed.

Lemma given_string_Some (o : option string) (s : string) :
  PaymentModel.given_string o = Some s ↔ o = Some s ∧ s ≠ "".
Proof.
  unfold PaymentModel.given_string, Js.falsy_string.
  destruct o as [x|]; [|split; [done|by intros [? _]]].
  case_bool_decide as E.
  - split; [done|]. intros [[= ->] Hn]. done.
  - split; [intros [= ->]; by split|by intros [? _]].
Qed.

(** What a 200 of POST /direct means, and the state it leaves. *)
Lemma direct_accepted now random user_id body db :
  let res := PaymentRoutes.direct now random user_id body db in
  status res.2 = 200 →
  ∃ sid sup amt r,
    PaymentRoutes.supply_record_id body = Some sid ∧ sid ≠ 0
    ∧ PaymentRoutes.supplier_id body = Some sup ∧ sup ≠ 0
    ∧ PaymentRoutes.amount body = Some amt ∧ amt ≠ 0
    ∧ supply_records db !! sid = Some r ∧ is_Some (users db !! sup)
    ∧ PaymentModel.valid_payment_method
        (default "spot" (PaymentRoutes.payment_method body)) = true
    ∧ PaymentModel.payment_id_exists (PaymentModel.generatePaymentId now random) db
      = false
    ∧ (∀ c, user_id = Some c → is_Some (users db !! c))
    ∧ res.1
      = PaymentRoutes.mark_paid sid (Js.getTime now)
          (with_payments
             (insert (insertId (payments db))
                {| p_payment_id := PaymentModel.generatePaymentId now random;
                   p_supply_record_id := sid; p_supplier_id := sup; p_amount := amt;
                   p_currency := "LKR";
                   p_payment_method :=
                     default "spot" (PaymentRoutes.payment_method body);
                   p_payment_gateway := None; p_gateway_session_id := None;
                   p_gateway_payment_id := None; p_payment_status := p_completed;
                   p_payment_date := None;
                   p_payment_notes := PaymentRoutes.payment_notes body;
                   p_gateway_response := None; p_created_by := user_id;
                   p_created_at := Js.getTime now;
                   p_updated_at := Js.getTime now |}) db).
Proof.
  cbn zeta. unfold PaymentRoutes.direct.
  destruct (PaymentModel.given_number (PaymentRoutes.supply_record_id body))
    as [sid|] eqn:Hsid; [|done].
  destruct (PaymentModel.given_number (PaymentRoutes.supplier_id body))
    as [sup|] eqn:Hsup; [|done].
  destruct (PaymentModel.given_number (PaymentRoutes.amount body))
    as [amt|] eqn:Hamt; [|done].
  apply given_number_Some in Hsid as [Hsid Hsid0].
  apply given_number_Some in Hsup as [Hsup Hsup0].
  apply given_number_Some in Hamt as [Hamt Hamt0].
  unfold PaymentModel.createPayment.
  cbn [PaymentModel.pd_supplier_id PaymentModel.pd_payment_method
       PaymentModel.pd_payment_id PaymentModel.pd_supply_record_id
       PaymentModel.pd_created_by PaymentModel.pd_amount PaymentModel.pd_currency
       PaymentModel.pd_payment_gateway PaymentModel.pd_gateway_session_id
       PaymentModel.pd_gateway_payment_id PaymentModel.pd_payment_status
       PaymentModel.pd_payment_notes PaymentModel.pd_gateway_response].
  destruct (PaymentModel.valid_payment_method _) eqn:Hvalid; cbn [negb]; [|done].
  destruct (PaymentModel.payment_id_exists _ db) eqn:Hdup; [done|].
  destruct (supply_records db !! sid) as [r|] eqn:Hr; cycle 1.
  { by rewrite bool_decide_eq_true_2 by done. }
  rewrite (bool_decide_eq_false_2 (Some r = None)) by done.
  destruct (users db !! sup) as [u|] eqn:Hu; cycle 1.
  { by rewrite bool_decide_eq_true_2 by done. }
  rewrite (bool_decide_eq_false_2 (Some u = None)) by done. cbn [orb].
  destruct user_id as [c|]; cycle 1.
  { cbn [fst snd status default]. intros _.
    exists sid, sup, amt, r. repeat split; try done; eauto. }
  destruct (users db !! c) as [uc|] eqn:Hc; cycle 1.
  { by rewrite bool_decide_eq_true_2 by done. }
  rewrite (bool_decide_eq_false_2 (Some uc = None)) by done.
  cbn [fst snd status default]. intros _.
  exists sid, sup, amt, r. repeat split; try done; eauto.
  intros c' [= <-]. eauto.
Qed.


Lemma alter_lookup_insert {A} (f : A → A) (t : gmap Z A) (k : Z) (v : A) :
  t !! k = Some v → alter f k t = <[k := f v]> t.
Proof.
  intros Hk. apply map_eq. intros i. destruct (decide (i = k)) as [->|Hne].
  - by rewrite lookup_alter_eq, lookup_insert_eq, Hk.
  - by rewrite lookup_alter_ne, lookup_insert_ne.
Qed.



(** ** What the statistics make of a direct payment *)

Lemma stat_selected_unfiltered fl :
  PaymentModel.f_supplier_id fl = None → PaymentModel.f_date_from fl = None →
  PaymentModel.f_date_to fl = None →
  (∀ kv, PaymentModel.stat_payment_selected fl kv = true)
  ∧ (∀ kv, PaymentModel.stat_supply_selected fl kv = true).
Proof.
  intros H1 H2 H3. unfold PaymentModel.stat_payment_selected,
    PaymentModel.stat_supply_selected. rewrite H1, H2, H3. by split.
Qed.

(** X9.  Without filters, a 200 of POST /direct for a supply record that was
    unpaid raises the completed total of getPaymentStatistics by the amount of
    the payment and, on top of it, by the total_payment of the record: the
    payment of a delivery in full is counted twice.  (For a record that was
    paid already only the amount is added.) *)
Theorem direct_payment_counted_twice now random user_id body db fl sid amt r :
  PaymentModel.f_supplier_id fl = None → PaymentModel.f_date_from fl = None →
  PaymentModel.f_date_to fl = None →
  PaymentRoutes.supply_record_id body = Some sid →
  PaymentRoutes.amount body = Some amt →
  supply_records db !! sid = Some r →
  let res := PaymentRoutes.direct now random user_id body db in
  status res.2 = 200 →
  PaymentModel.total_completed_amount (PaymentModel.getPaymentStatistics fl res.1)
  = PaymentModel.total_completed_amount (PaymentModel.getPaymentStatistics fl db)
    + amt
    + (if bool_decide (sr_payment_status r = paid) then 0 else sr_total_payment r).
Proof.
  intros Hf1 Hf2 Hf3 Hsid Hamt Hr res H200. unfold res in *. clear res.
  apply direct_accepted in H200
    as (sid' & sup & amt' & r' & ? & ? & ? & ? & ? & ? & ? & ? & ? & ? & ? & ->).
  simplify_eq.
  rewrite !getPaymentStatistics_total_completed.
  unfold PaymentRoutes.mark_paid.
  cbn [with_supply_records with_payments supply_records payments].
  erewrite alter_lookup_insert by done.
  rewrite (sum_filter_insert_fresh _ (PaymentModel.stat_payment_selected fl))
    by apply insertId_fresh.
  erewrite (sum_filter_insert_existing _ (PaymentModel.stat_supply_selected fl))
    by done.
  destruct (stat_selected_unfiltered fl Hf1 Hf2 Hf3) as [Hp Hs].
  rewrite !Hp, !Hs.
  unfold PaymentModel.has_state, PaymentModel.is_paid. cbn [snd p_payment_status p_amount].
  rewrite (bool_decide_eq_true_2 (p_completed = p_completed)) by done.
  destruct (bool_decide (sr_payment_status r = paid)) eqn:Hpaid.
  - rewrite Hpaid. lia.
  - cbn. rewrite (bool_decide_eq_true_2 (paid = paid)) by done. lia.
Qed.

Lemma direct_payment_counted_twice_witness :
  let res := PaymentRoutes.direct Examples.now 42 (Some 9) Scenarios.direct_request
               Scenarios.office in
  PaymentModel.total_completed_amount
    (PaymentModel.getPaymentStatistics Scenarios.all_payments res.1)
  = PaymentModel.total_completed_amount
      (PaymentModel.getPaymentStatistics Scenarios.all_payments Scenarios.office)
    + 300 + 300.
Proof.
  apply (direct_payment_counted_twice Examples.now 42 (Some 9)
           Scenarios.direct_request Scenarios.office Scenarios.all_payments 1 300
           (Examples.delivery "SUP-20250104-0800" unpaid 1735977600000));
    try reflexivity.
Defined.

(** ** The payment list without a limit *)

Lemma findAllPayments_unlimited LIKE fl db e :
  PaymentModel.f_limit fl = None →
  e ∈ PaymentModel.findAllPayments LIKE fl db ↔
  (∃ kv, payments db !! kv.1 = Some kv.2
         ∧ PaymentModel.payment_selected LIKE fl db kv = true
         ∧ e = PaymentModel.payment_entry db kv)
  ∨ (∃ kv, supply_records db !! kv.1 = Some kv.2
           ∧ PaymentModel.supply_selected LIKE fl db kv = true
           ∧ e = PaymentModel.supply_entry db kv).
Proof.
  intros Hlim. unfold PaymentModel.findAllPayments. rewrite Hlim.
  unfold Sql.limit, Sql.order_by_desc, select_all.
  rewrite elem_of_sort, elem_of_app, !list_elem_of_fmap. split.
  - intros [(kv & -> & Hin)|(kv & -> & Hin)];
      apply elem_of_sort, list_elem_of_filter in Hin as [Hsel Hin];
      apply elem_of_map_to_list' in Hin; [left|right]; by exists kv.
  - intros [(kv & Hkv & Hsel & ->)|(kv & Hkv & Hsel & ->)]; [left|right];
      exists kv; (split; [done|]); apply elem_of_sort, list_elem_of_filter;
      (split; [done|]); by apply elem_of_map_to_list'.
Qed.

Lemma has_payment_true (db : database) (sid : Z) :
  PaymentModel.has_payment db sid = true ↔
  ∃ pid p, payments db !! pid = Some p ∧ p_supply_record_id p = sid.
Proof.
  unfold PaymentModel.has_payment. rewrite existsb_exists. split.
  - intros ([k p] & Hin & H). exists k, p. split; [|cbn in H; lia].
    apply elem_of_map_to_list. by apply list_elem_of_In.
  - intros (k & p & Hp & Hs). exists (k, p). split.
    + apply list_elem_of_In. by apply elem_of_map_to_list.
    + cbn. lia.
Qed.

Lemma supply_selected_inv LIKE fl db kv :
  PaymentModel.supply_selected LIKE fl db kv = true →
  sr_payment_status kv.2 ≠ paid ∧ PaymentModel.has_payment db kv.1 = false.
Proof.
  unfold PaymentModel.supply_selected. intros H.
  repeat (apply andb_prop in H as [H ?]).
  split.
  - apply negb_true_iff in H. by apply bool_decide_eq_false in H.
  - by apply negb_true_iff.
Qed.

Lemma payment_entry_record db kv sid :
  PaymentModel.e_supply_record_id (PaymentModel.payment_entry db kv) = Some sid →
  p_supply_record_id kv.2 = sid.
Proof.
  unfold PaymentModel.payment_entry. cbn.
  destruct (supply_records db !! p_supply_record_id kv.2); [|done]. cbn. congruence.
Qed.

Lemma getPaymentStatistics_total_pending fl db :
  PaymentModel.total_pending_amount (PaymentModel.getPaymentStatistics fl db)
  = Spec.sum ((λ kv : Z * payment,
                 if PaymentModel.has_state p_pending kv then p_amount kv.2 else 0)
              <$> filter (λ kv, PaymentModel.stat_payment_selected fl kv = true)
                         (select_all (payments db)))
    + Spec.sum ((λ kv : Z * supply_record,
                   if negb (PaymentModel.is_paid kv) then sr_total_payment kv.2 else 0)
                <$> filter (λ kv, PaymentModel.stat_supply_selected fl kv = true)
                           (select_all (supply_records db))).
Proof.
  unfold PaymentModel.getPaymentStatistics, PaymentModel.sum_case, Sql.SUM,
    PaymentModel.num. simpl.
  f_equal.
  - by destruct (filter _ (select_all (payments db))).
  - by destruct (filter _ (select_all (supply_records db))).
Qed.

(** ** Marking a delivery paid without a payment *)

(** X10.  markPaymentAsPaid on a supply record that no payment row references
    inserts no payment.  Afterwards findAllPayments, whatever the filters,
    lists no entry for the record, although without filters and limit it
    listed the record as pending while it was unpaid; and the unfiltered
    statistics have moved the record's total_payment from the pending to the
    completed total. *)
Theorem markPaymentAsPaid_leaves_history now id r db :
  supply_records db !! id = Some r →
  PaymentModel.has_payment db id = false →
  let res := SupplierController.markPaymentAsPaid now id db in
  status res.2 = 200
  ∧ payments res.1 = payments db
  ∧ (∀ LIKE fl e, e ∈ PaymentModel.findAllPayments LIKE fl res.1 →
       PaymentModel.e_supply_record_id e ≠ Some id)
  ∧ (∀ LIKE fl,
       sr_payment_status r = unpaid →
       PaymentModel.f_supplier_id fl = None → PaymentModel.f_date_from fl = None →
       PaymentModel.f_date_to fl = None → PaymentModel.f_search fl = None →
       PaymentModel.f_limit fl = None →
       PaymentModel.supply_entry db (id, r) ∈ PaymentModel.findAllPayments LIKE fl db
       ∧ PaymentModel.total_completed_amount
           (PaymentModel.getPaymentStatistics fl res.1)
         = PaymentModel.total_completed_amount (PaymentModel.getPaymentStatistics fl db)
           + sr_total_payment r
       ∧ PaymentModel.total_pending_amount
           (PaymentModel.getPaymentStatistics fl res.1)
         = PaymentModel.total_pending_amount (PaymentModel.getPaymentStatistics fl db)
           - sr_total_payment r).
Proof.
  intros Hr Hnone. cbn zeta.
  unfold SupplierController.markPaymentAsPaid, SupplierModel.updatePaymentStatus.
  rewrite Hr. rewrite (bool_decide_eq_true_2 _ (eq_refl "paid")).
  cbn [fst snd status].
  set (r' := set_sr_updated_at (Js.getTime now) (set_sr_payment_status paid r)).
  set (db' := with_supply_records (insert id r') db).
  split; [done|]. split; [done|]. split.
  - intros LIKE fl e He.
    apply findAllPayments_elem in He as [(kv & Hkv & ->)|(kv & Hkv & Hsel & ->)].
    + intros Heq. apply payment_entry_record in Heq.
      rewrite has_payment_false in Hnone. by apply (Hnone kv.1 kv.2).
    + cbn. intros [= Heq]. apply supply_selected_inv in Hsel as [Hpaid _].
      rewrite Heq in Hkv. unfold db' in Hkv.
      cbn [with_supply_records supply_records] in Hkv.
      rewrite lookup_insert_eq in Hkv. injection Hkv as Hkv.
      apply Hpaid. by rewrite <-Hkv.
  - intros LIKE fl Hunpaid Hf1 Hf2 Hf3 Hf4 Hf5.
    destruct (stat_selected_unfiltered fl Hf1 Hf2 Hf3) as [Hp Hs].
    split; [|split].
    + apply findAllPayments_unlimited; [done|]. right. exists (id, r).
      split; [done|]. split; [|done].
      unfold PaymentModel.supply_selected. cbn [fst snd].
      rewrite Hnone, Hunpaid, Hf1, Hf2, Hf3, Hf4. done.
    + rewrite !getPaymentStatistics_total_completed.
      unfold db'. cbn [with_supply_records supply_records payments].
      erewrite (sum_filter_insert_existing _ (PaymentModel.stat_supply_selected fl))
        by done.
      rewrite !Hs. unfold PaymentModel.is_paid. cbn [snd]. rewrite Hunpaid.
      cbn. rewrite (bool_decide_eq_true_2 (paid = paid)) by done.
      rewrite (bool_decide_eq_false_2 (unpaid = paid)) by done. lia.
    + rewrite !getPaymentStatistics_total_pending.
      unfold db'. cbn [with_supply_records supply_records payments].
      erewrite (sum_filter_insert_existing _ (PaymentModel.stat_supply_selected fl))
        by done.
      rewrite !Hs. unfold PaymentModel.is_paid. cbn [snd]. rewrite Hunpaid.
      cbn. rewrite (bool_decide_eq_true_2 (paid = paid)) by done.
      rewrite (bool_decide_eq_false_2 (unpaid = paid)) by done. cbn. lia.
Qed.

Lemma markPaymentAsPaid_leaves_history_witness :
  let res := SupplierController.markPaymentAsPaid Examples.now 1 Scenarios.office in
  PaymentModel.supply_entry Scenarios.office
    (1, Examples.delivery "SUP-20250104-0800" unpaid 1735977600000)
  ∈ PaymentModel.findAllPayments (λ _ _, false) Scenarios.all_payments Scenarios.office
  ∧ (∀ e, e ∈ PaymentModel.findAllPayments (λ _ _, false) Scenarios.all_payments res.1 →
          PaymentModel.e_supply_record_id e ≠ Some 1)
  ∧ PaymentModel.total_completed_amount
      (PaymentModel.getPaymentStatistics Scenarios.all_payments res.1) = 300.
Proof.
  destruct (markPaymentAsPaid_leaves_history Examples.now 1
              (Examples.delivery "SUP-20250104-0800" unpaid 1735977600000)
              Scenarios.office eq_refl eq_refl) as (_ & _ & Hno & Hmoved).
  destruct (Hmoved (λ _ _, false) Scenarios.all_payments
              eq_refl eq_refl eq_refl eq_refl eq_refl eq_refl) as (Hin & Hc & _).
  split; [exact Hin|]. split; [exact (Hno _ _)|]. cbn zeta. rewrite Hc. reflexivity.
Defined.

(** ** POST /gateway *)

(** What a 200 of POST /gateway means, and the state it leaves. *)
Lemma gateway_accepted now random user_id provider body db :
  let res := PaymentRoutes.gateway now random user_id provider body db in
  status res.2 = 200 →
  ∃ amt descr sid uid,
    PaymentRoutes.g_amount body = Some amt ∧ amt ≠ 0
    ∧ PaymentRoutes.g_description body = Some descr ∧ descr ≠ ""
    ∧ PaymentRoutes.g_supply_record_id body = Some sid ∧ sid ≠ 0
    ∧ user_id = Some uid ∧ uid ≠ 0
    ∧ is_Some (supply_records db !! sid) ∧ is_Some (users db !! uid)
    ∧ PaymentModel.payment_id_exists (PaymentModel.generatePaymentId now random) db
      = false
    ∧ res.1
      = with_payments
          (insert (insertId (payments db))
             {| p_payment_id := PaymentModel.generatePaymentId now random;
                p_supply_record_id := sid; p_supplier_id := uid; p_amount := amt;
                p_currency := default "LKR" (PaymentRoutes.g_currency body);
                p_payment_method := "gateway";
                p_payment_gateway := Some provider;
                p_gateway_session_id :=
                  Some ("session_" +:+ Js.toString (Js.getTime now) +:+ "_"
                        +:+ Js.toString sid);
                p_gateway_payment_id := None; p_payment_status := p_pending;
                p_payment_date := None;
                p_payment_notes := Some descr;
                p_gateway_response := None; p_created_by := Some uid;
                p_created_at := Js.getTime now;
                p_updated_at := Js.getTime now |}) db.
Proof.
  cbn zeta. unfold PaymentRoutes.gateway.
  destruct (PaymentModel.given_number (PaymentRoutes.g_amount body))
    as [amt|] eqn:Hamt; [|done].
  destruct (PaymentModel.given_string (PaymentRoutes.g_description body))
    as [descr|] eqn:Hdescr; [|done].
  destruct (PaymentModel.given_number (PaymentRoutes.g_supply_record_id body))
    as [sid|] eqn:Hsid; [|done].
  apply given_number_Some in Hamt as [Hamt Hamt0].
  apply given_string_Some in Hdescr as [Hdescr Hdescr0].
  apply given_number_Some in Hsid as [Hsid Hsid0].
  unfold PaymentModel.createPayment.
  cbn [PaymentModel.pd_supplier_id PaymentModel.pd_payment_method
       PaymentModel.pd_payment_id PaymentModel.pd_supply_record_id
       PaymentModel.pd_created_by PaymentModel.pd_amount PaymentModel.pd_currency
       PaymentModel.pd_payment_gateway PaymentModel.pd_gateway_session_id
       PaymentModel.pd_gateway_payment_id PaymentModel.pd_payment_status
       PaymentModel.pd_payment_notes PaymentModel.pd_gateway_response].
  destruct (PaymentModel.given_number user_id) as [uid|] eqn:Huid; [|done].
  apply given_number_Some in Huid as [-> Huid0].
  change (PaymentModel.valid_payment_method "gateway") with true. cbn [negb].
  destruct (PaymentModel.payment_id_exists _ db) eqn:Hdup; [done|].
  destruct (supply_records db !! sid) as [r|] eqn:Hr; cycle 1.
  { by rewrite bool_decide_eq_true_2 by done. }
  rewrite (bool_decide_eq_false_2 (Some r = None)) by done.
  destruct (users db !! uid) as [u|] eqn:Hu; cycle 1.
  { by rewrite bool_decide_eq_true_2 by done. }
  rewrite (bool_decide_eq_false_2 (Some u = None)) by done. cbn [orb].
  unfold PaymentModel.findPaymentById. cbn [with_payments payments].
  rewrite lookup_insert_eq. cbn [fmap option_fmap option_map fst snd status default].
  intros _. exists amt, descr, sid, uid. repeat split; try done; eauto.
Qed.

(** X11.  POST /gateway books the payment it creates on the user who called
    it, not on the supplier of the supply record.  When a user other than the
    supplier opens a session for an unpaid supply record without payment rows,
    the history filtered by that supplier, which listed the record as pending,
    lists no entry for the record any more: the pending payment belongs to the
    caller, and the record's own entry is suppressed by the payment row. *)
Theorem gateway_hides_record now random uid provider body db LIKE sid r :
  PaymentRoutes.g_supply_record_id body = Some sid →
  supply_records db !! sid = Some r →
  sr_supplier_id r ≠ 0 → uid ≠ sr_supplier_id r →
  sr_payment_status r = unpaid →
  PaymentModel.has_payment db sid = false →
  let res := PaymentRoutes.gateway now random (Some uid) provider body db in
  let fl := {| PaymentModel.f_supplier_id := Some (sr_supplier_id r);
               PaymentModel.f_date_from := None; PaymentModel.f_date_to := None;
               PaymentModel.f_search := None; PaymentModel.f_limit := None |} in
  status res.2 = 200 →
  PaymentModel.supply_entry db (sid, r) ∈ PaymentModel.findAllPayments LIKE fl db
  ∧ (∀ e, e ∈ PaymentModel.findAllPayments LIKE fl res.1 →
          PaymentModel.e_supply_record_id e ≠ Some sid)
  ∧ ∃ pid p, payments res.1 !! pid = Some p
             ∧ p_supply_record_id p = sid ∧ p_supplier_id p = uid
             ∧ p_payment_status p = p_pending.
Proof.
  intros Hsid Hr Hsup0 Hne Hunpaid Hnone res fl H200. unfold res in *. clear res.
  assert (PaymentModel.given_number (Some (sr_supplier_id r)) = Some (sr_supplier_id r))
    as Hgiven by (by apply given_number_Some).
  split; [|split].
  - apply findAllPayments_unlimited; [done|]. right. exists (sid, r).
    split; [done|]. split; [|done].
    unfold PaymentModel.supply_selected, fl.
    cbn [fst snd PaymentModel.f_supplier_id PaymentModel.f_date_from
         PaymentModel.f_date_to PaymentModel.f_search].
    rewrite Hnone, Hunpaid, Hgiven. cbn.
    rewrite (bool_decide_eq_false_2 (unpaid = paid)) by done. cbn.
    by rewrite Z.eqb_refl.
  - apply gateway_accepted in H200
      as (amt & descr & sid' & uid' & ? & ? & ? & ? & ? & ? & ? & ? & ? & ? & ? & ->).
    simplify_eq. intros e He.
    apply (proj1 (findAllPayments_unlimited LIKE fl _ e eq_refl))
      in He as [(kv & Hkv & Hsel & ->)|(kv & Hkv & Hsel & ->)].
    + intros Heq. apply payment_entry_record in Heq.
      destruct kv as [k p]. cbn [fst snd with_payments payments] in *.
      apply lookup_insert_Some in Hkv as [[Hk <-]|[Hk Hkv]].
      * unfold PaymentModel.payment_selected, fl in Hsel.
        cbn [snd PaymentModel.f_supplier_id p_supplier_id] in Hsel.
        rewrite Hgiven in Hsel.
        repeat (apply andb_prop in Hsel as [Hsel ?]). lia.
      * rewrite has_payment_false in Hnone. by apply (Hnone k p).
    + cbn. intros [= Heq]. apply supply_selected_inv in Hsel as [_ Hno].
      rewrite Heq in Hno.
      apply not_true_iff_false in Hno. apply Hno.
      apply has_payment_true. eexists _, _. cbn [with_payments payments].
      split; [apply lookup_insert_eq|done].
  - apply gateway_accepted in H200
      as (amt & descr & sid' & uid' & ? & ? & ? & ? & ? & ? & ? & ? & ? & ? & ? & ->).
    simplify_eq. eexists _, _. cbn [with_payments payments].
    split; [apply lookup_insert_eq|done].
Qed.

Lemma gateway_hides_record_witness :
  let res := PaymentRoutes.gateway Examples.now 42 (Some 9) "demo"
               Scenarios.gateway_request Scenarios.office in
  PaymentModel.supply_entry Scenarios.office
    (1, Examples.delivery "SUP-20250104-0800" unpaid 1735977600000)
  ∈ PaymentModel.findAllPayments (λ _ _, false) Scenarios.payments_of_ann Scenarios.office
  ∧ ∀ e, e ∈ PaymentModel.findAllPayments (λ _ _, false) Scenarios.payments_of_ann res.1 →
         PaymentModel.e_supply_record_id e ≠ Some 1.
Proof.
  destruct (gateway_hides_record Examples.now 42 9 "demo" Scenarios.gateway_request
              Scenarios.office (λ _ _, false) 1
              (Examples.delivery "SUP-20250104-0800" unpaid 1735977600000))
    as (H1 & H2 & _); try reflexivity; try (cbn; lia).
  split; [exact H1|exact H2].
Defined.

(** ** POST /callback/success *)

Lemma findPaymentByPaymentId_None (s : string) (db : database) :
  PaymentModel.findPaymentByPaymentId s db = None
  ↔ ∀ k p, payments db !! k = Some p → p_payment_id p ≠ s.
Proof.
  unfold PaymentModel.findPaymentByPaymentId, select_all.
  rewrite fmap_None, head_None. split.
  - intros Hnil k p Hp Hs.
    assert ((k, p) ∈ filter (λ kv : Z * payment, p_payment_id kv.2 = s)
                       (map_to_list (payments db))) as Hin.
    { apply list_elem_of_filter. split; [done|]. by apply elem_of_map_to_list. }
    rewrite Hnil in Hin. by apply elem_of_nil in Hin.
  - intros Hno. apply filter_none. intros [k p] Hin Hs.
    apply elem_of_map_to_list in Hin. by apply (Hno k p).
Qed.

Lemma findPaymentByPaymentId_Some (s : string) (db : database) found :
  PaymentModel.findPaymentByPaymentId s db = Some found →
  ∃ k p, payments db !! k = Some p ∧ p_payment_id p = s
         ∧ found = PaymentModel.payment_view_of db (k, p).
Proof.
  unfold PaymentModel.findPaymentByPaymentId, select_all.
  intros H. apply fmap_Some in H as ([k p] & Hhead & ->).
  apply head_Some_elem_of, list_elem_of_filter in Hhead as [Hs Hin].
  apply elem_of_map_to_list in Hin. by exists k, p.
Qed.

(** X12.  POST /callback/success always answers 200.  Unless the body says
    "completed" and names the payment_id of a stored payment, nothing is
    changed.  Otherwise (payment ids being unique) that payment becomes
    completed, with the clock as payment_date and the body as gateway_response,
    every other payment is unchanged, and the supply record of the payment is
    marked paid; the session_id and the supply_record_id of the body are not
    looked at. *)
Theorem callback_success_spec now body db :
  let res := PaymentRoutes.callback_success now body db in
  status res.2 = 200
  ∧ ((PaymentRoutes.cb_status body ≠ Some "completed"
      ∨ Js.falsy_string (PaymentRoutes.cb_payment_id body) = true
      ∨ ∀ k p, payments db !! k = Some p →
               Some (p_payment_id p) ≠ PaymentRoutes.cb_payment_id body) →
     res.1 = db)
  ∧ (∀ k p,
       (∀ k1 k2 p1 p2, payments db !! k1 = Some p1 → payments db !! k2 = Some p2 →
                       p_payment_id p1 = p_payment_id p2 → k1 = k2) →
       PaymentRoutes.cb_status body = Some "completed" →
       payments db !! k = Some p →
       PaymentRoutes.cb_payment_id body = Some (p_payment_id p) →
       p_payment_id p ≠ "" →
       (∃ p', payments res.1 !! k = Some p'
              ∧ p_payment_status p' = p_completed
              ∧ p_payment_date p' = Some (Js.getTime now)
              ∧ p_gateway_response p' = Some (PaymentRoutes.cb_json body)
              ∧ p_gateway_payment_id p'
                = PaymentModel.or_string (PaymentRoutes.cb_gateway_payment_id body)
                    (p_gateway_payment_id p)
              ∧ p_amount p' = p_amount p
              ∧ p_supply_record_id p' = p_supply_record_id p
              ∧ p_supplier_id p' = p_supplier_id p)
       ∧ (∀ k', k' ≠ k → payments res.1 !! k' = payments db !! k')
       ∧ (∀ r, supply_records db !! p_supply_record_id p = Some r →
               sr_payment_status
               <$> supply_records res.1 !! p_supply_record_id p = Some paid)
       ∧ (∀ id, id ≠ p_supply_record_id p →
                supply_records res.1 !! id = supply_records db !! id)
       ∧ users res.1 = users db).
Proof.
  cbn zeta. unfold PaymentRoutes.callback_success.
  split; [|split].
  - destruct (PaymentModel.given_string _) as [pid|]; [|done].
    case_bool_decide; [|done].
    destruct (PaymentModel.findPaymentByPaymentId pid db) as [found|] eqn:Hf; [|done].
    unfold PaymentModel.updatePaymentByPaymentId. by rewrite Hf.
  - intros Hcase.
    destruct (PaymentModel.given_string _) as [pid|] eqn:Hpid; [|done].
    apply given_string_Some in Hpid as [Hpid Hne].
    case_bool_decide as Hst; [|done].
    destruct (PaymentModel.findPaymentByPaymentId pid db) as [found|] eqn:Hf; [|done].
    exfalso. destruct Hcase as [H|[H|H]]; [done| |].
    + rewrite Hpid in H. cbn in H. by apply bool_decide_eq_true in H.
    + apply findPaymentByPaymentId_Some in Hf as (k & p & Hp & Hs & _).
      apply (H k p Hp). congruence.
  - intros k p Huniq Hst Hp Hpid Hne.
    rewrite (proj2 (given_string_Some _ (p_payment_id p))) by done.
    rewrite bool_decide_eq_true_2 by done.
    destruct (PaymentModel.findPaymentByPaymentId (p_payment_id p) db)
      as [found|] eqn:Hf; cycle 1.
    { exfalso. rewrite findPaymentByPaymentId_None in Hf. by apply (Hf k p). }
    unfold PaymentModel.updatePaymentByPaymentId. rewrite Hf.
    apply findPaymentByPaymentId_Some in Hf as (k0 & p0 & Hp0 & Hs0 & ->).
    assert (k0 = k) as -> by (by eapply Huniq).
    assert (p0 = p) as -> by congruence.
    cbn [fst snd PaymentModel.pv_payment PaymentModel.payment_view_of].
    unfold PaymentRoutes.mark_paid.
    cbn [with_supply_records with_payments supply_records payments users].
    split; [|split; [|split; [|split]]].
    + rewrite map_lookup_imap, Hp. cbn.
      rewrite bool_decide_eq_true_2 by done. eexists. split; [done|]. done.
    + intros k' Hk'. rewrite map_lookup_imap.
      destruct (payments db !! k') as [q|] eqn:Hq; [|done]. cbn.
      rewrite bool_decide_eq_false_2; [done|].
      intros Heq. apply Hk'. by eapply Huniq.
    + intros r Hr. rewrite lookup_alter_eq, Hr. cbn.
      case_bool_decide as Hpaid; [by rewrite Hpaid|done].
    + intros id Hid. by rewrite lookup_alter_ne.
    + done.
Qed.

Lemma callback_success_spec_witness :
  let db1 := (PaymentRoutes.gateway Examples.now 42 (Some 9) "demo"
                Scenarios.gateway_request Scenarios.office).1 in
  let res := PaymentRoutes.callback_success
               (Examples.at_time 1736068080000) Scenarios.callback_request db1 in
  payments db1 = {[ 1 := Scenarios.gateway_payment ]}
  ∧ sr_payment_status <$> supply_records res.1 !! 1 = Some paid.
Proof.
  intros db1 res.
  assert (payments db1 = {[ 1 := Scenarios.gateway_payment ]}) as Hpay
    by (vm_compute; reflexivity).
  split; [exact Hpay|].
  destruct (callback_success_spec (Examples.at_time 1736068080000)
              Scenarios.callback_request db1) as (_ & _ & H).
  destruct (H 1 Scenarios.gateway_payment) as (_ & _ & Hpaid & _).
  - intros k1 k2 p1 p2 H1 H2 _. rewrite Hpay in H1, H2.
    apply lookup_singleton_Some in H1 as [<- _].
    by apply lookup_singleton_Some in H2 as [<- _].
  - reflexivity.
  - rewrite Hpay. apply lookup_singleton_eq.
  - reflexivity.
  - discriminate.
  - exact (Hpaid (Examples.delivery "SUP-20250104-0800" unpaid 1735977600000) eq_refl).
Defined.

(** * Inventory: the routes, the controller and the model *)

Lemma isUniqueConstraintError_ER_DUP_ENTRY :
  InventoryController.isUniqueConstraintError Sql.ER_DUP_ENTRY = false.
Proof. vm_compute. reflexivity. Qed.

Lemma create_outcome now inventoryid q db :
  InventoryModel.create now inventoryid q db
  = if InventoryModel.inventoryid_exists inventoryid db
    then (db, Throw Sql.ER_DUP_ENTRY)
    else (with_inventory
            (insert (insertId (inventory db))
               {| inv_inventoryid := inventoryid; inv_quantity := q;
                  inv_createdAt := Js.getTime now; inv_updatedAt := Js.getTime now |}) db,
          Ok {| InventoryModel.ci_id := insertId (inventory db);
                InventoryModel.ci_inventoryid := inventoryid;
                InventoryModel.ci_quantity := q |}).
Proof. reflexivity. Qed.

(** The loop of createInventory makes one attempt: the error of a taken
    inventory id, as the driver reports it, is not recognised as a collision. *)
Lemma create_loop_single n now random q db :
  InventoryController.create_loop (S n) 0 3 now random q db
  = InventoryController.create_loop 1 0 3 now random q db.
Proof.
  cbn [InventoryController.create_loop]. rewrite create_outcome.
  destruct (InventoryModel.inventoryid_exists _ db); [|done].
  by rewrite isUniqueConstraintError_ER_DUP_ENTRY.
Qed.

(** X13.  createInventory never retries.  When the inventory id generated
    for the first attempt is taken, the request is answered 500 "Internal
    server error" at once, no lot is created and no supply quantity changes;
    in general the outcome depends on the first random draw only, and every
    request is answered. *)
Theorem createInventory_no_retry now random body db :
  let res := InventoryController.createInventory now random body db in
  is_Some res.2
  ∧ (∀ random', random' 0 = random 0 →
       InventoryController.createInventory now random' body db = res)
  ∧ (∀ Q, Js.or_number (InventoryController.quantity_kg body)
            (InventoryController.quantity body) = Some Q →
          Q ≠ 0 → Q ≤ total_quantity_kg db →
          InventoryModel.inventoryid_exists
            (InventoryController.uniqueInventoryId now (random 0)) db = true →
          res.2 = Some {| status := 500; success := false;
                          message := "Internal server error"; data := None |}
          ∧ inventory res.1 = inventory db
          ∧ ∀ id, quantity_kg_of res.1 id = quantity_kg_of db id).
Proof.
  cbn zeta. unfold InventoryController.createInventory.
  destruct (Js.or_number _ _) as [Q|]; [|by split; [eauto|split]].
  destruct (Q =? 0) eqn:EQ.
  { split; [eauto|]. split; [done|]. intros Q' [= <-] HQ. lia. }
  pose proof (findAllSupplyRecords_total now db) as Htotal.
  pose proof (findAllSupplyRecords_spec now db) as Hspec. cbn zeta in Hspec.
  pose proof (findAllSupplyRecords_view now db) as Hview. cbn zeta in Hview.
  destruct (SupplierModel.findAllSupplyRecords now db) as [db1 rows].
  cbn [fst snd] in *. rewrite foldl_add_sum, Z.add_0_l, Htotal.
  destruct (total_quantity_kg db <? Q) eqn:Elt.
  { split; [eauto|]. split; [done|]. intros Q' [= <-] _ Hle. lia. }
  rewrite create_loop_single.
  split; [|split].
  - cbn [InventoryController.create_loop]. rewrite create_outcome.
    destruct (InventoryModel.inventoryid_exists _ db1).
    + rewrite isUniqueConstraintError_ER_DUP_ENTRY. cbn. eauto.
    + cbn [fst snd].
      destruct (SupplierModel.findAllSupplyRecords now _) as [db2 rows2].
      destruct (InventoryController.deduct_loop now _ Q db2) as [db3 rem]. cbn. eauto.
  - intros random' Hr. rewrite create_loop_single.
    cbn [InventoryController.create_loop]. by rewrite Hr.
  - intros Q' [= <-] _ _ Hex.
    cbn [InventoryController.create_loop]. rewrite create_outcome.
    destruct Hspec as (_ & _ & Hinv & _).
    rewrite (inventoryid_exists_inventory _ db db1 Hinv), Hex.
    rewrite isUniqueConstraintError_ER_DUP_ENTRY. cbn [andb fst snd].
    split; [done|]. split; [done|]. intros id. apply Hview.
Qed.

Lemma createInventory_no_retry_witness :
  let res := InventoryController.createInventory Examples.now (λ _, 7)
               (Examples.inventory_request 120) Scenarios.taken in
  res.2 = Some {| status := 500; success := false;
                  message := "Internal server error"; data := None |}
  ∧ inventory res.1 = inventory Scenarios.taken.
Proof.
  destruct (createInventory_no_retry Examples.now (λ _, 7)
              (Examples.inventory_request 120) Scenarios.taken) as (_ & _ & H).
  destruct (H 120) as (H1 & H2 & _); try (vm_compute; reflexivity).
  - discriminate.
  - vm_compute. discriminate.
  - split; [exact H1|exact H2].
Defined.

(** ** POST /api/manager/inventory *)

Lemma validation_errors_nil body :
  ManagerRoutes.validation_errors body = [] ↔
  (∃ Q, ManagerRoutes.nullish (ManagerRoutes.quantity_kg body)
          (ManagerRoutes.quantity body) = Some Q ∧ 0 < Q ≤ 999999)
  ∧ (∀ s, ManagerRoutes.supplier_id body = Some s → 0 ≤ s).
Proof.
  unfold ManagerRoutes.validation_errors.
  destruct (ManagerRoutes.nullish _ _) as [Q|]; cycle 1.
  { split; [done|]. by intros [(Q & ? & _) _]. }
  unfold PaymentModel.given_number, Js.falsy_number.
  destruct (Q <=? 0) eqn:E1.
  { split; [done|]. intros [(Q' & [= <-] & ?) _]. lia. }
  destruct (999999 <? Q) eqn:E2.
  { split; [done|]. intros [(Q' & [= <-] & ?) _]. lia. }
  cbn [app].
  destruct (ManagerRoutes.supplier_id body) as [s|]; cycle 1.
  { split; [|done]. intros _. split; [exists Q; split; [done|lia]|done]. }
  destruct (s =? 0) eqn:E3.
  { split; [|done]. intros _. split; [exists Q; split; [done|lia]|].
    intros s' [= <-]. lia. }
  destruct (s <=? 0) eqn:E4.
  { split; [done|]. intros [_ H]. specialize (H s eq_refl). lia. }
  split; [|done]. intros _. split; [exists Q; split; [done|lia]|].
  intros s' [= <-]. lia.
Qed.

(** X14.  POST /api/manager/inventory on whole-number bodies.  A request
    whose quantity ([quantity_kg], or [quantity] where that is absent) is a
    whole number from 1 to 999999 and whose supplier_id is absent or a whole
    number that is not negative passes the validation: it is handed to
    createInventory with that quantity, whose answer is the answer of the
    route, and that answer is never "Quantity is required".  A request
    without a quantity, or whose quantity is a whole number below 1 or above
    999999, or whose supplier_id is a negative whole number, is answered 400
    "Validation failed" with the database untouched.  The route gives no
    answer of its own. *)
Theorem post_inventory_validation now random body db :
  let q := ManagerRoutes.nullish (ManagerRoutes.quantity_kg body)
             (ManagerRoutes.quantity body) in
  let res := ManagerRoutes.post_inventory now random body db in
  (∀ Q, q = Some Q → 0 < Q ≤ 999999 →
     (∀ s, ManagerRoutes.supplier_id body = Some s → 0 ≤ s) →
     let created :=
       InventoryController.createInventory now random
         {| InventoryController.quantity_kg := None;
            InventoryController.quantity := Some Q |} db in
     ∃ answer,
       res = (created.1, ManagerRoutes.Delegated (Some answer))
       ∧ created.2 = Some answer
       ∧ message answer ≠ "Quantity is required")
  ∧ (q = None ∨ (∃ Q, q = Some Q ∧ (Q ≤ 0 ∨ 999999 < Q))
     ∨ (∃ s, ManagerRoutes.supplier_id body = Some s ∧ s < 0) →
     res.1 = db
     ∧ ∃ r, res.2 = ManagerRoutes.Invalid r ∧ status r = 400
            ∧ message r = "Validation failed")
  ∧ (∀ r, res.2 ≠ ManagerRoutes.Direct r).
Proof.
  cbn zeta. unfold ManagerRoutes.post_inventory, ManagerRoutes.validateInventoryData.
  pose proof (validation_errors_nil body) as Hnil.
  destruct (ManagerRoutes.validation_errors body) as [|err errs] eqn:Herr.
  - destruct (proj1 Hnil eq_refl) as [(Q & HQ & Hrange) Hsup].
    cbn [ManagerRoutes.quantity_kg]. rewrite HQ.
    split; [|split].
    + intros Q' [= <-] _ _.
      destruct (InventoryController.createInventory now random _ db) as [db' r] eqn:Hc.
      cbn [fst snd].
      assert (∃ answer, r = Some answer ∧ message answer ≠ "Quantity is required")
        as (answer & -> & Hmsg).
      { revert Hc. unfold InventoryController.createInventory.
        cbn [Js.or_number InventoryController.quantity_kg InventoryController.quantity].
        assert ((Q =? 0) = false) as -> by lia.
        destruct (SupplierModel.findAllSupplyRecords now db) as [db1 rows].
        destruct (_ <? Q).
        { intros [= <- <-]. eexists. split; [done|]. cbn [message].
          rewrite !string_app_cons. discriminate. }
        rewrite create_loop_single. cbn [InventoryController.create_loop].
        rewrite create_outcome.
        destruct (InventoryModel.inventoryid_exists _ db1).
        { rewrite isUniqueConstraintError_ER_DUP_ENTRY. cbn [andb].
          intros [= <- <-]. eexists. split; [done|]. discriminate. }
        destruct (SupplierModel.findAllSupplyRecords now _) as [db2 rows2].
        destruct (InventoryController.deduct_loop now _ Q db2) as [db3 rem].
        intros [= <- <-]. eexists. split; [done|]. cbn [message].
        rewrite !string_app_cons. discriminate. }
      by exists answer.
    + intros [[=]|[(Q' & [= <-] & Hout)|(s & Hs & Hneg)]]; [lia|].
      specialize (Hsup s Hs). lia.
    + intros r. by destruct (InventoryController.createInventory now random _ db).
  - split; [|split].
    + intros Q HQ Hrange Hsup.
      assert (err :: errs = []) as Hno; [|discriminate Hno].
      apply Hnil. eauto.
    + intros _. cbn. eauto.
    + done.
Qed.

Lemma post_inventory_validation_witness :
  ((ManagerRoutes.post_inventory Examples.now (λ _, 7) Requests.zero_first
      Examples.ledger).1 = Examples.ledger
   ∧ ∃ r, (ManagerRoutes.post_inventory Examples.now (λ _, 7) Requests.zero_first
             Examples.ledger).2 = ManagerRoutes.Invalid r
          ∧ status r = 400)
  ∧ ∃ answer,
      (ManagerRoutes.post_inventory Examples.now (λ _, 7) Requests.store_120
         Examples.ledger).2 = ManagerRoutes.Delegated (Some answer)
      ∧ message answer ≠ "Quantity is required".
Proof.
  split.
  - destruct (post_inventory_validation Examples.now (λ _, 7) Requests.zero_first
                Examples.ledger) as (_ & H & _).
    destruct H as (Hdb & r & Hr & H400 & _).
    { right. left. exists 0. split; [reflexivity|lia]. }
    split; [exact Hdb|]. exists r. split; [exact Hr|exact H400].
  - destruct (post_inventory_validation Examples.now (λ _, 7) Requests.store_120
                Examples.ledger) as (H & _ & _).
    destruct (H 120) as (answer & Hres & _ & Hmsg);
      [reflexivity|lia|discriminate|].
    exists answer. split; [by rewrite Hres|exact Hmsg].
Defined.

(** ** updateInventory *)

Lemma inventory_duplicate_spec (i : string) (id : Z) (db : database) :
  existsb (λ kv : Z * inventory_lot,
             bool_decide (inv_inventoryid kv.2 = i) && negb (bool_decide (kv.1 = id)))
          (select_all (inventory db)) = true
  ↔ ∃ k l, k ≠ id ∧ inventory db !! k = Some l ∧ inv_inventoryid l = i.
Proof.
  rewrite existsb_exists. split.
  - intros ([k l] & Hin & Hb). apply list_elem_of_In, elem_of_map_to_list in Hin.
    apply andb_true_iff in Hb as [H1 H2]. cbn in H1, H2.
    apply bool_decide_eq_true in H1. apply negb_true_iff in H2.
    apply bool_decide_eq_false in H2. eauto.
  - intros (k & l & Hk & Hl & Hi). exists (k, l). split.
    + apply list_elem_of_In, elem_of_map_to_list. exact Hl.
    + cbn. rewrite (bool_decide_eq_true_2 _ Hi), (bool_decide_eq_false_2 _ Hk). done.
Qed.

(** X15.  updateInventory answers 400 when the quantity is missing or zero,
    404 when the lot does not exist, 403 when the lot was created more than 15
    minutes ago (at exactly 15 minutes the edit is still allowed), and changes
    nothing in these cases.  Otherwise, when the request names an inventory id
    that another lot carries, it answers 500 without a change; in every other
    case it stores the quantity and, when one is given, the inventory id,
    keeps createdAt, every other lot and every other table, and answers 200
    with the stored lot. *)
Theorem updateInventory_spec now id body db :
  let q := Js.or_number (InventoryController.u_quantity_kg body)
             (InventoryController.u_quantity body) in
  let res := InventoryController.updateInventory now id body db in
  let duplicate :=
    ∃ i k l, InventoryController.u_inventoryid body = Some i ∧ i ≠ ""
             ∧ k ≠ id ∧ inventory db !! k = Some l ∧ inv_inventoryid l = i in
  (Js.falsy_number q = true → res.1 = db ∧ status res.2 = 400)
  ∧ (∀ Q, q = Some Q → Q ≠ 0 →
       match inventory db !! id with
       | None => res.1 = db ∧ status res.2 = 404
       | Some lot =>
           (15 * 60 * 1000 < Js.getTime now - inv_createdAt lot →
              res.1 = db ∧ status res.2 = 403)
           ∧ (Js.getTime now - inv_createdAt lot ≤ 15 * 60 * 1000 →
              (duplicate → res.1 = db ∧ status res.2 = 500)
              ∧ (¬ duplicate →
                 status res.2 = 200
                 ∧ (∃ lot', inventory res.1 = <[id := lot']> (inventory db)
                            ∧ data res.2 = Some lot'
                            ∧ inv_quantity lot' = Q
                            ∧ inv_inventoryid lot'
                              = (if Js.falsy_string (InventoryController.u_inventoryid body)
                                 then inv_inventoryid lot
                                 else default "" (InventoryController.u_inventoryid body))
                            ∧ inv_createdAt lot' = inv_createdAt lot)
                 ∧ users res.1 = users db
                 ∧ supply_records res.1 = supply_records db
                 ∧ payments res.1 = payments db
                 ∧ production_data res.1 = production_data db))
       end).
Proof.
  intros q res duplicate. subst res. unfold InventoryController.updateInventory.
  fold q. split.
  { intros ->. done. }
  intros Q HQ HQ0. rewrite HQ.
  assert (Js.falsy_number (Some Q) = false) as -> by (cbn; lia).
  unfold InventoryModel.findById.
  destruct (inventory db !! id) as [lot|] eqn:Hlot; [|done].
  destruct (SupplierModel.timeDifference_exceeds 15 (Js.getTime now) (inv_createdAt lot))
    eqn:Ht.
  { apply timeDifference_exceeds_spec in Ht. split; [done|lia]. }
  assert (¬ 15 * 60 * 1000 < Js.getTime now - inv_createdAt lot) as Hnot.
  { intros H%timeDifference_exceeds_spec. congruence. }
  split; [lia|]. intros _.
  unfold InventoryModel.updateById. rewrite Hlot.
  destruct (InventoryController.u_inventoryid body) as [i|] eqn:Hi; cbn [Js.falsy_string].
  - case_bool_decide as Hempty.
    + split.
      * intros (i' & k & l & [= <-] & Hne & _). done.
      * intros _. unfold InventoryModel.findById. cbn. rewrite lookup_insert_eq. repeat split; eauto.
        eexists. repeat split; eauto.
    + destruct (existsb _ _) eqn:Hdup.
      * apply inventory_duplicate_spec in Hdup as (k & l & Hk & Hl & Hil).
        split; [done|]. intros []. exists i, k, l. done.
      * split.
        { intros (i' & k & l & [= <-] & _ & Hk & Hl & Hil).
          assert (existsb (λ kv : Z * inventory_lot,
                     bool_decide (inv_inventoryid kv.2 = i) && negb (bool_decide (kv.1 = id)))
                    (select_all (inventory db)) = true) as Htrue
            by (apply inventory_duplicate_spec; eauto).
          congruence. }
        intros _. unfold InventoryModel.findById. cbn. rewrite lookup_insert_eq. repeat split; eauto.
        eexists. repeat split; eauto.
  - split.
    + intros (i' & k & l & [=] & _).
    + intros _. unfold InventoryModel.findById. cbn. rewrite lookup_insert_eq. repeat split; eauto.
      eexists. repeat split; eauto.
Qed.

Lemma updateInventory_spec_witness :
  let res := InventoryController.updateInventory Examples.now 1
               {| InventoryController.u_quantity_kg := Some 0;
                  InventoryController.u_quantity := None;
                  InventoryController.u_inventoryid := None |} Examples.ledger in
  res.1 = Examples.ledger ∧ status res.2 = 400.
Proof.
  apply (updateInventory_spec Examples.now 1
           {| InventoryController.u_quantity_kg := Some 0;
              InventoryController.u_quantity := None;
              InventoryController.u_inventoryid := None |} Examples.ledger).
  reflexivity.
Defined.

(** ** InventoryModel *)

Lemma inventoryid_exists_spec (inventoryid : string) (db : database) :
  InventoryModel.inventoryid_exists inventoryid db = true
  ↔ ∃ k l, inventory db !! k = Some l ∧ inv_inventoryid l = inventoryid.
Proof.
  unfold InventoryModel.inventoryid_exists. rewrite existsb_exists. split.
  - intros ([k l] & Hin & Hb). apply list_elem_of_In, elem_of_map_to_list in Hin.
    apply bool_decide_eq_true in Hb. eauto.
  - intros (k & l & Hl & Hi). exists (k, l). split.
    + apply list_elem_of_In, elem_of_map_to_list. exact Hl.
    + cbn. by apply bool_decide_eq_true_2.
Qed.

Lemma with_inventory_delete_insert id lot db :
  inventory db !! id = None →
  with_inventory (delete id) (with_inventory (insert id lot) db) = db.
Proof.
  intros H. destruct db as [u s p i pd]. unfold with_inventory. cbn in *.
  f_equal. by apply delete_insert_id.
Qed.

(** X16.  InventoryModel.create refuses an inventory id that a lot already
    carries and changes nothing.  Otherwise it stores the lot under a key that
    was not in use: findById on that key returns the given inventory id and
    quantity, every other key reads as before, a second create with the same
    inventory id is refused, and deleteById on the key reports a deleted row
    and leaves the tables as they were before the create. *)
Theorem InventoryModel_create_roundtrip now inventoryid quantity db :
  let res := InventoryModel.create now inventoryid quantity db in
  ((∃ k l, inventory db !! k = Some l ∧ inv_inventoryid l = inventoryid) →
     res.1 = db ∧ ∃ e, res.2 = Throw e)
  ∧ ((∀ k l, inventory db !! k = Some l → inv_inventoryid l ≠ inventoryid) →
     ∃ c, res.2 = Ok c
       ∧ InventoryModel.ci_inventoryid c = inventoryid
       ∧ InventoryModel.ci_quantity c = quantity
       ∧ InventoryModel.findById (InventoryModel.ci_id c) db = None
       ∧ InventoryModel.findById (InventoryModel.ci_id c) res.1
         = Some {| inv_inventoryid := inventoryid; inv_quantity := quantity;
                   inv_createdAt := Js.getTime now; inv_updatedAt := Js.getTime now |}
       ∧ (∀ k, k ≠ InventoryModel.ci_id c →
            InventoryModel.findById k res.1 = InventoryModel.findById k db)
       ∧ (∀ now' quantity',
            (InventoryModel.create now' inventoryid quantity' res.1).1 = res.1
            ∧ ∃ e, (InventoryModel.create now' inventoryid quantity' res.1).2 = Throw e)
       ∧ InventoryModel.deleteById (InventoryModel.ci_id c) res.1 = (db, true)).
Proof.
  intros res. subst res. unfold InventoryModel.create.
  destruct (InventoryModel.inventoryid_exists inventoryid db) eqn:Hex.
  - split; [intros _; split; [done|eauto]|].
    intros Hno. apply inventoryid_exists_spec in Hex as (k & l & Hl & Hi).
    by destruct (Hno k l Hl).
  - split.
    { intros H. apply inventoryid_exists_spec in H. congruence. }
    intros _. eexists. split; [reflexivity|].
    pose proof (insertId_fresh (inventory db)) as Hfresh.
    cbn [fst snd InventoryModel.ci_id InventoryModel.ci_inventoryid
         InventoryModel.ci_quantity].
    unfold InventoryModel.findById, InventoryModel.deleteById.
    cbn [inventory with_inventory].
    rewrite lookup_insert_eq.
    repeat split; try done.
    + intros k Hk. by rewrite lookup_insert_ne.
    + match goal with |- context [InventoryModel.inventoryid_exists ?i ?d] =>
        assert (InventoryModel.inventoryid_exists i d = true) as ->
      end; [|done].
      apply inventoryid_exists_spec. eexists _, _. cbn [inventory with_inventory].
      split; [apply lookup_insert_eq|done].
    + match goal with |- context [InventoryModel.inventoryid_exists ?i ?d] =>
        assert (InventoryModel.inventoryid_exists i d = true) as ->
      end; [|eauto].
      apply inventoryid_exists_spec. eexists _, _. cbn [inventory with_inventory].
      split; [apply lookup_insert_eq|done].
    + f_equal. by apply with_inventory_delete_insert.
Qed.

Lemma InventoryModel_create_roundtrip_witness :
  let res := InventoryModel.create Examples.now "INV-1" 40 Examples.ledger in
  ∃ c, res.2 = Ok c
    ∧ InventoryModel.deleteById (InventoryModel.ci_id c) res.1 = (Examples.ledger, true).
Proof.
  destruct (InventoryModel_create_roundtrip Examples.now "INV-1" 40 Examples.ledger)
    as [_ H].
  destruct H as (c & Hc & _ & _ & _ & _ & _ & _ & Hdel).
  { intros k l Hl. vm_compute in Hl. discriminate. }
  exists c. split; [exact Hc|exact Hdel].
Defined.

(** ** getProductionById *)

Lemma filter_key_NoDup {A} (l : list (Z * A)) (id : Z) :
  NoDup l.*1 →
  (∀ p, (id, p) ∈ l → filter (λ kv : Z * A, kv.1 = id) l = [(id, p)])
  ∧ (id ∉ l.*1 → filter (λ kv : Z * A, kv.1 = id) l = []).
Proof.
  induction l as [|[k a] l IH]; intros Hnd.
  - split; [intros p H; by apply elem_of_nil in H|done].
  - rewrite fmap_cons in Hnd. apply NoDup_cons in Hnd as [Hk Hnd].
    destruct (IH Hnd) as [IH1 IH2]. split.
    + intros p Hp. apply elem_of_cons in Hp as [Heq|Hin].
      * injection Heq as <- <-. rewrite filter_cons_True by done.
        f_equal. by apply IH2.
      * assert (k ≠ id) as Hne.
        { intros ->. apply Hk. apply list_elem_of_fmap. by exists (id, p). }
        rewrite filter_cons_False by done. by apply IH1.
    + intros Hnot. rewrite fmap_cons in Hnot. apply not_elem_of_cons in Hnot as [Hne Hnot].
      rewrite filter_cons_False by (cbn; intros Heq; by apply Hne). by apply IH2.
Qed.

Lemma ProductionModel_findById_spec id db :
  ProductionModel.findById id db
  = match production_data db !! id with
    | Some p => [(id, p)]
    | None => []
    end.
Proof.
  unfold ProductionModel.findById, select_all.
  destruct (filter_key_NoDup (map_to_list (production_data db)) id
              (NoDup_fst_map_to_list _)) as [H1 H2].
  destruct (production_data db !! id) as [p|] eqn:Hp.
  - apply H1. by apply elem_of_map_to_list.
  - apply H2. intros ([k p] & -> & Hin)%list_elem_of_fmap.
    apply elem_of_map_to_list in Hin. cbn in Hp. congruence.
Qed.

Lemma production_deduct_loop_production_data now items rem db :
  production_data (ProductionController.deduct_loop now items rem db).1
  = production_data db.
Proof.
  revert rem db. induction items as [|[id item] items IH]; intros rem db; [done|].
  cbn [ProductionController.deduct_loop].
  destruct (rem <=? 0); [done|].
  destruct (0 <? inv_quantity item); [|apply IH].
  unfold InventoryModel.updateById.
  destruct (inventory db !! id) as [lot|]; [|done].
  rewrite IH. done.
Qed.

(** X17.  getProductionById answers 400 only when no id is given.  For every
    id it answers 200 with the rows of that key: one row when the production
    record exists, and the empty list, still with status 200 and success, when
    it does not; the test for a missing record never holds, so it never
    answers 404.  After a createProduction answered 201, the id of its answer
    fetches exactly the record created: its production id is the generated
    one, its quantity is [parseInt(quantity)] and its date the one given. *)
Theorem getProductionById_spec id db :
  let res := ProductionController.getProductionById id db in
  (status res = 400 ↔ id = None)
  ∧ status res ≠ 404
  ∧ (∀ k, id = Some k →
       status res = 200 ∧ success res = true
       ∧ data res = Some match production_data db !! k with
                         | Some p => [(k, p)]
                         | None => []
                         end)
  ∧ (∀ now production_id body,
       let created := ProductionController.createProduction now production_id body db in
       status created.2 = 201 →
       ∃ pid p,
         (ProductionController.cp_id <$> data created.2) = Some pid
         ∧ production_data db !! pid = None
         ∧ ProductionController.getProductionById (Some pid) created.1
           = {| status := 200; success := true;
                message := "Production record retrieved successfully";
                data := Some [(pid, p)] |}
         ∧ pr_production_id p = production_id
         ∧ Some (pr_quantity p) = Js.parseInt_value (ProductionController.quantity body)
         ∧ Some (pr_production_date p) = ProductionController.production_date body).
Proof.
  cbn zeta. split; [|split; [|split]].
  - destruct id as [k|]; cbn; [|done]. split; [lia|done].
  - destruct id as [k|]; cbn; lia.
  - intros k ->. cbn. by rewrite ProductionModel_findById_spec.
  - intros now production_id body.
    unfold ProductionController.createProduction.
    destruct (Js.truthy (ProductionController.quantity body)); [|cbn; lia].
    destruct (ProductionController.production_date body) as [date|]; [|cbn; lia].
    destruct (Js.parseInt_value (ProductionController.quantity body)) as [Q|];
      [|cbn; lia].
    destruct (Q <=? 0); [cbn; lia|].
    destruct (_ <? Q); [cbn; lia|].
    unfold ProductionModel.create.
    destruct (ProductionModel.production_id_exists production_id db); [cbn; lia|].
    match goal with
    | |- context [ProductionController.deduct_loop ?n ?items ?rem ?d] =>
        pose proof (production_deduct_loop_production_data n items rem d) as Hpr;
        destruct (ProductionController.deduct_loop n items rem d) as [db2 [r|e]]
    end; [|cbn; lia].
    intros _. cbn [fst snd data fmap option_fmap option_map ProductionController.cp_id]
      in *.
    eexists _, _. split; [done|]. split; [apply insertId_fresh|].
    split.
    { unfold ProductionController.getProductionById, Js.truthy_array. cbn [negb].
      rewrite ProductionModel_findById_spec, Hpr. cbn.
      by rewrite lookup_insert_eq. }
    done.
Qed.

Lemma getProductionById_spec_witness :
  let created := ProductionController.createProduction Examples.now
                   "PROD-M5K2J8Q0-A1B2C3" Requests.fractional_production
                   Scenarios.taken in
  status (ProductionController.getProductionById (Some 5) Scenarios.taken) = 200
  ∧ data (ProductionController.getProductionById (Some 5) Scenarios.taken) = Some []
  ∧ ∃ pid p,
      ProductionController.getProductionById (Some pid) created.1
      = {| status := 200; success := true;
           message := "Production record retrieved successfully";
           data := Some [(pid, p)] |}
      ∧ pr_production_id p = "PROD-M5K2J8Q0-A1B2C3"
      ∧ pr_quantity p = 10.
Proof.
  destruct (getProductionById_spec (Some 5) Scenarios.taken) as (_ & _ & H & Hget).
  destruct (H 5 eq_refl) as (H200 & _ & Hdata).
  split; [exact H200|]. split; [exact Hdata|].
  destruct (Hget Examples.now "PROD-M5K2J8Q0-A1B2C3" Requests.fractional_production)
    as (pid & p & _ & _ & Hrow & Hid & Hq & _).
  { vm_compute. reflexivity. }
  exists pid, p. split; [exact Hrow|]. split; [exact Hid|].
  change (Js.parseInt_value
            (ProductionController.quantity Requests.fractional_production))
    with (Some 10) in Hq.
  by injection Hq.
Defined.

(** ** updateSupplyRecord (controller) *)

Section object_facts.
Import SupplierController.

Lemma get_cons k k0 v0 (o : object) :
  get k ((k0, v0) :: o) = if decide (k0 = k) then v0 else get k o.
Proof.
  unfold get. rewrite (filter_cons (λ kv : string * option update_value, kv.1 = k)).
  cbn [fst]. by destruct (decide (k0 = k)).
Qed.

Lemma delete_key_cons k k0 v0 (o : object) :
  delete_key k ((k0, v0) :: o)
  = if decide (k0 = k) then delete_key k o else (k0, v0) :: delete_key k o.
Proof.
  unfold delete_key.
  rewrite (filter_cons (λ kv : string * option update_value, kv.1 ≠ k)). cbn [fst].
  destruct (decide (k0 = k)) as [->|Hne].
  - by destruct (decide (k ≠ k)).
  - by destruct (decide (k0 ≠ k)).
Qed.

Lemma get_app_single k k' v (o : object) :
  get k' (o ++ [(k, v)])
  = if bool_decide (k' ∈ o.*1) then get k' o else if decide (k = k') then v else None.
Proof.
  induction o as [|[k0 v0] o IH].
  - rewrite app_nil_l, get_cons, fmap_nil,
      (bool_decide_eq_false_2 _ (not_elem_of_nil k')).
    done.
  - rewrite <- app_comm_cons, !get_cons, fmap_cons. cbn [fst].
    destruct (decide (k0 = k')) as [->|Hne].
    + by rewrite bool_decide_eq_true_2 by (apply elem_of_cons; by left).
    + rewrite IH.
      destruct (bool_decide (k' ∈ o.*1)) eqn:E1;
        destruct (bool_decide (k' ∈ k0 :: o.*1)) eqn:E2; try done; exfalso.
      * apply bool_decide_eq_true in E1. apply bool_decide_eq_false in E2.
        apply E2, elem_of_cons. by right.
      * apply bool_decide_eq_false in E1. apply bool_decide_eq_true in E2.
        apply elem_of_cons in E2 as [E2|E2]; [congruence|done].
Qed.

Lemma get_None k (o : object) : k ∉ o.*1 → get k o = None.
Proof.
  induction o as [|[k0 v0] o IH]; [done|].
  rewrite fmap_cons, not_elem_of_cons, get_cons. cbn [fst]. intros [Hne Hnot].
  destruct (decide (k0 = k)); [congruence|]. by apply IH.
Qed.

Lemma get_fmap_set k k' v (o : object) :
  get k' ((λ kv : string * option update_value,
             if bool_decide (kv.1 = k) then (k, v) else kv) <$> o)
  = if decide (k' = k) then (if bool_decide (k ∈ o.*1) then v else None) else get k' o.
Proof.
  induction o as [|[k0 v0] o IH].
  - rewrite !fmap_nil, (bool_decide_eq_false_2 _ (not_elem_of_nil k)).
    by destruct (decide (k' = k)).
  - rewrite !fmap_cons. cbn [fst snd]. destruct (decide (k0 = k)) as [->|Hk].
    + rewrite (bool_decide_eq_true_2 _ (eq_refl k)). rewrite !get_cons, IH.
      rewrite (bool_decide_eq_true_2 (k ∈ k :: o.*1)) by (apply elem_of_cons; by left).
      destruct (decide (k = k')) as [->|Hne].
      * by destruct (decide (k' = k')).
      * destruct (decide (k' = k)); [congruence|done].
    + rewrite (bool_decide_eq_false_2 _ Hk). rewrite !get_cons, IH.
      destruct (decide (k0 = k')) as [->|Hne].
      * destruct (decide (k' = k)); [congruence|done].
      * destruct (decide (k' = k)); [|done].
        destruct (bool_decide (k ∈ o.*1)) eqn:E1;
          destruct (bool_decide (k ∈ k0 :: o.*1)) eqn:E2; try done; exfalso.
        -- apply bool_decide_eq_true in E1. apply bool_decide_eq_false in E2.
           apply E2, elem_of_cons. by right.
        -- apply bool_decide_eq_false in E1. apply bool_decide_eq_true in E2.
           apply elem_of_cons in E2 as [E2|E2]; [congruence|done].
Qed.

Lemma get_set_eq k v (o : object) : get k (set k v o) = v.
Proof.
  unfold set. case_bool_decide as Hin.
  - rewrite get_fmap_set. destruct (decide (k = k)); [|done].
    by rewrite bool_decide_eq_true_2.
  - rewrite get_app_single, (bool_decide_eq_false_2 _ Hin).
    by destruct (decide (k = k)).
Qed.

Lemma get_set_ne k k' v (o : object) : k' ≠ k → get k' (set k v o) = get k' o.
Proof.
  intros Hne. unfold set. case_bool_decide as Hin.
  - rewrite get_fmap_set. by destruct (decide (k' = k)).
  - rewrite get_app_single. case_bool_decide as Hin'; [done|].
    destruct (decide (k = k')); [congruence|]. symmetry. by apply get_None.
Qed.

Lemma get_delete_key_eq k (o : object) : get k (delete_key k o) = None.
Proof.
  induction o as [|[k0 v0] o IH]; [done|].
  rewrite delete_key_cons. destruct (decide (k0 = k)) as [->|Hne]; [done|].
  rewrite get_cons. by destruct (decide (k0 = k)).
Qed.

Lemma get_delete_key_ne k k' (o : object) : k' ≠ k → get k' (delete_key k o) = get k' o.
Proof.
  intros Hne. induction o as [|[k0 v0] o IH]; [done|].
  rewrite delete_key_cons, get_cons. destruct (decide (k0 = k)) as [->|Hk].
  - destruct (decide (k = k')); [congruence|done].
  - rewrite get_cons. by destruct (decide (k0 = k')).
Qed.

End object_facts.

(** X18.  The staff edit of a supply record recalculates total_payment from
    the request alone.  A truthy quantity_kg is handed on under the name
    quantity.  When the request names neither a quantity nor a unit price the
    data go to the model as they came; when it names one and the record does
    not exist the answer is 404.  For an existing record, a request that gives
    both as numbers is handed on with total_payment = quantity * unit_price;
    a request that gives only one of the two is handed on with total_payment =
    NaN, whatever quantity and price the record holds. *)
Theorem updateSupplyRecord_total_payment id body db :
  let qv := if SupplierController.truthy (SupplierController.get "quantity_kg" body)
            then SupplierController.get "quantity_kg" body
            else SupplierController.get "quantity" body in
  let pv := SupplierController.get "unit_price" body in
  let res := SupplierController.updateSupplyRecord_data id body db in
  (SupplierController.truthy qv = false → SupplierController.truthy pv = false →
     res = inr body)
  ∧ (SupplierController.truthy qv || SupplierController.truthy pv = true →
       match supply_records db !! id with
       | None => ∃ r, res = inl r ∧ status r = 404
       | Some _ =>
           ∃ d, res = inr d
             ∧ (SupplierController.truthy qv = true →
                  SupplierController.get "quantity" d = qv)
             ∧ SupplierController.get "unit_price" d = pv
             ∧ (SupplierController.truthy (SupplierController.get "quantity_kg" body) = true →
                  SupplierController.get "quantity_kg" d = None)
             ∧ (∀ Q P,
                  qv = Some (SupplierController.U_value (SupplierModel.V_number Q)) →
                  pv = Some (SupplierController.U_value (SupplierModel.V_number P)) →
                  Q ≠ 0 → P ≠ 0 →
                  SupplierController.get "total_payment" d
                  = Some (SupplierController.U_value (SupplierModel.V_number (Q * P))))
             ∧ (SupplierController.truthy qv && SupplierController.truthy pv = false →
                  SupplierController.get "total_payment" d
                  = Some SupplierController.U_NaN)
       end).
Proof.
  intros qv pv res. subst res. unfold SupplierController.updateSupplyRecord_data.
  set (updateData := if SupplierController.truthy (SupplierController.get "quantity_kg" body)
                     then _ else body).
  assert (SupplierController.get "unit_price" updateData = pv) as Hp.
  { subst updateData.
    destruct (SupplierController.truthy (SupplierController.get "quantity_kg" body)); [|done].
    by rewrite get_delete_key_ne, get_set_ne. }
  assert (SupplierController.get "quantity" updateData = qv) as Hq.
  { subst updateData qv.
    destruct (SupplierController.truthy (SupplierController.get "quantity_kg" body)); [|done].
    by rewrite get_delete_key_ne, get_set_eq. }
  assert (SupplierController.truthy (SupplierController.get "quantity_kg" body) = true →
          SupplierController.get "quantity_kg" updateData = None) as Hk.
  { intros Ht. subst updateData. rewrite Ht. apply get_delete_key_eq. }
  rewrite Hp, Hq. split.
  { intros Hqf Hpf. rewrite Hqf, Hpf. cbn [orb]. subst updateData.
    destruct (SupplierController.truthy (SupplierController.get "quantity_kg" body))
      eqn:Ht; [|done].
    unfold qv in Hqf. rewrite Ht in Hqf. congruence. }
  intros Hor. rewrite Hor. unfold SupplierModel.findSupplyRecordById.
  destruct (supply_records db !! id) as [r|]; [|eauto].
  eexists. split; [reflexivity|].
  rewrite !get_set_ne by done. rewrite get_set_eq.
  split; [done|]. split; [done|]. split; [done|]. split.
  - intros Q P HQ HP HQ0 HP0. rewrite HQ, HP. cbn [SupplierController.truthy].
    assert (negb (Q =? 0) = true) as -> by (apply negb_true_iff; lia).
    assert (negb (P =? 0) = true) as -> by (apply negb_true_iff; lia).
    reflexivity.
  - intros Hand. do 2 f_equal.
    destruct (SupplierController.truthy qv).
    + cbn [andb] in Hand. rewrite Hand.
      by destruct (SupplierController.parseFloat qv).
    + reflexivity.
Qed.

Lemma updateSupplyRecord_total_payment_witness :
  ∃ d, SupplierController.updateSupplyRecord_data 1 (Requests.quantity_only 40)
         Examples.ledger = inr d
    ∧ SupplierController.get "total_payment" d = Some SupplierController.U_NaN.
Proof.
  destruct (updateSupplyRecord_total_payment 1 (Requests.quantity_only 40)
              Examples.ledger) as [_ H].
  destruct H as (d & Hd & _ & _ & _ & _ & Hnan); [reflexivity|].
  exists d. split; [exact Hd|]. apply Hnan. reflexivity.
Defined.

(** ** The order and the limit of findAllPayments *)

Section newest_first.
Context {A : Type} (key : A → Z).

Lemma newer_first_trans : Transitive (λ a b : A, key b ≤ key a).
Proof. intros a b c. lia. Qed.

Lemma sort_desc_Sorted (l : list A) :
  StronglySorted (λ a b : A, key b ≤ key a) (Js.sort (λ a b, key b <=? key a) l).
Proof.
  apply Sorted_StronglySorted; [apply newer_first_trans|].
  eapply Sorted_weaken; [|apply sort_Sorted].
  - intros a b. simpl. lia.
  - intros a b. lia.
Qed.

Lemma StronglySorted_take (n : nat) (l : list A) :
  StronglySorted (λ a b : A, key b ≤ key a) l → StronglySorted (λ a b : A, key b ≤ key a) (take n l).
Proof.
  intros Hs. rewrite <- (take_drop n l) in Hs. by apply StronglySorted_app_1_l in Hs.
Qed.

Lemma take_drop_newer (n : nat) (l : list A) (x y : A) :
  StronglySorted (λ a b : A, key b ≤ key a) l → x ∈ take n l → y ∈ drop n l → key y ≤ key x.
Proof.
  intros Hs Hx Hy. rewrite <- (take_drop n l) in Hs.
  exact (StronglySorted_app_1_elem_of _ _ _ _ _ Hs Hx Hy).
Qed.

(** In a list ordered newest first the entries at least as new as [t] form
    a prefix. *)
Lemma newest_prefix (t : Z) (l : list A) :
  StronglySorted (λ a b : A, key b ≤ key a) l →
  ∃ c, length (filter (λ x, t ≤ key x) l) = c
       ∧ ∀ x, x ∈ take c l → t ≤ key x.
Proof.
  induction 1 as [|x l Hs IH Hall].
  - exists 0%nat. split; [done|]. intros x Hx. by apply elem_of_nil in Hx.
  - destruct IH as (c & Hc & Hpre). destruct (decide (t ≤ key x)) as [Hx|Hx].
    + exists (S c). rewrite filter_cons_True by done. split; [cbn; by rewrite Hc|].
      intros y Hy. cbn in Hy. apply elem_of_cons in Hy as [->|Hy]; [done|by apply Hpre].
    + exists 0%nat. rewrite filter_cons_False by done. split.
      * rewrite length_zero_iff_nil. apply filter_none.
        intros y Hy Hty. rewrite Forall_forall in Hall.
        assert (key y ≤ key x) as Hxy by (by apply Hall).
        lia.
      * intros y Hy. by apply elem_of_nil in Hy.
Qed.

Lemma elem_of_take_le (n m : nat) (l : list A) (x : A) :
  (n ≤ m)%nat → x ∈ take n l → x ∈ take m l.
Proof.
  intros Hnm Hx. apply list_elem_of_lookup in Hx as [i Hi].
  apply lookup_take_Some in Hi as [Hi Hlt].
  apply list_elem_of_lookup. exists i. apply lookup_take_Some. split; [done|lia].
Qed.

Lemma length_filter_all (P : A → Prop) `{!∀ x, Decision (P x)} (l : list A) :
  (∀ x, x ∈ l → P x) → length (filter P l) = length l.
Proof.
  intros Hall. induction l as [|x l IH]; [done|].
  rewrite filter_cons_True by (apply Hall; by left). cbn. f_equal.
  apply IH. intros y Hy. apply Hall. by right.
Qed.

(** The [n] newest of the [n] newest of two lists are the [n] newest of
    both. *)
Lemma newest_of_both (n : nat) (P S : list A) (e e' : A) :
  StronglySorted (λ a b : A, key b ≤ key a) P → StronglySorted (λ a b : A, key b ≤ key a) S →
  let res := take n (Js.sort (λ a b, key b <=? key a) (take n P ++ take n S)) in
  e ∈ res → e' ∈ P ++ S → e' ∉ res → key e' ≤ key e.
Proof.
  intros HP HS res He He' Hnot.
  set (combined := Js.sort (λ a b, key b <=? key a) (take n P ++ take n S)) in *.
  pose proof (sort_desc_Sorted (take n P ++ take n S)) as Hsorted. fold combined in Hsorted.
  assert (∀ L L', StronglySorted (λ a b : A, key b ≤ key a) L → e' ∈ drop n L →
                  combined ≡ₚ take n L ++ L' → key e' ≤ key e) as Hbeyond.
  { intros L L' HL Hd Hperm.
    assert (length (take n L) = n) as Hlen.
    { rewrite length_take. apply list_elem_of_lookup in Hd as [i Hi].
      apply lookup_lt_Some in Hi. rewrite length_drop in Hi. lia. }
    destruct (newest_prefix (key e') combined Hsorted) as (c & Hc & Hpre).
    apply Hpre. apply (elem_of_take_le n); [|done].
    rewrite <- Hc, Hperm, filter_app, length_app.
    rewrite (length_filter_all (λ x, key e' ≤ key x) (take n L)); [lia|].
    intros x Hx. by apply (take_drop_newer n L). }
  assert (e' ∈ take n P ++ take n S → key e' ≤ key e) as Hwithin.
  { intros Hin.
    assert (e' ∈ combined) as Hc by (by apply elem_of_sort).
    rewrite <- (take_drop n combined) in Hc. apply elem_of_app in Hc as [Hc|Hc]; [done|].
    by apply (take_drop_newer n combined e e'). }
  apply elem_of_app in He' as [HeP|HeS].
  - rewrite <- (take_drop n P) in HeP. apply elem_of_app in HeP as [HeP|HeP].
    + apply Hwithin, elem_of_app. by left.
    + apply (Hbeyond P (take n S)); [done|done|apply sort_Permutation].
  - rewrite <- (take_drop n S) in HeS. apply elem_of_app in HeS as [HeS|HeS].
    + apply Hwithin, elem_of_app. by right.
    + apply (Hbeyond S (take n P)); [done|done|].
      unfold combined. rewrite sort_Permutation. apply Permutation_app_comm.
Qed.

End newest_first.

Lemma StronglySorted_sort_time_fmap {A} (key : A → Z) (f : A → PaymentModel.entry)
    (l : list A) :
  (∀ x, PaymentModel.sort_time (f x) = key x) →
  StronglySorted (λ a b : PaymentModel.entry,
                    PaymentModel.sort_time b ≤ PaymentModel.sort_time a)
    (f <$> Sql.order_by_desc key l).
Proof.
  intros Hkey. unfold Sql.order_by_desc.
  pose proof (sort_desc_Sorted key l) as Hs.
  induction Hs as [|x l' Hs IH Hall]; [constructor|].
  rewrite fmap_cons. constructor; [done|].
  rewrite Forall_fmap. eapply Forall_impl; [exact Hall|].
  intros y Hy. cbn. by rewrite !Hkey.
Qed.

(** X19.  findAllPayments lists its entries newest first (by created_at).
    Without a limit (the filter's limit is undefined, null, 0 or the empty
    string) the list holds exactly the payments that pass the filters and the
    unpaid supply records without a payment that pass them.  With a limit
    that stands for a positive whole number [n] it holds at most [n] entries,
    and they are the newest: no entry that passes the filters and was left
    out is newer than a listed one. *)
Theorem findAllPayments_newest_first LIKE fl db :
  let res := PaymentModel.findAllPayments LIKE fl db in
  let passes (e : PaymentModel.entry) :=
    (∃ kv, payments db !! kv.1 = Some kv.2
           ∧ PaymentModel.payment_selected LIKE fl db kv = true
           ∧ e = PaymentModel.payment_entry db kv)
    ∨ (∃ kv, supply_records db !! kv.1 = Some kv.2
             ∧ PaymentModel.supply_selected LIKE fl db kv = true
             ∧ e = PaymentModel.supply_entry db kv) in
  StronglySorted (λ a b, PaymentModel.sort_time b ≤ PaymentModel.sort_time a) res
  ∧ (∀ e, e ∈ res → passes e)
  ∧ (PaymentModel.f_limit fl = None → ∀ e, passes e → e ∈ res)
  ∧ (∀ n, PaymentModel.f_limit fl = Some n →
       (length res ≤ Pos.to_nat n)%nat
       ∧ ∀ e e', e ∈ res → passes e' → e' ∉ res →
           PaymentModel.sort_time e' ≤ PaymentModel.sort_time e).
Proof.
  intros res passes.
  set (Ps := Sql.order_by_desc (λ kv : Z * payment, p_created_at kv.2)
               (filter (λ kv, PaymentModel.payment_selected LIKE fl db kv = true)
                       (select_all (payments db)))).
  set (Ss := Sql.order_by_desc (λ kv : Z * supply_record, sr_created_at kv.2)
               (filter (λ kv, PaymentModel.supply_selected LIKE fl db kv = true)
                       (select_all (supply_records db)))).
  assert (StronglySorted (λ a b, PaymentModel.sort_time b ≤ PaymentModel.sort_time a)
            (PaymentModel.payment_entry db <$> Ps)) as HPs
    by (by apply StronglySorted_sort_time_fmap).
  assert (StronglySorted (λ a b, PaymentModel.sort_time b ≤ PaymentModel.sort_time a)
            (PaymentModel.supply_entry db <$> Ss)) as HSs
    by (by apply StronglySorted_sort_time_fmap).
  assert (∀ e, passes e ↔ e ∈ (PaymentModel.payment_entry db <$> Ps)
                              ++ (PaymentModel.supply_entry db <$> Ss)) as Hpasses.
  { intros e. unfold passes, Ps, Ss, Sql.order_by_desc, select_all.
    rewrite elem_of_app, !list_elem_of_fmap.
    split; (intros [(kv & H)|(kv & H)]; [left|right]; exists kv).
    - destruct H as (Hkv & Hsel & ->). split; [done|].
      apply elem_of_sort, list_elem_of_filter. split; [done|].
      apply elem_of_map_to_list'. done.
    - destruct H as (Hkv & Hsel & ->). split; [done|].
      apply elem_of_sort, list_elem_of_filter. split; [done|].
      apply elem_of_map_to_list'. done.
    - destruct H as (-> & Hin). apply elem_of_sort, list_elem_of_filter in Hin as [Hsel Hin].
      apply elem_of_map_to_list' in Hin. done.
    - destruct H as (-> & Hin). apply elem_of_sort, list_elem_of_filter in Hin as [Hsel Hin].
      apply elem_of_map_to_list' in Hin. done. }
  assert (res = match PaymentModel.f_limit fl with
                | Some n =>
                    take (Pos.to_nat n)
                      (Js.sort (λ a b, PaymentModel.sort_time b
                                       <=? PaymentModel.sort_time a)
                         (take (Pos.to_nat n) (PaymentModel.payment_entry db <$> Ps)
                          ++ take (Pos.to_nat n) (PaymentModel.supply_entry db <$> Ss)))
                | None =>
                    Js.sort (λ a b, PaymentModel.sort_time b <=? PaymentModel.sort_time a)
                      ((PaymentModel.payment_entry db <$> Ps)
                       ++ (PaymentModel.supply_entry db <$> Ss))
                end) as Hres.
  { subst res. unfold PaymentModel.findAllPayments. fold Ps Ss.
    destruct (PaymentModel.f_limit fl) as [n|]; [|done].
    cbn [fmap option_fmap option_map]. unfold Sql.limit. by rewrite !fmap_take. }
  rewrite Hres. clear Hres.
  destruct (PaymentModel.f_limit fl) as [n|].
  - split; [apply StronglySorted_take, sort_desc_Sorted|].
    split.
    { intros e He. apply Hpasses.
      apply list_elem_of_lookup in He as [i Hi]. apply lookup_take_Some in Hi as [Hi _].
      apply list_elem_of_lookup_2, elem_of_sort in Hi.
      apply elem_of_app in Hi as [Hi|Hi]; apply elem_of_app; [left|right];
        apply list_elem_of_lookup in Hi as [j Hj]; apply lookup_take_Some in Hj as [Hj _];
        by apply list_elem_of_lookup_2 in Hj. }
    split; [done|]. intros n' [= <-]. split.
    { rewrite length_take. lia. }
    intros e e' He He' Hnot. apply Hpasses in He'.
    exact (newest_of_both PaymentModel.sort_time (Pos.to_nat n) _ _ e e' HPs HSs
             He He' Hnot).
  - split; [apply sort_desc_Sorted|].
    split; [intros e He; apply elem_of_sort in He; by apply Hpasses|].
    split; [intros _ e He; apply elem_of_sort; by apply Hpasses|].
    intros n [=].
Qed.

(** ** Masked account numbers *)

Lemma substring_0_all (k : nat) (s : string) :
  (String.length s ≤ k)%nat → substring 0 k s = s.
Proof.
  revert k. induction s as [|c s IH]; intros k Hk.
  - by destruct k.
  - destruct k as [|k]; cbn in Hk; [lia|]. cbn. f_equal. apply IH. lia.
Qed.

Lemma substring_suffix (n : nat) (s : string) :
  (n ≤ String.length s)%nat →
  ∃ hidden, s = hidden +:+ substring n (String.length s - n) s
            ∧ String.length hidden = n.
Proof.
  revert n. induction s as [|c s IH]; intros n Hn.
  - cbn in Hn. assert (n = 0%nat) as -> by lia. by exists "".
  - destruct n as [|n].
    + exists "". split; [|done]. rewrite substring_0_all; [done|lia].
    + cbn in Hn. destruct (IH n) as (hidden & Heq & Hlen); [lia|].
      exists (String c hidden). split; [|cbn; by rewrite Hlen].
      cbn [String.length Nat.sub substring]. rewrite string_app_cons. by f_equal.
Qed.

Lemma slice_last_spec (k : nat) (s : string) :
  ∃ hidden, s = hidden +:+ Js.slice_last k s
            ∧ String.length hidden = (String.length s - k)%nat.
Proof.
  unfold Js.slice_last.
  destruct (decide (String.length s ≤ k)%nat) as [Hle|Hgt].
  - exists "". replace (String.length s - k)%nat with 0%nat by lia.
    by rewrite substring_0_all.
  - destruct (substring_suffix (String.length s - k) s) as (hidden & Heq & Hlen); [lia|].
    exists hidden. split; [|done].
    replace (String.length s - (String.length s - k))%nat with k in Heq by lia. done.
Qed.

(** X20.  getSupplierById answers 404 exactly when no user with the role
    supplier has the id.  Otherwise it answers 200 with a row whose columns
    other than the account number are the stored ones.  With
    fullBankDetails = "true" the account number is the stored one; in every
    other case a stored number that is not empty is replaced by three stars
    and its last four characters, so that all but the last four characters
    are withheld, and a number of at most four characters is shown in full
    behind the stars. *)
Theorem getSupplierById_masking id fullBankDetails db :
  let res := SupplierController.getSupplierById id fullBankDetails db in
  (status res = 404 ↔ ¬ ∃ u, users db !! id = Some u ∧ u_role u = supplier)
  ∧ (∀ u, users db !! id = Some u → u_role u = supplier →
       status res = 200
       ∧ ∃ u', data res = Some u'
           ∧ (u_name u' = u_name u ∧ u_email u' = u_email u
              ∧ u_phone u' = u_phone u ∧ u_role u' = u_role u
              ∧ u_supplier_id u' = u_supplier_id u ∧ u_status u' = u_status u
              ∧ u_address u' = u_address u ∧ u_bank_name u' = u_bank_name u
              ∧ u_created_at u' = u_created_at u ∧ u_updated_at u' = u_updated_at u)
           ∧ (fullBankDetails = Some "true" → u_account_number u' = u_account_number u)
           ∧ (fullBankDetails ≠ Some "true" →
                match u_account_number u with
                | None => u_account_number u' = None
                | Some a =>
                    if bool_decide (a = "") then u_account_number u' = Some ""
                    else ∃ hidden tail,
                           a = hidden +:+ tail
                           ∧ u_account_number u' = Some ("***" +:+ tail)
                           ∧ String.length hidden = (String.length a - 4)%nat
                end)).
Proof.
  intros res. subst res.
  unfold SupplierController.getSupplierById, SupplierModel.findById.
  destruct (users db !! id) as [u|] eqn:Hu.
  - case_bool_decide as Hrole.
    + split.
      { cbn. split; [lia|]. intros []. eauto. }
      intros u' [= <-] _. split; [done|].
      case_bool_decide as Hfull; cbn [negb data].
      * exists u. split; [done|]. split; [done|]. split; [done|]. done.
      * unfold SupplierModel.mask_account_number.
        destruct (u_account_number u) as [a|] eqn:Ha.
        -- case_bool_decide as Hempty.
           ++ exists u. subst a. split; [done|]. split; [done|]. split; [done|]. done.
           ++ destruct (slice_last_spec 4 a) as (hidden & Heq & Hlen).
              eexists. split; [done|]. split; [done|].
              split; [done|]. intros _. by exists hidden, (Js.slice_last 4 a).
        -- exists u. split; [done|]. split; [done|]. split; [done|]. done.
    + split.
      { cbn. split; [|done]. intros _ (u' & [= <-] & Hr). done. }
      intros u' [= <-] Hr. done.
  - split.
    { cbn. split; [|done]. intros _ (u' & [=] & _). }
    intros u' [=].
Qed.

Lemma getSupplierById_masking_witness :
  u_account_number Examples.ann = Some "1234567890"
  ∧ (u_account_number
       <$> data (SupplierController.getSupplierById 1 None Examples.ledger))
    = Some (Some "***7890")
  ∧ (u_account_number
       <$> data (SupplierController.getSupplierById 1 (Some "true") Examples.ledger))
    = Some (Some "1234567890").
Proof.
  split; [reflexivity|]. split.
  - destruct (getSupplierById_masking 1 None Examples.ledger) as [_ H].
    destruct (H Examples.ann eq_refl eq_refl) as (_ & u' & -> & _ & _ & Hmask).
    specialize (Hmask ltac:(discriminate)).
    change (u_account_number Examples.ann) with (Some "1234567890") in Hmask.
    cbv iota in Hmask. rewrite bool_decide_eq_false_2 in Hmask by discriminate.
    destruct Hmask as (hidden & tail & Heq & Hshown & Hlen).
    cbn [fmap option_fmap option_map]. rewrite Hshown. do 2 f_equal. f_equal.
    cbn in Hlen.
    do 6 (destruct hidden as [|? hidden]; [discriminate Hlen|]).
    destruct hidden; [|discriminate Hlen].
    rewrite !string_app_cons, string_app_nil_l in Heq.
    by injection Heq as <- <- <- <- <- <- <-.
  - destruct (getSupplierById_masking 1 (Some "true") Examples.ledger) as [_ H].
    destruct (H Examples.ann eq_refl eq_refl) as (_ & u' & -> & _ & Hfull & _).
    cbn [fmap option_fmap option_map]. by rewrite (Hfull eq_refl).
Defined.

(** ** PUT /api/manager/inventory/:id *)

(** X21.  PUT /api/manager/inventory/:id changes nothing when the body fails
    the validation (400), when the id is no positive number (400) or when no
    lot has the id (404).  A valid request that names no inventory id, for a
    lot whose inventory id no other lot carries, is answered 403 without a
    change once the lot is more than 15 minutes old; within the 15 minutes it
    is answered 200 and stores the new quantity, keeping the inventory id and
    createdAt of the lot, every other lot and every other table. *)
Theorem put_inventory_spec now id body db :
  let res := ManagerRoutes.put_inventory now id body db in
  (∀ r, res.2 = ManagerRoutes.Invalid r → res.1 = db ∧ status r = 400)
  ∧ (∀ r, res.2 = ManagerRoutes.Direct r →
       res.1 = db
       ∧ ((status r = 400 ∧ ∀ k, id = Some k → k ≤ 0)
          ∨ (status r = 404 ∧ ∃ k, id = Some k ∧ inventory db !! k = None)))
  ∧ (∀ Q k lot,
       ManagerRoutes.nullish (ManagerRoutes.quantity_kg body) (ManagerRoutes.quantity body)
       = Some Q →
       0 < Q ≤ 999999 →
       (∀ s, ManagerRoutes.supplier_id body = Some s → 0 ≤ s) →
       Js.falsy_string (ManagerRoutes.inventoryid body) = true →
       id = Some k → 0 < k →
       inventory db !! k = Some lot →
       (∀ k' lot', k' ≠ k → inventory db !! k' = Some lot' →
                   inv_inventoryid lot' ≠ inv_inventoryid lot) →
       ∃ r, res.2 = ManagerRoutes.Delegated (Some r)
         ∧ if bool_decide (15 * 60 * 1000 < Js.getTime now - inv_createdAt lot)
           then res.1 = db ∧ status r = 403
           else status r = 200
                ∧ (∃ lot', inventory res.1 = <[k := lot']> (inventory db)
                           ∧ data r = Some lot'
                           ∧ inv_quantity lot' = Q
                           ∧ inv_inventoryid lot' = inv_inventoryid lot
                           ∧ inv_createdAt lot' = inv_createdAt lot)
                ∧ users res.1 = users db
                ∧ supply_records res.1 = supply_records db
                ∧ payments res.1 = payments db
                ∧ production_data res.1 = production_data db).
Proof.
  intros res. subst res. unfold ManagerRoutes.put_inventory.
  split; [|split].
  - intros r. unfold ManagerRoutes.validateInventoryData.
    destruct (ManagerRoutes.validation_errors body) as [|e errors].
    + destruct id as [k|]; [|done]. destruct (k <=? 0); [done|].
      destruct (inventory db !! k); [|done].
      by destruct (InventoryController.updateInventory _ _ _ _).
    + cbn. intros [= <-]. done.
  - intros r. destruct (ManagerRoutes.validateInventoryData body) as [|body']; [done|].
    destruct id as [k|].
    + destruct (k <=? 0) eqn:Hk.
      * cbn. intros [= <-]. split; [done|]. left. split; [done|].
        intros k' [= <-]. lia.
      * destruct (inventory db !! k) eqn:Hlot.
        -- by destruct (InventoryController.updateInventory _ _ _ _).
        -- cbn. intros [= <-]. split; [done|]. right. eauto.
    + cbn. intros [= <-]. split; [done|]. left. split; [done|]. intros k [=].
  - intros Q k lot HQ HQr Hs Hfalsy -> Hk Hlot Huniq.
    assert (ManagerRoutes.validation_errors body = []) as Hval.
    { apply validation_errors_nil. split; [eauto|done]. }
    unfold ManagerRoutes.validateInventoryData. rewrite Hval.
    assert ((k <=? 0) = false) as -> by lia. rewrite Hlot.
    cbn [ManagerRoutes.quantity_kg ManagerRoutes.inventoryid]. rewrite HQ, Hfalsy.
    unfold InventoryController.updateInventory.
    cbn [InventoryController.u_quantity_kg InventoryController.u_quantity
         InventoryController.u_inventoryid Js.or_number].
    assert (Js.falsy_number (Some Q) = false) as -> by (cbn; lia).
    unfold InventoryModel.findById. rewrite Hlot.
    destruct (SupplierModel.timeDifference_exceeds 15 (Js.getTime now) (inv_createdAt lot))
      eqn:Ht.
    { apply timeDifference_exceeds_spec in Ht. eexists. split; [reflexivity|].
      by rewrite bool_decide_eq_true_2. }
    assert (¬ 15 * 60 * 1000 < Js.getTime now - inv_createdAt lot) as Hnot.
    { intros H%timeDifference_exceeds_spec. congruence. }
    rewrite (bool_decide_eq_false_2 _ Hnot).
    unfold InventoryModel.updateById. rewrite Hlot.
    destruct (Js.falsy_string (Some (inv_inventoryid lot))) eqn:Hown.
    + eexists. split; [reflexivity|]. unfold InventoryModel.findById. cbn.
      rewrite lookup_insert_eq. repeat split; eauto.
      eexists. repeat split; eauto.
    + assert (existsb (λ kv : Z * inventory_lot,
                 bool_decide (inv_inventoryid kv.2 = inv_inventoryid lot)
                 && negb (bool_decide (kv.1 = k)))
                (select_all (inventory db)) = false) as ->.
      { apply not_true_is_false. intros Hdup.
        apply inventory_duplicate_spec in Hdup as (k' & lot' & Hne & Hl' & Heq).
        by apply (Huniq k' lot'). }
      eexists. split; [reflexivity|]. unfold InventoryModel.findById. cbn.
      rewrite lookup_insert_eq. repeat split; eauto.
      eexists. repeat split; eauto.
Qed.

Lemma put_inventory_spec_witness :
  ∃ r, (ManagerRoutes.put_inventory Examples.now (Some 4) Requests.store_120
          Scenarios.taken).2 = ManagerRoutes.Delegated (Some r)
       ∧ status r = 200.
Proof.
  destruct (put_inventory_spec Examples.now (Some 4) Requests.store_120 Scenarios.taken)
    as (_ & _ & H).
  destruct (H 120 4 (Examples.lot "INV-20250105-0907-07" 10 1736068000000))
    as (r & Hr & Hif); try reflexivity; try lia; try discriminate.
  { intros k' lot' Hne Hl. cbn in Hl. rewrite lookup_singleton_ne in Hl by done.
    discriminate. }
  rewrite bool_decide_eq_false_2 in Hif by (cbn; lia).
  exists r. split; [exact Hr|apply Hif].
Defined.

(** ** The answers of createProduction *)





(** ** Deleting a supply record *)

(** X23.  The staff delete of a supply record answers 404 when the record
    does not exist.  For a record older than 15 minutes it answers 500 with
    the message "Failed to delete supply record" (the message about the
    15 minutes does not reach the client) and changes nothing.  Within the 15
    minutes it answers 200, removes the record together with every payment
    that refers to it and leaves all other rows; afterwards the record cannot
    be fetched and no entry of the payment list refers to it. *)
Theorem deleteSupplyRecord_answers now id db :
  let res := SupplierController.deleteSupplyRecord now id db in
  match supply_records db !! id with
  | None => res.1 = db ∧ status res.2 = 404
  | Some r =>
      (15 * 60 * 1000 < Js.getTime now - sr_created_at r →
         res.1 = db ∧ status res.2 = 500
         ∧ message res.2 = "Failed to delete supply record")
      ∧ (Js.getTime now - sr_created_at r ≤ 15 * 60 * 1000 →
           status res.2 = 200
           ∧ supply_records res.1 = delete id (supply_records db)
           ∧ (∀ k p, payments res.1 !! k = Some p
                     ↔ payments db !! k = Some p ∧ p_supply_record_id p ≠ id)
           ∧ users res.1 = users db
           ∧ inventory res.1 = inventory db
           ∧ production_data res.1 = production_data db
           ∧ SupplierModel.findSupplyRecordById id true res.1 = None
           ∧ (∀ LIKE fl e, e ∈ PaymentModel.findAllPayments LIKE fl res.1 →
                PaymentModel.e_supply_record_id e ≠ Some id))
  end.
Proof.
  intros res. subst res.
  unfold SupplierController.deleteSupplyRecord, SupplierModel.findSupplyRecordById,
    SupplierModel.deleteSupplyRecord.
  destruct (supply_records db !! id) as [r|] eqn:Hr; [|done].
  destruct (SupplierModel.timeDifference_exceeds 15 (Js.getTime now) (sr_created_at r))
    eqn:Ht.
  { apply timeDifference_exceeds_spec in Ht. split; [done|lia]. }
  assert (¬ 15 * 60 * 1000 < Js.getTime now - sr_created_at r) as Hnot.
  { intros H%timeDifference_exceeds_spec. congruence. }
  split; [lia|]. intros _. cbn [fst snd status].
  assert (∀ k p, payments (SupplierModel.delete_supply_record id db) !! k = Some p
                 ↔ payments db !! k = Some p ∧ p_supply_record_id p ≠ id) as Hpay.
  { intros k p. unfold SupplierModel.delete_supply_record. cbn [payments].
    by rewrite map_lookup_filter_Some. }
  split; [done|]. split; [done|]. split; [exact Hpay|].
  split; [done|]. split; [done|]. split; [done|]. split.
  - unfold SupplierModel.delete_supply_record. cbn [supply_records].
    by rewrite lookup_delete_eq.
  - intros LIKE fl e He Heq.
    apply findAllPayments_elem in He as [([k p] & Hkv & ->)|([k s] & Hkv & _ & ->)].
    + cbn [fst snd] in Hkv. apply Hpay in Hkv as [_ Hne].
      cbn in Heq. apply fmap_Some in Heq as (? & _ & ?). congruence.
    + cbn [fst snd] in Hkv. cbn in Heq. injection Heq as ->.
      unfold SupplierModel.delete_supply_record in Hkv. cbn [supply_records] in Hkv.
      by rewrite lookup_delete_eq in Hkv.
Qed.

(** ** The script updateSupplierIds *)

Lemma foldl_set_supplier_id (now : Z) (l : list (Z * user)) (db : database) :
  NoDup l.*1 →
  let res := foldl (λ db1 (s : Z * user),
                      UpdateSupplierIds.set_supplier_id
                        (UpdateSupplierIds.supplierId_of s.1) s.1 now db1) db l in
  (∀ k, users res !! k
        = if bool_decide (k ∈ l.*1)
          then (λ u, set_u_updated_at now
                       (set_u_supplier_id (Some (UpdateSupplierIds.supplierId_of k)) u))
               <$> users db !! k
          else users db !! k)
  ∧ supply_records res = supply_records db ∧ payments res = payments db
  ∧ inventory res = inventory db ∧ production_data res = production_data db.
Proof.
  revert db. induction l as [|[id u] l IH]; intros db Hnd.
  - cbn. split; [|done]. intros k.
    by rewrite bool_decide_eq_false_2 by apply not_elem_of_nil.
  - rewrite fmap_cons in Hnd. apply NoDup_cons in Hnd as [Hid Hnd]. cbn [foldl fst].
    destruct (IH (UpdateSupplierIds.set_supplier_id (UpdateSupplierIds.supplierId_of id)
                    id now db) Hnd) as (Hk & -> & -> & -> & ->).
    split; [|done]. intros k. rewrite Hk, fmap_cons. cbn [fst].
    unfold UpdateSupplierIds.set_supplier_id. cbn [users with_users].
    destruct (decide (k = id)) as [->|Hne].
    + rewrite (bool_decide_eq_false_2 _ Hid).
      rewrite bool_decide_eq_true_2 by (apply elem_of_cons; by left).
      by rewrite lookup_alter_eq.
    + rewrite lookup_alter_ne by done.
      destruct (bool_decide (k ∈ l.*1)) eqn:E.
      * apply bool_decide_eq_true in E.
        by rewrite bool_decide_eq_true_2 by (apply elem_of_cons; by right).
      * apply bool_decide_eq_false in E.
        rewrite bool_decide_eq_false_2; [done|].
        intros [?|?]%elem_of_cons; done.
Qed.

(** The users table after the script. *)
Lemma updateSupplierIds_users now db k :
  users (UpdateSupplierIds.updateSupplierIds now db) !! k
  = (λ u, if bool_decide (u_role u = supplier) && Js.falsy_string (u_supplier_id u)
          then set_u_updated_at (Js.getTime now)
                 (set_u_supplier_id (Some (UpdateSupplierIds.supplierId_of k)) u)
          else u) <$> users db !! k.
Proof.
  unfold UpdateSupplierIds.updateSupplierIds.
  set (l := filter _ _).
  assert (NoDup l.*1) as Hnd.
  { unfold l, select_all.
    apply (sublist_NoDup _ (map_to_list (users db)).*1);
      [apply NoDup_fst_map_to_list|apply fmap_sublist, sublist_filter]. }
  destruct (foldl_set_supplier_id (Js.getTime now) l db Hnd) as [Hk _].
  rewrite Hk. clear Hk.
  destruct (users db !! k) as [u|] eqn:Hu; cbn [fmap option_fmap option_map].
  - destruct (bool_decide (u_role u = supplier) && Js.falsy_string (u_supplier_id u)) eqn:E.
    + rewrite bool_decide_eq_true_2; [done|].
      apply list_elem_of_fmap. exists (k, u). split; [done|].
      apply list_elem_of_filter. apply andb_prop in E as [Hr%bool_decide_eq_true Hf].
      split; [done|]. by apply elem_of_map_to_list.
    + rewrite bool_decide_eq_false_2; [done|].
      intros ([k' u'] & -> & Hin)%list_elem_of_fmap.
      apply list_elem_of_filter in Hin as [[Hr Hf] Hin].
      apply elem_of_map_to_list in Hin. cbn [fst snd] in *.
      assert (u' = u) as -> by congruence.
      rewrite Hf, (bool_decide_eq_true_2 _ Hr) in E. done.
  - by destruct (bool_decide (k ∈ l.*1)).
Qed.

Lemma updateSupplierIds_frame now db :
  supply_records (UpdateSupplierIds.updateSupplierIds now db) = supply_records db
  ∧ payments (UpdateSupplierIds.updateSupplierIds now db) = payments db
  ∧ inventory (UpdateSupplierIds.updateSupplierIds now db) = inventory db
  ∧ production_data (UpdateSupplierIds.updateSupplierIds now db) = production_data db.
Proof.
  unfold UpdateSupplierIds.updateSupplierIds.
  set (l := filter _ _).
  assert (NoDup l.*1) as Hnd.
  { unfold l, select_all.
    apply (sublist_NoDup _ (map_to_list (users db)).*1);
      [apply NoDup_fst_map_to_list|apply fmap_sublist, sublist_filter]. }
  by destruct (foldl_set_supplier_id (Js.getTime now) l db Hnd) as [_ H].
Qed.

(** The ids of the script have fewer than six digits for user ids below
    100000. *)
Lemma script_id_not_conforming (id : Z) :
  0 < id < 100000 → Sql.regexp_SUP6 (UpdateSupplierIds.supplierId_of id) = false.
Proof.
  intros Hid. unfold UpdateSupplierIds.supplierId_of.
  rewrite regexp_SUP6_app, padStart0_length.
  pose proof (toString_length_le 5 id ltac:(simpl; lia) ltac:(lia)).
  rewrite bool_decide_eq_false_2 by lia. done.
Qed.

Lemma script_id_nonempty (id : Z) : UpdateSupplierIds.supplierId_of id ≠ "".
Proof. unfold UpdateSupplierIds.supplierId_of. by rewrite !string_app_cons. Qed.

Lemma maxNumber_same_elements (l l' : list string) :
  Forall (λ s, Sql.regexp_SUP6 s = true) l →
  Forall (λ s, Sql.regexp_SUP6 s = true) l' →
  (∀ s, s ∈ l ↔ s ∈ l') →
  SupplierModel.maxNumber l = SupplierModel.maxNumber l'.
Proof.
  intros Hl Hl' Hsame. unfold SupplierModel.maxNumber.
  destruct (maxNumber_foldl l 0 Hl) as (H0 & Hall & Hex).
  destruct (maxNumber_foldl l' 0 Hl') as (H0' & Hall' & Hex').
  apply Z.le_antisymm.
  - destruct Hex as [->|(s & Hs & <-)]; [done|]. apply Hall'. by apply Hsame.
  - destruct Hex' as [->|(s & Hs & <-)]; [done|]. apply Hall. by apply Hsame.
Qed.

Lemma database_eq (db1 db2 : database) :
  users db1 = users db2 → supply_records db1 = supply_records db2 →
  payments db1 = payments db2 → inventory db1 = inventory db2 →
  production_data db1 = production_data db2 → db1 = db2.
Proof. destruct db1, db2. cbn. by intros -> -> -> -> ->. Qed.

(** X24.  The script updateSupplierIds gives every supplier whose supplier_id
    is NULL or empty the id SUP followed by its user id padded to four digits,
    and changes nothing else: afterwards no supplier lacks an id, and a second
    run changes nothing.  For user ids below 100000 these ids are not of the
    form SUP and six digits, so that generateSupplierId does not count them:
    it issues the same id after the script as before it. *)
Theorem updateSupplierIds_spec now db :
  let res := UpdateSupplierIds.updateSupplierIds now db in
  (∀ k, users res !! k
        = (λ u, if bool_decide (u_role u = supplier) && Js.falsy_string (u_supplier_id u)
                then set_u_updated_at (Js.getTime now)
                       (set_u_supplier_id
                          (Some ("SUP" +:+ Js.padStart0 4 (Js.toString k))) u)
                else u) <$> users db !! k)
  ∧ (∀ k u, users res !! k = Some u → u_role u = supplier →
            Js.falsy_string (u_supplier_id u) = false)
  ∧ supply_records res = supply_records db ∧ payments res = payments db
  ∧ inventory res = inventory db ∧ production_data res = production_data db
  ∧ (∀ now', UpdateSupplierIds.updateSupplierIds now' res = res)
  ∧ ((∀ k u, users db !! k = Some u → u_role u = supplier →
             Js.falsy_string (u_supplier_id u) = true → 0 < k < 100000) →
     (∀ s, s ∈ SupplierModel.existing_supplier_ids res
           ↔ s ∈ SupplierModel.existing_supplier_ids db)
     ∧ (SupplierModel.maxNumber (SupplierModel.existing_supplier_ids db) < 999999 →
        ∀ now', SupplierModel.generateSupplierId now' res
                = SupplierModel.generateSupplierId now' db)).
Proof.
  intros res.
  assert (∀ k u, users res !! k = Some u → u_role u = supplier →
                 Js.falsy_string (u_supplier_id u) = false) as Hall.
  { intros k u Hu Hr. unfold res in Hu. rewrite updateSupplierIds_users in Hu.
    apply fmap_Some in Hu as (u0 & Hu0 & ->).
    destruct (bool_decide (u_role u0 = supplier)) eqn:E; cbn [andb] in *.
    - destruct (Js.falsy_string (u_supplier_id u0)) eqn:Hf; [|done].
      cbn. apply bool_decide_eq_false_2, script_id_nonempty.
    - apply bool_decide_eq_false in E. done. }
  destruct (updateSupplierIds_frame now db) as (Hsr & Hpay & Hinv & Hprod). fold res in Hsr, Hpay, Hinv, Hprod.
  split; [intros k; apply updateSupplierIds_users|].
  split; [exact Hall|].
  split; [done|]. split; [done|]. split; [done|]. split; [done|]. split.
  { intros now'.
    destruct (updateSupplierIds_frame now' res) as (Hsr' & Hpay' & Hinv' & Hprod').
    apply database_eq; try done.
    apply map_eq. intros k. rewrite updateSupplierIds_users.
    destruct (users res !! k) as [u|] eqn:Hu; [|done]. cbn.
    destruct (bool_decide (u_role u = supplier)) eqn:E; [|done].
    apply bool_decide_eq_true in E. by rewrite (Hall k u Hu E). }
  intros Hids.
  assert (∀ s, s ∈ SupplierModel.existing_supplier_ids res
               ↔ s ∈ SupplierModel.existing_supplier_ids db) as Hsame.
  { intros s. rewrite !existing_supplier_ids_spec. split.
    - intros (k & u & Hu & Hr & Hs & Hne & Hconf).
      unfold res in Hu. rewrite updateSupplierIds_users in Hu.
      apply fmap_Some in Hu as (u0 & Hu0 & ->).
      destruct (bool_decide (u_role u0 = supplier) && Js.falsy_string (u_supplier_id u0))
        eqn:E.
      + apply andb_prop in E as [Hr0%bool_decide_eq_true Hf0].
        cbn in Hs. injection Hs as <-.
        rewrite script_id_not_conforming in Hconf by (by apply (Hids k u0)). done.
      + exists k, u0. done.
    - intros (k & u & Hu & Hr & Hs & Hne & Hconf).
      exists k, u. split; [|done].
      unfold res. rewrite updateSupplierIds_users, Hu. cbn.
      assert (Js.falsy_string (u_supplier_id u) = false) as ->.
      { rewrite Hs. cbn. by apply bool_decide_eq_false_2. }
      by rewrite andb_false_r. }
  split; [exact Hsame|]. intros Hmax now'.
  assert (SupplierModel.maxNumber (SupplierModel.existing_supplier_ids res)
          = SupplierModel.maxNumber (SupplierModel.existing_supplier_ids db)) as Hm.
  { apply maxNumber_same_elements; [apply existing_supplier_ids_conforming..|done]. }
  rewrite !generateSupplierId_below_limit by (rewrite ?Hm; done).
  by rewrite Hm.
Qed.

Lemma updateSupplierIds_spec_witness :
  SupplierModel.generateSupplierId Examples.now
    (UpdateSupplierIds.updateSupplierIds Examples.now Examples.backlog)
  = SupplierModel.generateSupplierId Examples.now Examples.backlog.
Proof.
  destruct (updateSupplierIds_spec Examples.now Examples.backlog)
    as (_ & _ & _ & _ & _ & _ & _ & H).
  destruct H as [_ H].
  - intros k u Hu _ _. cbn in Hu.
    destruct (decide (k = 1)) as [->|H1]; [lia|].
    destruct (decide (k = 2)) as [->|H2]; [lia|].
    rewrite lookup_insert_ne in Hu by done.
    rewrite lookup_singleton_ne in Hu by done. discriminate.
  - apply H. vm_compute. reflexivity.
Defined.
